(** * AI-Language-Teacher: the transcript scoring pipeline

    A shallow embedding of the analysis services of the backend
    ([app/services/llama_analysis.py], [app/services/gpt_analysis.py]),
    of the service selection of [app/main.py] and of the progress query of
    [app/services/conversation_service.py], followed by the properties the
    specification states about them.  The development goes on with the rest
    of these files and with [app/services/auth.py]: the analysers of one
    dimension, the reply to the student, the tokens and the endpoints behind
    the authentication, and closes with further properties of this code.

    Modelling conventions.
    - A Python [str] is a [string] whose characters are the code points
      below 256; the character classes ([isspace], [isalpha], [lower]) are
      the Unicode ones restricted to that range.
    - A Python [int] is a [Z].  A Python [float] is the rational number it
      denotes, or an infinity, or NaN ([pyfloat]); arithmetic on floats is
      exact, the rounding of binary64 is not modelled.  A number written
      in a text is read as [inf] when it is too large for binary64.
    - A Python object that the code treats dynamically (the output of
      [json.loads], the dictionaries handed between the methods) is a
      [pyval]; a [dict] is an association list with distinct keys.
    - Code that can raise runs in the error monad [M]; [exn] stands for the
      instances of Python's [Exception], which is what [except Exception]
      catches.  [async def] methods are awaited one after the other, so they
      are sequential computations in [M].
    - The language model, the OpenAI client, [json.loads] and the database
      are external: they are parameters of the definitions that call them. *)

From Stdlib Require Import ZArith QArith Qround List String Ascii Bool Lia Lqa.
From Stdlib Require Import DecimalString.
Import ListNotations.

Set Implicit Arguments.
Set Warnings "-register-all".
Set Warnings "-notation-overridden".
Set Warnings "-notation-incompatible-prefix".

(* ================================================================== *)
(** ** Python strings *)

Module PyStr.

Local Open Scope N_scope.

Definition code (c : ascii) : N := N_of_ascii c.

Definition between (lo hi : N) (c : ascii) : bool :=
  (lo <=? code c) && (code c <=? hi).

(** [str.isspace] on one character: TAB..CR, FS..US, SPACE, NEL, NBSP. *)
Definition isspace (c : ascii) : bool :=
  between 9 13 c || between 28 32 c || (code c =? 133) || (code c =? 160).

(** [str.isalpha] on one character. *)
Definition isalpha (c : ascii) : bool :=
  between 65 90 c || between 97 122 c
  || (code c =? 170) || (code c =? 181) || (code c =? 186)
  || between 192 214 c || between 216 246 c || between 248 255 c.

(** The decimal digits matched by [\d]. *)
Definition isdigit (c : ascii) : bool := between 48 57 c.

Definition lower_char (c : ascii) : ascii :=
  if between 65 90 c || between 192 214 c || between 216 222 c
  then ascii_of_N (code c + 32) else c.

Definition upper_char (c : ascii) : ascii :=
  if between 97 122 c then ascii_of_N (code c - 32) else c.

Fixpoint map_chars (f : ascii -> ascii) (s : string) : string :=
  match s with
  | EmptyString => EmptyString
  | String c s' => String (f c) (map_chars f s')
  end.

(** [s.lower()] *)
Definition lower (s : string) : string := map_chars lower_char s.

(** [s.upper()], for a text of ASCII characters. *)
Definition upper (s : string) : string := map_chars upper_char s.

Fixpoint filter_chars (p : ascii -> bool) (s : string) : string :=
  match s with
  | EmptyString => EmptyString
  | String c s' => if p c then String c (filter_chars p s') else filter_chars p s'
  end.

(** [len(s)] *)
Definition len (s : string) : Z := Z.of_nat (String.length s).

(** [s.strip()] *)
Fixpoint lstrip (s : string) : string :=
  match s with
  | EmptyString => EmptyString
  | String c s' => if isspace c then lstrip s' else s
  end.

Fixpoint rstrip (s : string) : string :=
  match s with
  | EmptyString => EmptyString
  | String c s' =>
      match rstrip s' with
      | EmptyString => if isspace c then EmptyString else String c EmptyString
      | r => String c r
      end
  end.

Definition strip (s : string) : string := lstrip (rstrip s).

(** The line feed. *)
Definition nl : string := String (ascii_of_N 10) EmptyString.

Definition snoc (s : string) (c : ascii) : string := (s ++ String c EmptyString)%string.

(** [s.split()]: the maximal runs of characters that are not whitespace.
    [cur] is the word being read, if any. *)
Fixpoint split_from (cur : option string) (s : string) : list string :=
  match s with
  | EmptyString => match cur with Some w => [w] | None => [] end
  | String c s' =>
      if isspace c then
        match cur with
        | Some w => w :: split_from None s'
        | None => split_from None s'
        end
      else
        split_from (Some (snoc (match cur with Some w => w | None => EmptyString end) c)) s'
  end.

Definition split (s : string) : list string := split_from None s.

(** [s.split(sep)] for a separator of one character: never empty. *)
Fixpoint split_on_from (sep : ascii) (cur : string) (s : string) : list string :=
  match s with
  | EmptyString => [cur]
  | String c s' =>
      if Ascii.eqb c sep then cur :: split_on_from sep EmptyString s'
      else split_on_from sep (snoc cur c) s'
  end.

Definition split_on (sep : ascii) (s : string) : list string :=
  split_on_from sep EmptyString s.

(** [sub in s] *)
Fixpoint contains (sub s : string) : bool :=
  String.prefix sub s
  || match s with
     | EmptyString => false
     | String _ s' => contains sub s'
     end.

(** [sep.join(l)] *)
Fixpoint join (sep : string) (l : list string) : string :=
  match l with
  | [] => EmptyString
  | [x] => x
  | x :: l' => (x ++ sep ++ join sep l')%string
  end.

(** [x in l] for a list or set of strings. *)
Definition mem (x : string) (l : list string) : bool :=
  existsb (String.eqb x) l.

(** [len(set(l))] *)
Definition count_distinct (l : list string) : Z :=
  Z.of_nat (List.length (nodup string_dec l)).

(** [str(n)] for an [int]. *)
Definition str_of_Z (n : Z) : string :=
  NilZero.string_of_int (Z.to_int n).

(** The double quote character. *)
Definition dq : string := String (ascii_of_N 34) EmptyString.

End PyStr.

(* ================================================================== *)
(** ** Python numbers, objects and exceptions *)

Module Py.

Inductive pyfloat : Type :=
| Fin (q : Q)
| Inf (negative : bool)
| NaN.

Inductive num : Type :=
| NInt (z : Z)
| NFloat (f : pyfloat).

Definition Qltb (a b : Q) : bool := negb (Qle_bool b a).

(** [a < b] on floats: false as soon as one side is NaN. *)
Definition float_lt (a b : pyfloat) : bool :=
  match a, b with
  | NaN, _ | _, NaN => false
  | Fin x, Fin y => Qltb x y
  | Fin _, Inf neg => negb neg
  | Inf neg, Fin _ => neg
  | Inf na, Inf nb => na && negb nb
  end.

Definition float_eq (a b : pyfloat) : bool :=
  match a, b with
  | Fin x, Fin y => Qeq_bool x y
  | Inf na, Inf nb => Bool.eqb na nb
  | _, _ => false
  end.

Definition to_float (n : num) : pyfloat :=
  match n with
  | NInt z => Fin (inject_Z z)
  | NFloat f => f
  end.

(** Python compares an [int] with a [float] by value, exactly. *)
Definition num_lt (a b : num) : bool :=
  match a, b with
  | NInt x, NInt y => (x <? y)%Z
  | _, _ => float_lt (to_float a) (to_float b)
  end.

Definition num_eq (a b : num) : bool :=
  match a, b with
  | NInt x, NInt y => (x =? y)%Z
  | _, _ => float_eq (to_float a) (to_float b)
  end.

Definition num_le (a b : num) : bool := num_lt a b || num_eq a b.
Definition num_gt (a b : num) : bool := num_lt b a.
Definition num_ge (a b : num) : bool := num_le b a.

Definition float_add (a b : pyfloat) : pyfloat :=
  match a, b with
  | NaN, _ | _, NaN => NaN
  | Fin x, Fin y => Fin (x + y)
  | Inf n, Fin _ | Fin _, Inf n => Inf n
  | Inf na, Inf nb => if Bool.eqb na nb then Inf na else NaN
  end.

Definition float_neg (a : pyfloat) : pyfloat :=
  match a with
  | Fin x => Fin (- x)
  | Inf n => Inf (negb n)
  | NaN => NaN
  end.

Definition float_mul (a b : pyfloat) : pyfloat :=
  match a, b with
  | NaN, _ | _, NaN => NaN
  | Fin x, Fin y => Fin (x * y)
  | Inf n, Fin x | Fin x, Inf n =>
      if Qeq_bool x 0 then NaN else Inf (xorb n (Qltb x 0))
  | Inf na, Inf nb => Inf (xorb na nb)
  end.

(** [a / b] for a divisor that is not zero. *)
Definition float_div (a b : pyfloat) : pyfloat :=
  match a, b with
  | NaN, _ | _, NaN => NaN
  | Fin x, Fin y => Fin (x / y)
  | Inf n, Fin y => Inf (xorb n (Qltb y 0))
  | Fin _, Inf _ => Fin 0
  | Inf _, Inf _ => NaN
  end.

Definition num_add (a b : num) : num :=
  match a, b with
  | NInt x, NInt y => NInt (x + y)
  | _, _ => NFloat (float_add (to_float a) (to_float b))
  end.

Definition num_sub (a b : num) : num :=
  match a, b with
  | NInt x, NInt y => NInt (x - y)
  | _, _ => NFloat (float_add (to_float a) (float_neg (to_float b)))
  end.

Definition num_mul (a b : num) : num :=
  match a, b with
  | NInt x, NInt y => NInt (x * y)
  | _, _ => NFloat (float_mul (to_float a) (to_float b))
  end.

(** [min(a, b)] and [max(a, b)] keep [a] unless [b] is strictly better. *)
Definition num_min (a b : num) : num := if num_lt b a then b else a.
Definition num_max (a b : num) : num := if num_lt a b then b else a.

Inductive pyval : Type :=
| VNone
| VBool (b : bool)
| VInt (z : Z)
| VFloat (f : pyfloat)
| VStr (s : string)
| VList (l : list pyval)
| VDict (d : list (string * pyval)).

(** The instances of [Exception] the code meets. *)
Inductive exn : Type :=
| TypeError
| AttributeError
| KeyError
| JSONDecodeError
| ZeroDivisionError
| ValueError
| RuntimeError (msg : string)
| HTTPException (status : Z) (detail : string)
| OtherError (msg : string).

Inductive M (A : Type) : Type :=
| Ok (a : A)
| Raise (e : exn).
Arguments Ok {A} a.
Arguments Raise {A} e.

Definition bind {A B} (m : M A) (k : A -> M B) : M B :=
  match m with
  | Ok a => k a
  | Raise e => Raise e
  end.

(** [try: body  except Exception as e: handler e] *)
Definition try_except {A} (body : M A) (handler : exn -> M A) : M A :=
  match body with
  | Ok a => Ok a
  | Raise e => handler e
  end.

(** [try: body  except C: handler], any other exception passes. *)
Definition try_except_only {A} (C : exn -> bool) (body : M A) (handler : M A) : M A :=
  match body with
  | Ok a => Ok a
  | Raise e => if C e then handler else Raise e
  end.

Definition is_JSONDecodeError (e : exn) : bool :=
  match e with JSONDecodeError => true | _ => false end.

(** [a / b]: true division, a float whatever the operands. *)
Definition num_truediv (a b : num) : M num :=
  if num_eq b (NInt 0) then Raise ZeroDivisionError
  else Ok (NFloat (float_div (to_float a) (to_float b))).

(** [bool] is a subclass of [int]: [True] counts as 1. *)
Definition as_num (v : pyval) : option num :=
  match v with
  | VBool b => Some (NInt (if b then 1 else 0))
  | VInt z => Some (NInt z)
  | VFloat f => Some (NFloat f)
  | _ => None
  end.

Definition of_num (n : num) : pyval :=
  match n with
  | NInt z => VInt z
  | NFloat f => VFloat f
  end.

(** [a < b] where one side is a number: a [TypeError] unless both are. *)
Definition py_lt (a b : pyval) : M bool :=
  match as_num a, as_num b with
  | Some x, Some y => Ok (num_lt x y)
  | _, _ => Raise TypeError
  end.

(** [min(a, b)]: [b] if [b < a], else [a]. *)
Definition py_min (a b : pyval) : M pyval :=
  bind (py_lt b a) (fun lt => Ok (if lt then b else a)).

(** [max(a, b)]: [b] if [b > a], else [a]. *)
Definition py_max (a b : pyval) : M pyval :=
  bind (py_lt a b) (fun gt => Ok (if gt then b else a)).

(** [a + b] *)
Definition py_add (a b : pyval) : M pyval :=
  match as_num a, as_num b with
  | Some x, Some y => Ok (of_num (num_add x y))
  | _, _ =>
      match a, b with
      | VStr x, VStr y => Ok (VStr (x ++ y))
      | VList x, VList y => Ok (VList (x ++ y))
      | _, _ => Raise TypeError
      end
  end.

Fixpoint lookup (k : string) (d : list (string * pyval)) : option pyval :=
  match d with
  | [] => None
  | (k', v) :: d' => if String.eqb k k' then Some v else lookup k d'
  end.

(** [o.get(key, default)]: only a [dict] has the method. *)
Definition py_get (o : pyval) (key : string) (default : pyval) : M pyval :=
  match o with
  | VDict d => Ok (match lookup key d with Some v => v | None => default end)
  | _ => Raise AttributeError
  end.

(** [o[key]] for a string key. *)
Definition py_getitem (o : pyval) (key : string) : M pyval :=
  match o with
  | VDict d => match lookup key d with Some v => Ok v | None => Raise KeyError end
  | _ => Raise TypeError
  end.

(** Truth value of an optional string: [None] and the empty string are false. *)
Definition truthy_str (o : option string) : bool :=
  match o with
  | Some s => negb (String.eqb s EmptyString)
  | None => false
  end.

(** [o or default] for an optional string. *)
Definition str_or (o : option string) (default : string) : string :=
  match o with
  | Some s => if String.eqb s EmptyString then default else s
  | None => default
  end.

Definition strs (l : list string) : pyval := VList (map VStr l).

(** The entry of a dictionary under a key, if it is a dictionary and has one. *)
Definition field (key : string) (o : pyval) : option pyval :=
  match o with
  | VDict d => lookup key d
  | _ => None
  end.

End Py.

Export Py.

Declare Scope py_scope.
Delimit Scope py_scope with py.
Notation "x <- c ;; k" := (bind c (fun x => k))
  (at level 61, c at next level, right associativity) : py_scope.

(* ================================================================== *)
(** ** Regular expressions, as the [re] module searches them *)

Module Re.

(** The fragment of the syntax the services use.  [Star] and [Opt] are
    greedy; [Group] is the capture group 1. *)
Inductive regex : Type :=
| Chr (p : ascii -> bool)
| Cat (r1 r2 : regex)
| Star (r : regex)
| Opt (r : regex)
| Group (r : regex).

(** What of [s] was read when [rest] remains. *)
Definition consumed (s rest : string) : string :=
  String.substring 0 (String.length s - String.length rest) s.

Section Matcher.
Variable R : Type.

(** A matcher reads a prefix of the input and hands the rest, with the
    capture, to its continuation. *)
Definition matcher : Type :=
  string -> option string -> (string -> option string -> option R) -> option R.

(** Greedy repetition of [step]: one more round if it reads something and
    the remainder of the pattern then matches, else stop here.  A round
    shortens the input, so [fuel], its length at the start, is never used up. *)
Fixpoint star_loop (step : matcher) (k : string -> option string -> option R)
    (fuel : nat) (s : string) (g : option string) {struct fuel} : option R :=
  match fuel with
  | O => k s g
  | S fuel' =>
      match step s g (fun s' g' =>
              if (String.length s' <? String.length s)%nat
              then star_loop step k fuel' s' g' else None) with
      | Some x => Some x
      | None => k s g
      end
  end.

(** Backtracking matcher in continuation style: [k] says whether the
    remainder of the pattern matches.  An alternative is tried only after
    the preferred one failed, as [re] does. *)
Fixpoint run (r : regex) : matcher :=
  fun s g k =>
  match r with
  | Chr p =>
      match s with
      | String c s' => if p c then k s' g else None
      | EmptyString => None
      end
  | Cat r1 r2 => run r1 s g (fun s' g' => run r2 s' g' k)
  | Opt r1 =>
      match run r1 s g k with
      | Some x => Some x
      | None => k s g
      end
  | Star r1 => star_loop (run r1) k (String.length s) s g
  | Group r1 => run r1 s g (fun s' _ => k s' (Some (consumed s s')))
  end.
End Matcher.

(** A match object: [group(0)] and [group(1)]. *)
Record match_object : Type := { group0 : string; group1 : option string }.

Definition match_at (r : regex) (s : string) : option match_object :=
  run r s None (fun rest g => Some {| group0 := consumed s rest; group1 := g |}).

(** [re.search(r, s)]: the match at the leftmost position that has one. *)
Fixpoint search (r : regex) (s : string) : option match_object :=
  match match_at r s with
  | Some m => Some m
  | None =>
      match s with
      | String _ s' => search r s'
      | EmptyString => None
      end
  end.

Definition plus (r : regex) : regex := Cat r (Star r).

(** One literal character; under [re.IGNORECASE] either case of it. *)
Definition chr (c : ascii) : regex := Chr (Ascii.eqb c).
Definition chr_i (c : ascii) : regex :=
  Chr (fun x => Ascii.eqb (PyStr.lower_char x) (PyStr.lower_char c)).

(** A literal word of at least one character, under [re.IGNORECASE]. *)
Fixpoint lit_i (c : ascii) (s : string) : regex :=
  match s with
  | EmptyString => chr_i c
  | String c' s' => Cat (chr_i c) (lit_i c' s')
  end.

(** The empty word matches the empty text. *)
Definition word_i (s : string) : regex :=
  match s with
  | String c s' => lit_i c s'
  | EmptyString => Opt (Chr (fun _ => false))
  end.

(** [\d+(?:\.\d+)?] *)
Definition number : regex :=
  Cat (plus (Chr PyStr.isdigit)) (Opt (Cat (chr ".") (plus (Chr PyStr.isdigit)))).

(** [[_\s]] and [[:\s]] *)
Definition underscore_or_space : regex :=
  Chr (fun c => Ascii.eqb c "_" || PyStr.isspace c).
Definition colon_or_space : regex :=
  Chr (fun c => Ascii.eqb c ":" || PyStr.isspace c).

(** [.] under [re.DOTALL] *)
Definition any : regex := Chr (fun _ => true).

End Re.


(* ================================================================== *)
(** ** [app/services/llama_analysis.py] *)

Module LLaMA.

Import PyStr.
Local Open Scope string_scope.
Local Open Scope Z_scope.
Local Open Scope py_scope.

(** The dataclass [AnalysisResult].  The fields hold whatever the evaluation
    dictionary held, so they are Python objects. *)
Record AnalysisResult : Type := {
  overall_score : pyval;
  grammar_score : pyval;
  vocabulary_score : pyval;
  fluency_score : pyval;
  pronunciation_score : pyval;
  comprehension_score : pyval;
  proficiency_level : pyval;
  strengths : pyval;
  areas_for_improvement : pyval;
  recommendations : pyval;
  grammar_errors : pyval;
  vocabulary_analysis : pyval;
  detailed_feedback : pyval
}.

Section Service.

(** The [transformers] library: loading a tokenizer and a model by name, and
    one round of tokenising the prompt, sampling a continuation and decoding
    it.  [json.loads] raises [JSONDecodeError] on a text that is not JSON. *)
Variables Tokenizer Model : Type.
Variable tokenizer_from_pretrained : string -> M Tokenizer.
Variable model_from_pretrained : string -> M Model.
Variable cuda_is_available : bool.
Variable generate_and_decode : Tokenizer -> Model -> string -> Z -> M string.
Variable json_loads : string -> M pyval.

(** The state of a [LLaMAAnalysisService] once [__init__] has run.  The
    spaCy pipeline, which only the grammar analysis reads, is left out. *)
Record LLaMAAnalysisService : Type := {
  model_name : string;
  device : string;
  model : Model;
  tokenizer : Tokenizer
}.

Definition _load_fallback_model : M (Tokenizer * Model * string) :=
  try_except
    (let fallback_model := "gpt2" in
     tok <- tokenizer_from_pretrained fallback_model ;;
     mdl <- model_from_pretrained fallback_model ;;
     Ok (tok, mdl, fallback_model))
    (fun e => Raise (RuntimeError "No suitable model could be loaded")).

Definition _initialize_model (name : string) : M (Tokenizer * Model * string) :=
  try_except
    (tok <- tokenizer_from_pretrained name ;;
     mdl <- model_from_pretrained name ;;
     Ok (tok, mdl, name))
    (fun e => _load_fallback_model).

(** [LLaMAAnalysisService(model_name)] *)
Definition init (name : string) : M LLaMAAnalysisService :=
  loaded <- _initialize_model name ;;
  let '(tok, mdl, name') := loaded in
  Ok {| model_name := name';
        device := if cuda_is_available then "cuda" else "cpu";
        model := mdl;
        tokenizer := tok |}.

Definition _generate_llama_response (self : LLaMAAnalysisService)
    (prompt : string) (max_length : Z) : M string :=
  try_except
    (response <- generate_and_decode (tokenizer self) (model self) prompt max_length ;;
     Ok (strip response))
    (fun e => Raise e).

Definition basic_evaluation : pyval :=
  VStr "Basic evaluation - please provide more text for detailed analysis".

Definition _fallback_evaluation (self : LLaMAAnalysisService) (transcript : string) : pyval :=
  let words := split transcript in
  let word_count := Z.of_nat (List.length words) in
  let base_score :=
    if word_count <? 2 then 1
    else if word_count <? 5 then 3
    else if word_count <? 10 then 8
    else 15 in
  VDict [
    ("grammar_score", VInt base_score);
    ("vocabulary_score", VInt base_score);
    ("fluency_score", VInt base_score);
    ("comprehension_score", VInt base_score);
    ("overall_score", VInt (base_score * 4));
    ("proficiency_level", VStr (if word_count <? 5 then "A1" else "B1"));
    ("detailed_feedback", VDict [
       ("grammar", basic_evaluation);
       ("vocabulary", basic_evaluation);
       ("fluency", basic_evaluation);
       ("comprehension", basic_evaluation);
       ("strengths", strs ["Attempted communication"]);
       ("improvements", strs ["Provide more complete sentences"]);
       ("recommendations", strs ["Try writing longer, more detailed responses"])]);
    ("evaluation_method", VStr "Fallback")].

Definition evaluation_prompt (transcript : string) (context : option string) : string :=
  (nl ++
    "You are an expert English language teacher evaluating a student's text. Please provide a detailed analysis in JSON format." ++ nl ++
    nl ++
    "Student's text: " ++ dq ++ transcript ++ dq ++ nl ++
    "Context: " ++ str_or context "General conversation" ++ nl ++
    nl ++
    "Evaluate the following aspects and provide scores (0-25 for each):" ++ nl ++
    nl ++
    "1. GRAMMAR: Assess grammatical accuracy, sentence structure, verb tenses, articles, prepositions" ++ nl ++
    "2. VOCABULARY: Evaluate word choice, sophistication, appropriateness, spelling" ++ nl ++
    "3. FLUENCY: Assess natural flow, coherence, sentence variety, readability" ++ nl ++
    "4. COMPREHENSION: Evaluate clarity of meaning, logical structure, completeness" ++ nl ++
    nl ++
    "Consider the context and provide realistic scores. For very short texts (< 5 words), give low scores as they lack sufficient content for proper evaluation." ++ nl ++
    nl ++
    "Respond ONLY with valid JSON in this exact format:" ++ nl ++
    "{" ++ nl ++
    "    " ++ dq ++ "grammar_score" ++ dq ++ ": <number>," ++ nl ++
    "    " ++ dq ++ "vocabulary_score" ++ dq ++ ": <number>, " ++ nl ++
    "    " ++ dq ++ "fluency_score" ++ dq ++ ": <number>," ++ nl ++
    "    " ++ dq ++ "comprehension_score" ++ dq ++ ": <number>," ++ nl ++
    "    " ++ dq ++ "overall_score" ++ dq ++ ": <sum of all scores>," ++ nl ++
    "    " ++ dq ++ "proficiency_level" ++ dq ++ ": " ++ dq ++ "<A1/A2/B1/B2/C1/C2>" ++ dq ++ "," ++ nl ++
    "    " ++ dq ++ "detailed_feedback" ++ dq ++ ": {" ++ nl ++
    "        " ++ dq ++ "grammar" ++ dq ++ ": " ++ dq ++ "<detailed grammar feedback>" ++ dq ++ "," ++ nl ++
    "        " ++ dq ++ "vocabulary" ++ dq ++ ": " ++ dq ++ "<detailed vocabulary feedback>" ++ dq ++ "," ++ nl ++
    "        " ++ dq ++ "fluency" ++ dq ++ ": " ++ dq ++ "<detailed fluency feedback>" ++ dq ++ "," ++ nl ++
    "        " ++ dq ++ "comprehension" ++ dq ++ ": " ++ dq ++ "<detailed comprehension feedback>" ++ dq ++ "," ++ nl ++
    "        " ++ dq ++ "strengths" ++ dq ++ ": [" ++ dq ++ "<strength1>" ++ dq ++ ", " ++ dq ++ "<strength2>" ++ dq ++ "]," ++ nl ++
    "        " ++ dq ++ "improvements" ++ dq ++ ": [" ++ dq ++ "<improvement1>" ++ dq ++ ", " ++ dq ++ "<improvement2>" ++ dq ++ "]," ++ nl ++
    "        " ++ dq ++ "recommendations" ++ dq ++ ": [" ++ dq ++ "<recommendation1>" ++ dq ++ ", " ++ dq ++ "<recommendation2>" ++ dq ++ "]" ++ nl ++
    "    }" ++ nl ++
    "}" ++ nl)%string.

Definition _llm_based_evaluation (self : LLaMAAnalysisService)
    (transcript : string) (context : option string) : M pyval :=
  try_except
    (response <- _generate_llama_response self (evaluation_prompt transcript context) 500 ;;
     try_except_only is_JSONDecodeError
       (evaluation_data <- json_loads response ;;
        g <- py_get evaluation_data "grammar_score" (VInt 0) ;;
        g <- py_min (VInt 25) g ;;
        grammar_score <- py_max (VInt 0) g ;;
        v <- py_get evaluation_data "vocabulary_score" (VInt 0) ;;
        v <- py_min (VInt 25) v ;;
        vocabulary_score <- py_max (VInt 0) v ;;
        f <- py_get evaluation_data "fluency_score" (VInt 0) ;;
        f <- py_min (VInt 25) f ;;
        fluency_score <- py_max (VInt 0) f ;;
        c <- py_get evaluation_data "comprehension_score" (VInt 0) ;;
        c <- py_min (VInt 25) c ;;
        comprehension_score <- py_max (VInt 0) c ;;
        s <- py_add grammar_score vocabulary_score ;;
        s <- py_add s fluency_score ;;
        overall_score <- py_add s comprehension_score ;;
        level <- py_get evaluation_data "proficiency_level" (VStr "A1") ;;
        feedback <- py_get evaluation_data "detailed_feedback" (VDict []) ;;
        Ok (VDict [
          ("grammar_score", grammar_score);
          ("vocabulary_score", vocabulary_score);
          ("fluency_score", fluency_score);
          ("comprehension_score", comprehension_score);
          ("overall_score", overall_score);
          ("proficiency_level", level);
          ("detailed_feedback", feedback);
          ("evaluation_method", VStr "LLM-based")]))
       (Ok (_fallback_evaluation self transcript)))
    (fun e => Ok (_fallback_evaluation self transcript)).

(** The result [analyze_conversation] builds in its [except] branch. *)
Definition analysis_failed : AnalysisResult :=
  {| overall_score := VInt 5;
     grammar_score := VInt 1;
     vocabulary_score := VInt 1;
     fluency_score := VInt 1;
     pronunciation_score := VInt 0;
     comprehension_score := VInt 2;
     proficiency_level := VStr "A1";
     strengths := strs ["Attempted communication"];
     areas_for_improvement := strs ["Try again with a complete sentence"];
     recommendations := strs ["Check your internet connection"];
     grammar_errors :=
       VList [VDict [("feedback", VStr "Analysis failed - please try again")]];
     vocabulary_analysis :=
       VList [VDict [("feedback", VStr "Analysis failed - please try again")]];
     detailed_feedback := VDict [("error", VStr "Analysis failed")] |}.

(** The [try] block of [analyze_conversation]. *)
Definition analyze_conversation_try (self : LLaMAAnalysisService) (transcript : string)
    (context : option string) (audio_duration : option pyfloat) : M AnalysisResult :=
     evaluation_result <- _llm_based_evaluation self transcript context ;;
     overall <- py_getitem evaluation_result "overall_score" ;;
     grammar <- py_getitem evaluation_result "grammar_score" ;;
     vocabulary <- py_getitem evaluation_result "vocabulary_score" ;;
     fluency <- py_getitem evaluation_result "fluency_score" ;;
     comprehension <- py_getitem evaluation_result "comprehension_score" ;;
     level <- py_getitem evaluation_result "proficiency_level" ;;
     feedback <- py_getitem evaluation_result "detailed_feedback" ;;
     st <- py_get feedback "strengths" (strs ["Communication attempted"]) ;;
     im <- py_get feedback "improvements" (strs ["Continue practicing"]) ;;
     re <- py_get feedback "recommendations" (strs ["Keep learning"]) ;;
     gr <- py_get feedback "grammar" (VStr "Grammar analysis completed") ;;
     vo <- py_get feedback "vocabulary" (VStr "Vocabulary analysis completed") ;;
     Ok {| overall_score := overall;
           grammar_score := grammar;
           vocabulary_score := vocabulary;
           fluency_score := fluency;
           pronunciation_score := VInt 0;
           comprehension_score := comprehension;
           proficiency_level := level;
           strengths := st;
           areas_for_improvement := im;
           recommendations := re;
           grammar_errors := VList [VDict [("feedback", gr)]];
           vocabulary_analysis := VList [VDict [("feedback", vo)]];
           detailed_feedback := feedback |}.

Definition analyze_conversation (self : LLaMAAnalysisService) (transcript : string)
    (context : option string) (audio_duration : option pyfloat) : M AnalysisResult :=
  try_except
    (analyze_conversation_try self transcript context audio_duration)
    (fun e => Ok analysis_failed).

Definition _determine_proficiency_level (self : LLaMAAnalysisService) (score : num) : string :=
  if num_ge score (NInt 70) then "C2"
  else if num_ge score (NInt 55) then "C1"
  else if num_ge score (NInt 40) then "B2"
  else if num_ge score (NInt 25) then "B1"
  else if num_ge score (NInt 15) then "A2"
  else "A1".

Definition common_words : list string :=
  ["the"; "a"; "an"; "and"; "or"; "but"; "in"; "on"; "at"; "to"; "for"; "of"; "with";
   "by"; "is"; "are"; "was"; "were"; "be"; "been"; "being"; "have"; "has"; "had"; "do";
   "does"; "did"; "will"; "would"; "could"; "should"; "may"; "might"; "can"; "must";
   "shall"; "i"; "you"; "he"; "she"; "it"; "we"; "they"; "me"; "him"; "her"; "us"; "them";
   "this"; "that"; "these"; "those"; "my"; "your"; "his"; "her"; "its"; "our"; "their";
   "hello"; "hi"; "how"; "are"; "you"; "fine"; "good"; "bad"; "yes"; "no"; "thank";
   "thanks"; "please"; "sorry"; "excuse"; "name"; "what"; "where"; "when"; "why"; "who";
   "which"; "go"; "come"; "see"; "look"; "hear"; "listen"; "speak"; "talk"; "say"; "tell";
   "know"; "think"; "believe"; "want"; "need"; "like"; "love"; "hate"; "feel"; "make";
   "take"; "give"; "get"; "put"; "find"; "work"; "play"; "eat"; "drink"; "sleep"; "walk";
   "run"; "sit"; "stand"; "open"; "close"; "start"; "stop"; "help"; "time"; "day";
   "night"; "morning"; "evening"; "week"; "month"; "year"; "today"; "tomorrow";
   "yesterday"; "now"; "then"; "here"; "there"; "up"; "down"; "left"; "right"; "front";
   "back"; "big"; "small"; "large"; "little"; "old"; "new"; "young"; "hot"; "cold";
   "warm"; "cool"; "fast"; "slow"; "quick"; "easy"; "hard"; "difficult"; "simple";
   "complex"; "important"; "beautiful"; "ugly"; "nice"; "great"; "wonderful"; "terrible";
   "excellent"; "perfect"; "happy"; "sad"; "angry"; "excited"; "nervous"; "calm"; "tired";
   "busy"; "free"; "ready"; "sure"; "certain"; "possible"; "impossible"; "necessary";
   "enough"; "too"; "very"; "quite"; "really"; "actually"; "finally"; "suddenly";
   "usually"; "always"; "never"; "sometimes"; "often"; "rarely"; "almost"; "nearly";
   "exactly"; "about"; "around"; "between"; "among"; "through"; "across"; "over"; "under";
   "above"; "below"; "inside"; "outside"; "near"; "far"; "first"; "second"; "third";
   "last"; "next"; "previous"; "other"; "another"; "same"; "different"; "each"; "every";
   "all"; "some"; "many"; "much"; "few"; "little"; "more"; "most"; "less"; "least"; "one";
   "two"; "three"; "four"; "five"; "six"; "seven"; "eight"; "nine"; "ten"; "hundred";
   "thousand"; "million"; "billion"; "number"; "amount"; "quantity"; "size"; "length";
   "width"; "height"; "weight"; "price"; "cost"; "money"; "dollar"; "cent"; "euro";
   "pound"; "house"; "home"; "room"; "door"; "window"; "wall"; "floor"; "ceiling"; "bed";
   "chair"; "table"; "car"; "bus"; "train"; "plane"; "boat"; "bike"; "bicycle";
   "motorcycle"; "truck"; "taxi"; "food"; "water"; "bread"; "meat"; "fish"; "chicken";
   "beef"; "pork"; "vegetable"; "fruit"; "apple"; "banana"; "orange"; "grape";
   "strawberry"; "milk"; "coffee"; "tea"; "juice"; "beer"; "wine"; "cake"; "cookie";
   "candy"; "chocolate"; "ice"; "cream"; "sugar"; "salt"; "pepper"; "family"; "mother";
   "father"; "parent"; "child"; "son"; "daughter"; "brother"; "sister"; "grandmother";
   "grandfather"; "uncle"; "aunt"; "cousin"; "friend"; "neighbor"; "teacher"; "student";
   "doctor"; "nurse"; "police"; "firefighter"; "engineer"; "lawyer"; "artist"; "musician";
   "singer"; "dancer"; "actor"; "writer"; "journalist"; "photographer"; "cook"; "waiter";
   "driver"; "pilot"; "sailor"; "farmer"; "worker"; "manager"; "boss"; "employee";
   "company"; "business"; "office"; "factory"; "hospital"; "school"; "university";
   "library"; "museum"; "theater"; "cinema"; "restaurant"; "hotel"; "shop"; "store";
   "market"; "bank"; "post"; "office"; "station"; "airport"; "park"; "garden"; "beach";
   "mountain"; "river"; "lake"; "ocean"; "sea"; "forest"; "desert"; "city"; "town";
   "village"; "country"; "world"; "earth"; "sky"; "sun"; "moon"; "star"; "cloud"; "rain";
   "snow"; "wind"; "storm"; "weather"; "spring"; "summer"; "autumn"; "winter"; "season";
   "temperature"; "climate"; "nature"; "animal"; "dog"; "cat"; "bird"; "fish"; "horse";
   "cow"; "pig"; "sheep"; "chicken"; "duck"; "elephant"; "lion"; "tiger"; "bear"; "wolf";
   "fox"; "rabbit"; "mouse"; "snake"; "spider"; "tree"; "flower"; "grass"; "leaf"; "root";
   "branch"; "fruit"; "seed"; "plant"; "garden"; "book"; "page"; "story"; "novel";
   "magazine"; "newspaper"; "letter"; "email"; "message"; "phone"; "computer"; "internet";
   "website"; "television"; "radio"; "music"; "song"; "movie"; "game"; "sport";
   "football"; "basketball"; "tennis"; "golf"; "swimming"; "running"; "cycling";
   "dancing"; "singing"; "reading"; "writing"; "drawing"; "painting"; "photography";
   "cooking"; "shopping"; "traveling"; "vacation"; "holiday"; "party"; "celebration";
   "birthday"; "wedding"; "funeral"; "meeting"; "conference"; "interview"; "presentation";
   "speech"; "lecture"; "class"; "lesson"; "homework"; "exam"; "test"; "grade"; "score";
   "result"; "success"; "failure"; "problem"; "solution"; "question"; "answer"; "idea";
   "opinion"; "fact"; "truth"; "lie"; "secret"; "mystery"; "adventure"; "journey"; "trip";
   "visit"; "tour"; "guide"; "map"; "direction"; "way"; "path"; "road"; "street";
   "address"; "location"; "place"; "position"; "job"; "career"; "profession"; "work";
   "task"; "project"; "plan"; "goal"; "dream"; "hope"; "wish"; "desire"; "choice";
   "decision"; "option"; "possibility"; "chance"; "opportunity"; "risk"; "danger";
   "safety"; "security"; "protection"; "help"; "support"; "assistance"; "advice";
   "suggestion"; "recommendation"; "instruction"; "rule"; "law"; "regulation"; "policy";
   "agreement"; "contract"; "deal"; "bargain"; "discount"; "sale"; "offer"; "request";
   "demand"; "order"; "command"; "permission"; "allowance"; "freedom"; "right";
   "responsibility"; "duty"; "obligation"; "promise"; "commitment"; "loyalty"; "trust";
   "honesty"; "integrity"; "character"; "personality"; "behavior"; "attitude"; "mood";
   "emotion"; "feeling"; "sensation"; "experience"; "memory"; "thought"; "mind"; "brain";
   "heart"; "soul"; "spirit"; "life"; "death"; "birth"; "age"; "health"; "illness";
   "disease"; "medicine"; "drug"; "treatment"; "therapy"; "cure"; "recovery"; "healing";
   "pain"; "injury"; "wound"; "cut"; "bruise"; "burn"; "fever"; "cold"; "flu"; "headache";
   "stomach"; "tooth"; "eye"; "ear"; "nose"; "mouth"; "hand"; "finger"; "arm"; "leg";
   "foot"; "head"; "face"; "hair"; "skin"; "blood"; "bone"; "muscle"; "nerve"; "organ";
   "body"; "human"; "person"; "people"; "man"; "woman"; "boy"; "girl"; "baby"; "adult";
   "teenager"; "elderly"].

Definition advanced_words : list string :=
  ["sophisticated"; "comprehensive"; "implementation"; "paradigm"; "methodology";
   "contemporary"; "multifaceted"; "stakeholders"; "prioritize"; "simultaneously";
   "fundamentally"; "transformed"; "revolution"; "artificial"; "intelligence";
   "healthcare"; "systems"; "regulatory"; "frameworks"; "nevertheless"; "outweigh";
   "inherent"; "properly"; "managed"; "consequently"; "reevaluation"; "traditional";
   "embracing"; "technological"; "innovation"; "ethical"; "considerations";
   "implications"; "necessitate"; "comprehensive"; "paradigm"; "methodology";
   "contemporary"; "multifaceted"; "stakeholders"; "prioritize"; "simultaneously";
   "fundamentally"; "transformed"; "revolution"; "artificial"; "intelligence";
   "healthcare"; "systems"; "regulatory"; "frameworks"; "nevertheless"; "outweigh";
   "inherent"; "properly"; "managed"; "consequently"; "reevaluation"; "traditional";
   "embracing"; "technological"; "innovation"; "ethical"; "considerations";
   "implications"; "necessitate"; "comprehensive"].

(** One round of the spelling loop of [_analyze_vocabulary]: the counter and
    the list of misspelled words after [word]. *)
Definition spelling_step (acc : Z * list string) (word : string) : Z * list string :=
  let '(spelling_errors, misspelled_words) := acc in
  let clean_word := filter_chars isalpha word in
  if negb (String.eqb clean_word "") && negb (mem clean_word common_words)
     && (1 <? len clean_word)
  then (spelling_errors + 1, (misspelled_words ++ [clean_word])%list)
  else (spelling_errors, misspelled_words).

(** A float literal. *)
Definition fl (q : Q) : num := NFloat (Fin q).

Definition _analyze_vocabulary (self : LLaMAAnalysisService) (text : string) : M pyval :=
  try_except
    (let words := split (lower text) in
     match words with
     | [] => Ok (VDict [("score", VInt 0); ("feedback", VStr "No vocabulary to analyze")])
     | _ :: _ =>
       let n := Z.of_nat (List.length words) in
       let '(spelling_errors, misspelled_words) := fold_left spelling_step words (0, []) in
       let base_score := num_min (NInt 10) (num_mul (NInt n) (fl 0.4)) in
       let spelling_penalty := num_mul (NInt spelling_errors) (fl 2.5) in
       let advanced_count :=
         Z.of_nat (List.length (filter (fun word => mem word advanced_words) words)) in
       let advanced_bonus := num_min (NInt 6) (num_mul (NInt advanced_count) (fl 1.5)) in
       let unique_words := count_distinct words in
       let diversity_bonus := num_min (NInt 4) (num_mul (NInt unique_words) (fl 0.15)) in
       let length_penalty :=
         if n <? 2 then 15
         else if n <? 3 then 12
         else if n <? 5 then 8
         else if n <? 10 then 4
         else 0 in
       avg_word_length <-
         num_truediv (NInt (fold_left Z.add (map len words) 0)) (NInt n) ;;
       let sophistication_bonus :=
         num_min (NInt 2) (num_mul (num_sub avg_word_length (NInt 4)) (fl 0.5)) in
       let total_score :=
         num_sub (num_sub (num_add (num_add (num_add base_score advanced_bonus)
                                      diversity_bonus) sophistication_bonus)
                    spelling_penalty) (NInt length_penalty) in
       let min_score :=
         if n <? 2 then num_max (fl 0.1) (num_mul (NInt n) (fl 0.1))
         else if n <? 3 then num_max (fl 0.3) (num_mul (NInt n) (fl 0.2))
         else if n <? 5 then num_max (fl 0.5) (num_mul (NInt n) (fl 0.3))
         else num_max (NInt 1) (num_mul (NInt n) (fl 0.15)) in
       let final_score := num_max min_score (num_min (NInt 20) total_score) in
       let feedback :=
         ("Vocabulary: " ++ str_of_Z n ++ " words, " ++ str_of_Z unique_words ++
          " unique, " ++ str_of_Z advanced_count ++ " advanced, " ++
          str_of_Z spelling_errors ++ " spelling errors")%string in
       let feedback :=
         match misspelled_words with
         | [] => feedback
         | _ :: _ =>
             (feedback ++ " (misspelled: " ++ join ", " (firstn 3 misspelled_words)
              ++ ")")%string
         end in
       Ok (VDict [("score", of_num final_score); ("feedback", VStr feedback)])
     end)
    (fun e => Ok (VDict [("score", VInt 1); ("feedback", VStr "Vocabulary analysis failed")])).

Definition transition_words : list string :=
  ["however"; "therefore"; "moreover"; "furthermore"; "consequently"; "meanwhile";
   "nevertheless"; "also"; "additionally"; "furthermore"].

Definition complex_conjunctions : list string :=
  ["although"; "despite"; "whereas"; "while"; "since"; "because"; "if"; "when";
   "after"; "before"].

Definition _enhanced_comprehension_analysis (self : LLaMAAnalysisService)
    (text : string) (context : option string) : M num :=
  let words := split text in
  let word_count := Z.of_nat (List.length words) in
  if word_count =? 0 then Ok (NInt 0)
  else
    let score := NInt 0 in
    let score :=
      if 30 <=? word_count then num_add score (NInt 6)
      else if 20 <=? word_count then num_add score (NInt 5)
      else if 15 <=? word_count then num_add score (NInt 4)
      else if 10 <=? word_count then num_add score (NInt 3)
      else if 5 <=? word_count then num_add score (fl 0.5)
      else if 3 <=? word_count then num_add score (fl 0.2)
      else if 2 <=? word_count then num_add score (fl 0.1)
      else num_add score (fl 0.05) in
    let sentences := split_on "." text in
    avg_sentence_length <-
      match sentences with
      | [] => Ok (NInt 0)
      | _ :: _ => num_truediv (NInt word_count) (NInt (Z.of_nat (List.length sentences)))
      end ;;
    let score :=
      if num_ge avg_sentence_length (NInt 12) then num_add score (NInt 6)
      else if num_ge avg_sentence_length (NInt 8) then num_add score (NInt 5)
      else if num_ge avg_sentence_length (NInt 6) then num_add score (NInt 4)
      else if num_ge avg_sentence_length (NInt 4) then num_add score (NInt 3)
      else num_add score (NInt 2) in
    let complex_words := filter (fun word => 5 <? len word) words in
    sophistication_ratio <-
      num_truediv (NInt (Z.of_nat (List.length complex_words))) (NInt word_count) ;;
    let score :=
      if num_ge sophistication_ratio (fl 0.2) then num_add score (NInt 6)
      else if num_ge sophistication_ratio (fl 0.15) then num_add score (NInt 5)
      else if num_ge sophistication_ratio (fl 0.1) then num_add score (NInt 4)
      else if num_ge sophistication_ratio (fl 0.05) then num_add score (NInt 3)
      else num_add score (NInt 2) in
    let coherence_score := 0 in
    let coherence_score :=
      if existsb (fun word => contains (lower word) (lower text)) transition_words
      then coherence_score + 3 else coherence_score in
    let coherence_score :=
      if existsb (fun word => contains (lower word) (lower text)) complex_conjunctions
      then coherence_score + 2 else coherence_score in
    let coherence_score :=
      if contains "which" (lower text) || contains "that" (lower text)
         || contains "who" (lower text)
      then coherence_score + 1 else coherence_score in
    let score := num_add score (num_min (NInt 6) (NInt coherence_score)) in
    min_third <- num_truediv (NInt word_count) (NInt 3) ;;
    let min_score := num_min (NInt 6) min_third in
    Ok (num_min (NInt 20) (num_max min_score score)).

End Service.

End LLaMA.

(* ================================================================== *)
(** ** [app/services/gpt_analysis.py] *)

Module GPT.

Import PyStr.
Local Open Scope string_scope.
Local Open Scope Z_scope.
Local Open Scope py_scope.

(** The dataclass [GPTAnalysisResult]. *)
Record GPTAnalysisResult : Type := {
  overall_score : pyval;
  grammar_score : pyval;
  vocabulary_score : pyval;
  fluency_score : pyval;
  pronunciation_score : pyval;
  comprehension_score : pyval;
  proficiency_level : pyval;
  strengths : pyval;
  areas_for_improvement : pyval;
  recommendations : pyval;
  detailed_feedback : pyval;
  grammar_errors : pyval;
  vocabulary_analysis : pyval
}.

(** [float(s)] for the texts the score patterns capture, digits with at most
    one point: the number written, and [inf] when the number is too large
    for a binary64 float.  Python reads more than that (signs, exponents,
    blanks); here any other text is a [ValueError]. *)
Definition digit_value (c : ascii) : Z := Z.of_N (code c - 48).

Fixpoint digits_value (acc : Z) (s : string) : Z :=
  match s with
  | EmptyString => acc
  | String c s' => digits_value (10 * acc + digit_value c) s'
  end.

Fixpoint all_digits (s : string) : bool :=
  match s with
  | EmptyString => true
  | String c s' => isdigit c && all_digits s'
  end.

Definition nonempty_digits (s : string) : bool :=
  negb (String.eqb s "") && all_digits s.

(** The largest binary64 number is [2^1024 - 2^971]; a number written in
    decimal is read as the nearest float, and from half way between that
    number and [2^1024] on, the nearest float is [inf]:
    [float('9' * 400)] is [inf].  Below that bound the value is kept as
    written, the rounding to the nearest float is left out as for every
    other float of this development. *)
Definition float_overflow : Z := 2 ^ 1024 - 2 ^ 970.

Definition float_of_decimal (q : Q) : pyfloat :=
  if Qle_bool (inject_Z float_overflow) q then Inf false else Fin q.

Definition py_float (s : string) : M pyfloat :=
  match split_on "." s with
  | [i] =>
      if nonempty_digits i
      then Ok (float_of_decimal (inject_Z (digits_value 0 i)))
      else Raise ValueError
  | [i; f] =>
      if nonempty_digits i && nonempty_digits f
      then Ok (float_of_decimal
                 (Qmake (digits_value 0 (i ++ f))
                        (Z.to_pos (10 ^ Z.of_nat (String.length f)))))
      else Raise ValueError
  | _ => Raise ValueError
  end.

(** [rf'{score_type}[_\s]*score[:\s]*(\d+(?:\.\d+)?)'] under [re.IGNORECASE]. *)
Definition score_pattern (score_type : string) : Re.regex :=
  Re.Cat (Re.word_i score_type)
    (Re.Cat (Re.Star Re.underscore_or_space)
       (Re.Cat (Re.word_i "score")
          (Re.Cat (Re.Star Re.colon_or_space) (Re.Group Re.number)))).

(** [r'proficiency[_\s]*level[:\s]*([A-C][1-2])'] under [re.IGNORECASE]. *)
Definition level_pattern : Re.regex :=
  Re.Cat (Re.word_i "proficiency")
    (Re.Cat (Re.Star Re.underscore_or_space)
       (Re.Cat (Re.word_i "level")
          (Re.Cat (Re.Star Re.colon_or_space)
             (Re.Group (Re.Cat (Re.Chr (fun c => between 65 67 c || between 97 99 c))
                               (Re.Chr (between 49 50))))))).

(** [r'\{.*\}'] under [re.DOTALL]. *)
Definition json_pattern : Re.regex :=
  Re.Cat (Re.chr "{") (Re.Cat (Re.Star Re.any) (Re.chr "}")).

(** One search of [_fallback_parse]: the score the pattern of [score_type]
    finds in the text, if it matches. *)
Definition find_score (score_type response_text : string) : M (option pyval) :=
  match Re.search (score_pattern score_type) response_text with
  | Some m =>
      match Re.group1 m with
      | Some digits => x <- py_float digits ;; Ok (Some (VFloat x))
      | None => Raise TypeError
      end
  | None => Ok None
  end.

Definition find_level (response_text : string) : option pyval :=
  match Re.search level_pattern response_text with
  | Some m =>
      match Re.group1 m with
      | Some level => Some (VStr (upper level))
      | None => None
      end
  | None => None
  end.

(** [scores.get(key, default)] for the entry the search left, if any. *)
Definition or_default (found : option pyval) (default : pyval) : pyval :=
  match found with
  | Some v => v
  | None => default
  end.

Definition _fallback_parse (response_text : string) : M pyval :=
  overall <- find_score "overall" response_text ;;
  grammar <- find_score "grammar" response_text ;;
  vocabulary <- find_score "vocabulary" response_text ;;
  fluency <- find_score "fluency" response_text ;;
  pronunciation <- find_score "pronunciation" response_text ;;
  comprehension <- find_score "comprehension" response_text ;;
  let level := find_level response_text in
  Ok (VDict [
    ("overall_score", or_default overall (VFloat (Fin 50.0)));
    ("grammar_score", or_default grammar (VFloat (Fin 12.5)));
    ("vocabulary_score", or_default vocabulary (VFloat (Fin 10.0)));
    ("fluency_score", or_default fluency (VFloat (Fin 10.0)));
    ("pronunciation_score", or_default pronunciation (VFloat (Fin 7.5)));
    ("comprehension_score", or_default comprehension (VFloat (Fin 10.0)));
    ("proficiency_level", or_default level (VStr "B1"));
    ("strengths", strs ["Good communication effort"; "Clear expression"]);
    ("areas_for_improvement", strs ["Continue practicing"; "Expand vocabulary"]);
    ("recommendations", strs ["Keep practicing regularly"; "Read more English texts"]);
    ("detailed_feedback", VDict [
       ("grammar_notes", VStr "Basic grammar structure observed");
       ("vocabulary_notes", VStr "Appropriate word choice");
       ("fluency_notes", VStr "Clear communication");
       ("pronunciation_notes", VStr "Text-based analysis");
       ("comprehension_notes", VStr "Good understanding demonstrated")]);
    ("grammar_errors", VList []);
    ("vocabulary_analysis", VList [])]).

Section Service.

(** The [openai] package: whether it could be imported, the client it makes
    from a key, and one chat completion, which yields the content of the
    first choice (a text, or nothing).  [repr_float] is how Python writes a
    float in a formatted string. *)
Variable Client : Type.
Variable OPENAI_AVAILABLE : bool.
Variable AsyncOpenAI : string -> Client.
Variable chat_completions_create : Client -> string -> string -> string -> M (option string).
Variable json_loads : string -> M pyval.
Variable repr_float : pyfloat -> string.

Record GPTAnalysisService : Type := {
  api_key : option string;
  model : string;
  client : option Client
}.

(** [GPTAnalysisService(api_key, model)] *)
Definition init (key : option string) (model_name : string) : GPTAnalysisService :=
  {| api_key := key;
     model := model_name;
     client :=
       if OPENAI_AVAILABLE && truthy_str key
       then option_map AsyncOpenAI key
       else None |}.

(** [audio_duration or default], formatted. *)
Definition duration_or (audio_duration : option pyfloat) (default : string) : string :=
  match audio_duration with
  | Some d => if float_eq d (Fin 0) then default else repr_float d
  | None => default
  end.

Definition _create_analysis_prompt (self : GPTAnalysisService) (transcript context : string)
    (audio_duration : option pyfloat) : string :=
  (nl ++
    "You are an expert English language teacher and assessor. Please analyze the following English conversation transcript and provide a comprehensive evaluation." ++ nl ++
    nl ++
    "TRANSCRIPT: " ++ dq ++ transcript ++ dq ++ nl ++
    "CONTEXT: " ++ context ++ nl ++
    "AUDIO DURATION: " ++ duration_or audio_duration "Not specified" ++ " seconds" ++ nl ++
    nl ++
    "Please provide your analysis in the following JSON format:" ++ nl ++
    nl ++
    "{" ++ nl ++
    "    " ++ dq ++ "overall_score" ++ dq ++ ": <number between 0-100>," ++ nl ++
    "    " ++ dq ++ "grammar_score" ++ dq ++ ": <number between 0-25>," ++ nl ++
    "    " ++ dq ++ "vocabulary_score" ++ dq ++ ": <number between 0-20>," ++ nl ++
    "    " ++ dq ++ "fluency_score" ++ dq ++ ": <number between 0-20>," ++ nl ++
    "    " ++ dq ++ "pronunciation_score" ++ dq ++ ": <number between 0-15>," ++ nl ++
    "    " ++ dq ++ "comprehension_score" ++ dq ++ ": <number between 0-20>," ++ nl ++
    "    " ++ dq ++ "proficiency_level" ++ dq ++ ": " ++ dq ++ "<A1|A2|B1|B2|C1|C2>" ++ dq ++ "," ++ nl ++
    "    " ++ dq ++ "strengths" ++ dq ++ ": [" ++ nl ++
    "        " ++ dq ++ "<specific strength 1>" ++ dq ++ "," ++ nl ++
    "        " ++ dq ++ "<specific strength 2>" ++ dq ++ "," ++ nl ++
    "        " ++ dq ++ "<specific strength 3>" ++ dq ++ nl ++
    "    ]," ++ nl ++
    "    " ++ dq ++ "areas_for_improvement" ++ dq ++ ": [" ++ nl ++
    "        " ++ dq ++ "<specific area 1>" ++ dq ++ "," ++ nl ++
    "        " ++ dq ++ "<specific area 2>" ++ dq ++ "," ++ nl ++
    "        " ++ dq ++ "<specific area 3>" ++ dq ++ nl ++
    "    ]," ++ nl ++
    "    " ++ dq ++ "recommendations" ++ dq ++ ": [" ++ nl ++
    "        " ++ dq ++ "<specific recommendation 1>" ++ dq ++ "," ++ nl ++
    "        " ++ dq ++ "<specific recommendation 2>" ++ dq ++ "," ++ nl ++
    "        " ++ dq ++ "<specific recommendation 3>" ++ dq ++ nl ++
    "    ]," ++ nl ++
    "    " ++ dq ++ "detailed_feedback" ++ dq ++ ": {" ++ nl ++
    "        " ++ dq ++ "grammar_notes" ++ dq ++ ": " ++ dq ++ "<detailed grammar analysis>" ++ dq ++ "," ++ nl ++
    "        " ++ dq ++ "vocabulary_notes" ++ dq ++ ": " ++ dq ++ "<detailed vocabulary analysis>" ++ dq ++ "," ++ nl ++
    "        " ++ dq ++ "fluency_notes" ++ dq ++ ": " ++ dq ++ "<detailed fluency analysis>" ++ dq ++ "," ++ nl ++
    "        " ++ dq ++ "pronunciation_notes" ++ dq ++ ": " ++ dq ++ "<detailed pronunciation analysis>" ++ dq ++ "," ++ nl ++
    "        " ++ dq ++ "comprehension_notes" ++ dq ++ ": " ++ dq ++ "<detailed comprehension analysis>" ++ dq ++ nl ++
    "    }," ++ nl ++
    "    " ++ dq ++ "grammar_errors" ++ dq ++ ": [" ++ nl ++
    "        {" ++ nl ++
    "            " ++ dq ++ "type" ++ dq ++ ": " ++ dq ++ "<error type>" ++ dq ++ "," ++ nl ++
    "            " ++ dq ++ "description" ++ dq ++ ": " ++ dq ++ "<error description>" ++ dq ++ "," ++ nl ++
    "            " ++ dq ++ "severity" ++ dq ++ ": " ++ dq ++ "<low|medium|high>" ++ dq ++ "," ++ nl ++
    "            " ++ dq ++ "position" ++ dq ++ ": <character position>" ++ nl ++
    "        }" ++ nl ++
    "    ]," ++ nl ++
    "    " ++ dq ++ "vocabulary_analysis" ++ dq ++ ": [" ++ nl ++
    "        {" ++ nl ++
    "            " ++ dq ++ "word" ++ dq ++ ": " ++ dq ++ "<word>" ++ dq ++ "," ++ nl ++
    "            " ++ dq ++ "complexity_score" ++ dq ++ ": <number>," ++ nl ++
    "            " ++ dq ++ "is_advanced" ++ dq ++ ": <true|false>," ++ nl ++
    "            " ++ dq ++ "frequency" ++ dq ++ ": <number>" ++ nl ++
    "        }" ++ nl ++
    "    ]" ++ nl ++
    "}" ++ nl ++
    nl ++
    "EVALUATION CRITERIA:" ++ nl ++
    "- Grammar (0-25): Sentence structure, verb tenses, articles, prepositions, subject-verb agreement" ++ nl ++
    "- Vocabulary (0-20): Word choice, complexity, appropriateness, range" ++ nl ++
    "- Fluency (0-20): Flow, coherence, naturalness, hesitation" ++ nl ++
    "- Pronunciation (0-15): Clarity, stress, intonation (inferred from text patterns)" ++ nl ++
    "- Comprehension (0-20): Understanding, relevance, coherence" ++ nl ++
    nl ++
    "CEFR LEVELS:" ++ nl ++
    "- A1: Basic user, familiar expressions, simple sentences" ++ nl ++
    "- A2: Elementary user, routine tasks, simple past/present" ++ nl ++
    "- B1: Intermediate user, clear standard input, familiar matters" ++ nl ++
    "- B2: Upper-intermediate user, complex text, spontaneous interaction" ++ nl ++
    "- C1: Advanced user, demanding texts, flexible language use" ++ nl ++
    "- C2: Proficient user, virtually everything, precise expression" ++ nl ++
    nl ++
    "Please be thorough, accurate, and constructive in your analysis. Focus on specific, actionable feedback." ++ nl)%string.

Definition system_message : string :=
  "You are an expert English language teacher and assessor. Always respond with valid JSON format.".

Definition _get_gpt_analysis (self : GPTAnalysisService) (prompt : string) : M (option string) :=
  try_except
    (match client self with
     | Some c => chat_completions_create c (model self) system_message prompt
     | None => Raise AttributeError
     end)
    (fun e => Raise e).

(** [re.search] on something that is not a text is a [TypeError]. *)
Definition _parse_gpt_response (self : GPTAnalysisService)
    (response_text : option string) : M pyval :=
  match response_text with
  | None => Raise TypeError
  | Some text =>
      try_except_only is_JSONDecodeError
        (match Re.search json_pattern text with
         | Some json_match => json_loads (Re.group0 json_match)
         | None => _fallback_parse text
         end)
        (_fallback_parse text)
  end.

Definition analyze_conversation (self : GPTAnalysisService) (transcript context : string)
    (audio_duration : option pyfloat) : M GPTAnalysisResult :=
  match client self with
  | None => Raise (RuntimeError "GPT client not initialized. Please provide OpenAI API key.")
  | Some _ =>
    try_except
      (let prompt := _create_analysis_prompt self transcript context audio_duration in
       analysis_text <- _get_gpt_analysis self prompt ;;
       analysis_data <- _parse_gpt_response self analysis_text ;;
       overall <- py_get analysis_data "overall_score" (VInt 0) ;;
       grammar <- py_get analysis_data "grammar_score" (VInt 0) ;;
       vocabulary <- py_get analysis_data "vocabulary_score" (VInt 0) ;;
       fluency <- py_get analysis_data "fluency_score" (VInt 0) ;;
       pronunciation <- py_get analysis_data "pronunciation_score" (VInt 0) ;;
       comprehension <- py_get analysis_data "comprehension_score" (VInt 0) ;;
       level <- py_get analysis_data "proficiency_level" (VStr "A1") ;;
       st <- py_get analysis_data "strengths" (VList []) ;;
       im <- py_get analysis_data "areas_for_improvement" (VList []) ;;
       re <- py_get analysis_data "recommendations" (VList []) ;;
       fb <- py_get analysis_data "detailed_feedback" (VDict []) ;;
       ge <- py_get analysis_data "grammar_errors" (VList []) ;;
       va <- py_get analysis_data "vocabulary_analysis" (VList []) ;;
       Ok {| overall_score := overall;
             grammar_score := grammar;
             vocabulary_score := vocabulary;
             fluency_score := fluency;
             pronunciation_score := pronunciation;
             comprehension_score := comprehension;
             proficiency_level := level;
             strengths := st;
             areas_for_improvement := im;
             recommendations := re;
             detailed_feedback := fb;
             grammar_errors := ge;
             vocabulary_analysis := va |})
      (fun e => Raise e)
  end.

End Service.

End GPT.

(* ================================================================== *)
(** ** [app/main.py]: the analysis endpoint *)

Module Main.

Local Open Scope string_scope.
Local Open Scope Z_scope.
Local Open Scope py_scope.

(** The fields of [Settings] the endpoint reads. *)
Record Settings : Type := {
  USE_GPT_ANALYSIS : bool;
  OPENAI_API_KEY : option string;
  GPT_MODEL : string
}.

(** Both result classes are read through the same attributes. *)
Class Analysis (R : Type) : Type := {
  overall_score : R -> pyval;
  grammar_score : R -> pyval;
  vocabulary_score : R -> pyval;
  fluency_score : R -> pyval;
  pronunciation_score : R -> pyval;
  comprehension_score : R -> pyval;
  proficiency_level : R -> pyval;
  strengths : R -> pyval;
  areas_for_improvement : R -> pyval;
  recommendations : R -> pyval;
  detailed_feedback : R -> pyval;
  grammar_errors : R -> pyval;
  vocabulary_analysis : R -> pyval
}.

#[global] Instance Analysis_LLaMA : Analysis LLaMA.AnalysisResult := {
  overall_score := LLaMA.overall_score;
  grammar_score := LLaMA.grammar_score;
  vocabulary_score := LLaMA.vocabulary_score;
  fluency_score := LLaMA.fluency_score;
  pronunciation_score := LLaMA.pronunciation_score;
  comprehension_score := LLaMA.comprehension_score;
  proficiency_level := LLaMA.proficiency_level;
  strengths := LLaMA.strengths;
  areas_for_improvement := LLaMA.areas_for_improvement;
  recommendations := LLaMA.recommendations;
  detailed_feedback := LLaMA.detailed_feedback;
  grammar_errors := LLaMA.grammar_errors;
  vocabulary_analysis := LLaMA.vocabulary_analysis
}.

#[global] Instance Analysis_GPT : Analysis GPT.GPTAnalysisResult := {
  overall_score := GPT.overall_score;
  grammar_score := GPT.grammar_score;
  vocabulary_score := GPT.vocabulary_score;
  fluency_score := GPT.fluency_score;
  pronunciation_score := GPT.pronunciation_score;
  comprehension_score := GPT.comprehension_score;
  proficiency_level := GPT.proficiency_level;
  strengths := GPT.strengths;
  areas_for_improvement := GPT.areas_for_improvement;
  recommendations := GPT.recommendations;
  detailed_feedback := GPT.detailed_feedback;
  grammar_errors := GPT.grammar_errors;
  vocabulary_analysis := GPT.vocabulary_analysis
}.

(** The dictionary the endpoint returns. *)
Definition response {R : Type} `{Analysis R} (analysis_result : R) : pyval :=
  VDict [
    ("conversation_id", VStr "550e8400-e29b-41d4-a716-446655440000");
    ("overall_score", overall_score analysis_result);
    ("grammar_score", grammar_score analysis_result);
    ("vocabulary_score", vocabulary_score analysis_result);
    ("fluency_score", fluency_score analysis_result);
    ("pronunciation_score", pronunciation_score analysis_result);
    ("comprehension_score", comprehension_score analysis_result);
    ("proficiency_level", proficiency_level analysis_result);
    ("strengths", strengths analysis_result);
    ("areas_for_improvement", areas_for_improvement analysis_result);
    ("recommendations", recommendations analysis_result);
    ("detailed_feedback", detailed_feedback analysis_result);
    ("grammar_errors", grammar_errors analysis_result);
    ("vocabulary_analysis", vocabulary_analysis analysis_result)].

Section Endpoint.

Variables Tokenizer Model Client : Type.
Variable generate_and_decode : Tokenizer -> Model -> string -> Z -> M string.
Variable chat_completions_create : Client -> string -> string -> string -> M (option string).
Variable json_loads : string -> M pyval.
Variable repr_float : pyfloat -> string.
(** [str(e)] *)
Variable exn_str : exn -> string.

Variable settings : Settings.
Variable llama_service : LLaMA.LLaMAAnalysisService Tokenizer Model.
Variable gpt_service : GPT.GPTAnalysisService Client.

(** [POST /api/test/analyze].  The dictionary is built in each branch, since
    the two services return different classes. *)
Definition test_analyze_conversation (transcript : string) (context : option string)
    (audio_duration : option pyfloat) : M pyval :=
  try_except
    (if USE_GPT_ANALYSIS settings && truthy_str (OPENAI_API_KEY settings) then
       analysis_result <-
         GPT.analyze_conversation chat_completions_create json_loads repr_float
           gpt_service transcript (str_or context "General conversation") audio_duration ;;
       Ok (response analysis_result)
     else
       analysis_result <-
         LLaMA.analyze_conversation generate_and_decode json_loads
           llama_service transcript context audio_duration ;;
       Ok (response analysis_result))
    (fun e => Raise (HTTPException 500 ("Analysis failed: " ++ exn_str e))).

End Endpoint.

End Main.

(* ================================================================== *)
(** ** [app/services/conversation_service.py]: the progress of a user *)

Module ConversationService.

Local Open Scope string_scope.
Local Open Scope Z_scope.
Local Open Scope py_scope.

(** A row of the trend query. *)
Record trend_row : Type := {
  grammar_score : pyval;
  vocabulary_score : pyval;
  fluency_score : pyval;
  pronunciation_score : pyval;
  comprehension_score : pyval
}.

(** Truth value of an object, as [or] tests it. *)
Definition truthy (v : pyval) : bool :=
  match v with
  | VNone => false
  | VBool b => b
  | VInt z => negb (z =? 0)
  | VFloat f => negb (float_eq f (Fin 0))
  | VStr s => negb (String.eqb s "")
  | VList l => match l with [] => false | _ => true end
  | VDict d => match d with [] => false | _ => true end
  end.

(** [a or b] *)
Definition py_or (a b : pyval) : pyval := if truthy a then a else b.

(** The integer nearest to [q], the even one of two that are as near. *)
Definition round_half_even (q : Q) : Z :=
  let f := Qfloor q in
  let r := (q - inject_Z f)%Q in
  if Qltb r 0.5 then f
  else if Qltb 0.5 r then f + 1
  else if Z.even f then f else f + 1.

(** [round(x, 2)] *)
Definition py_round2 (x : pyval) : M pyval :=
  match x with
  | VInt z => Ok (VInt z)
  | VBool b => Ok (VInt (if b then 1 else 0))
  | VFloat (Fin q) => Ok (VFloat (Fin (Qred (Qmake (round_half_even (q * 100)) 100))))
  | VFloat f => Ok (VFloat f)
  | _ => Raise TypeError
  end.

Section Progress.

(** The database session and the five statements of [get_user_progress].
    Each stands for [await db.execute(...)] followed by [.scalar()] or
    [.all()]: it yields what the database holds for the user, or raises. *)
Variables Session UUID : Type.
Variable count_conversations : Session -> UUID -> M pyval.
Variable average_overall_score : Session -> UUID -> M pyval.
Variable latest_proficiency_level : Session -> UUID -> M pyval.
Variable last_conversation_created_at : Session -> UUID -> M pyval.
Variable last_ten_evaluations : Session -> UUID -> M (list trend_row).

(** The dictionary of the [except] branch. *)
Definition no_progress : pyval :=
  VDict [
    ("total_conversations", VInt 0);
    ("average_score", VFloat (Fin 0.0));
    ("current_level", VStr "A1");
    ("last_conversation_date", VNone);
    ("grammar_trend", VList []);
    ("vocabulary_trend", VList []);
    ("fluency_trend", VList []);
    ("pronunciation_trend", VList []);
    ("comprehension_trend", VList [])].

Definition get_user_progress (user_id : UUID) (db : Session) : M pyval :=
  try_except
    (total <- count_conversations db user_id ;;
     let total_conversations := py_or total (VInt 0) in
     avg <- average_overall_score db user_id ;;
     let average_score := py_or avg (VFloat (Fin 0.0)) in
     latest <- latest_proficiency_level db user_id ;;
     let current_level := py_or latest (VStr "A1") in
     last_conversation_date <- last_conversation_created_at db user_id ;;
     trend_data <- last_ten_evaluations db user_id ;;
     let grammar_trend := map grammar_score trend_data in
     let vocabulary_trend := map vocabulary_score trend_data in
     let fluency_trend := map fluency_score trend_data in
     let pronunciation_trend := map pronunciation_score trend_data in
     let comprehension_trend := map comprehension_score trend_data in
     rounded <- py_round2 average_score ;;
     Ok (VDict [
       ("total_conversations", total_conversations);
       ("average_score", rounded);
       ("current_level", current_level);
       ("last_conversation_date", last_conversation_date);
       ("grammar_trend", VList grammar_trend);
       ("vocabulary_trend", VList vocabulary_trend);
       ("fluency_trend", VList fluency_trend);
       ("pronunciation_trend", VList pronunciation_trend);
       ("comprehension_trend", VList comprehension_trend)]))
    (fun e => Ok no_progress).

End Progress.

End ConversationService.

(* ================================================================== *)
(** ** [app/services/llama_analysis.py]: the analysers of one dimension *)

(** What the grammar analysis reads of a spaCy document: a list of tokens,
    each with its text, its part of speech, its dependency label, the offset
    of its first character and the position of its syntactic head in the
    document.  A token knows its document and its own position there
    ([token.doc], [token.i]); here they are passed along with it. *)
Module Spacy.

Record Token : Type := {
  text : string;
  pos_ : string;
  dep_ : string;
  idx : Z;
  head : nat
}.

Definition Doc : Type := list Token.

End Spacy.

Module LLaMAAnalysers.

Import PyStr.
Local Open Scope string_scope.
Local Open Scope Z_scope.
Local Open Scope py_scope.

(** [s.endswith(suffix)] *)
Definition endswith (s suffix : string) : bool :=
  (String.length suffix <=? String.length s)%nat
  && String.eqb
       (String.substring (String.length s - String.length suffix) (String.length suffix) s)
       suffix.

(** [c.isupper()] for one character. *)
Definition isupper (c : ascii) : bool :=
  between 65 90 c || between 192 214 c || between 216 222 c.

(** [any(p(char) for char in s)] *)
Fixpoint any_char (p : ascii -> bool) (s : string) : bool :=
  match s with
  | EmptyString => false
  | String c s' => p c || any_char p s'
  end.

(** [s[1:]] *)
Definition tail (s : string) : string :=
  match s with
  | EmptyString => EmptyString
  | String _ s' => s'
  end.

(** [re.split(r'[.!?]+', s)]: the parts of the text between the maximal runs
    of full stops, exclamation marks and question marks.  [cur] is the part
    being read; [in_run] tells that the character before ended a sentence. *)
Definition ends_sentence (c : ascii) : bool :=
  Ascii.eqb c "." || Ascii.eqb c "!" || Ascii.eqb c "?".

Fixpoint re_split_from (cur : string) (in_run : bool) (s : string) : list string :=
  match s with
  | EmptyString => [cur]
  | String c s' =>
      if ends_sentence c then
        if in_run then re_split_from cur true s'
        else cur :: re_split_from EmptyString true s'
      else re_split_from (snoc cur c) false s'
  end.

Definition re_split_sentences (s : string) : list string :=
  re_split_from EmptyString false s.

(** [np.mean(l)] for a list of integers; NaN, with a warning, for the empty
    list. *)
Definition np_mean (l : list Z) : pyfloat :=
  match l with
  | [] => NaN
  | _ :: _ => Fin (inject_Z (fold_left Z.add l 0) / inject_Z (Z.of_nat (List.length l)))
  end.

(** [[len(s.split()) for s in sentences if s.strip()]] *)
Definition sentence_lengths_of (sentences : list string) : list Z :=
  map (fun s => Z.of_nat (List.length (split s)))
      (filter (fun s => negb (String.eqb (strip s) "")) sentences).

Section Service.

Variables Tokenizer Model : Type.
Variable generate_and_decode : Tokenizer -> Model -> string -> Z -> M string.
Variable json_loads : string -> M pyval.
(** [self.nlp]: the spaCy pipeline, [None] when its English model is not
    installed. *)
Variable nlp : option (string -> M Spacy.Doc).

(* ------------------------------------------------------------------ *)
(** *** Grammar *)

(** The lines both grammar analyses end with: the score and the error rate,
    from the numbers of errors and of words. *)
Definition grammar_scoring (error_count word_count : Z) : M (num * num) :=
  error_rate <- num_truediv (NInt error_count) (NInt (Z.max word_count 1)) ;;
  let base_score :=
    if num_lt error_rate (LLaMA.fl 0.05) then NInt 25
    else if num_lt error_rate (LLaMA.fl 0.1) then NInt 22
    else if num_lt error_rate (LLaMA.fl 0.15) then NInt 18
    else if num_lt error_rate (LLaMA.fl 0.25) then NInt 15
    else num_max (NInt 8) (num_sub (NInt 25) (num_mul (NInt error_count) (LLaMA.fl 1.5))) in
  let base_score :=
    if word_count <? 2 then num_max (NInt 1) (num_sub base_score (NInt 15))
    else if word_count <? 3 then num_max (NInt 2) (num_sub base_score (NInt 10))
    else if word_count <? 5 then num_max (NInt 3) (num_sub base_score (NInt 6))
    else if word_count <? 10 then num_max (NInt 5) (num_sub base_score (NInt 3))
    else base_score in
  let length_penalty :=
    if word_count <? 2 then 25
    else if word_count <? 3 then 22
    else if word_count <? 5 then 18
    else if word_count <? 10 then 12
    else 0 in
  let score := num_max (NInt 1) (num_sub base_score (NInt length_penalty)) in
  Ok (score, error_rate).

Definition repetition_error (word : string) (i : Z) : pyval :=
  VDict [("type", VStr "repetition");
         ("description", VStr ("Repeated word: '" ++ word ++ "'"));
         ("severity", VStr "medium");
         ("position", VInt i)].

(** The loop of [_fallback_grammar_analysis] from position [i] on;
    [previous] is [words[i-1]], if [i > 0]. *)
Fixpoint repetitions (previous : option string) (i : Z) (words : list string)
    (errors : list pyval) (error_count : Z) : list pyval * Z :=
  match words with
  | [] => (errors, error_count)
  | word :: rest =>
      if match previous with
         | Some before => String.eqb (lower word) (lower before)
         | None => false
         end
      then repetitions (Some word) (i + 1) rest
             (errors ++ [repetition_error word i])%list (error_count + 1)
      else repetitions (Some word) (i + 1) rest errors error_count
  end.

Definition _fallback_grammar_analysis (self : LLaMA.LLaMAAnalysisService Tokenizer Model)
    (text : string) : M pyval :=
  let words := split text in
  let word_count := Z.of_nat (List.length words) in
  let '(errors, error_count) := repetitions None 0 words [] 0 in
  scored <- grammar_scoring error_count word_count ;;
  let '(score, error_rate) := scored in
  Ok (VDict [("score", of_num score);
             ("errors", VList errors);
             ("error_count", VInt error_count);
             ("error_rate", of_num error_rate)]).

Definition _check_subject_verb_agreement (self : LLaMA.LLaMAAnalysisService Tokenizer Model)
    (subject verb : Spacy.Token) : bool :=
  let subject_text := lower (Spacy.text subject) in
  let verb_text := lower (Spacy.text verb) in
  if mem subject_text ["he"; "she"; "it"] && endswith verb_text "s" then true
  else if mem subject_text ["they"; "we"; "you"] && negb (endswith verb_text "s") then true
  else true.

(** [token] is the token at position [i] of [doc]. *)
Definition _check_article_usage (self : LLaMA.LLaMAAnalysisService Tokenizer Model)
    (doc : Spacy.Doc) (i : nat) (token : Spacy.Token) : bool :=
  let word := lower (Spacy.text token) in
  let next_word :=
    match nth_error doc (S i) with
    | Some next => lower (Spacy.text next)
    | None => ""
    end in
  let starts_with_vowel :=
    existsb (fun vowel => String.prefix vowel next_word) ["a"; "e"; "i"; "o"; "u"] in
  if String.eqb word "a" && starts_with_vowel then false
  else if String.eqb word "an" && negb starts_with_vowel then false
  else true.

Definition agreement_error (token head : Spacy.Token) : pyval :=
  VDict [("type", VStr "subject_verb_agreement");
         ("description",
          VStr ("Subject-verb disagreement: '" ++ Spacy.text token ++ "' and '"
                ++ Spacy.text head ++ "'"));
         ("severity", VStr "high");
         ("position", VInt (Spacy.idx token))].

Definition article_error (token : Spacy.Token) : pyval :=
  VDict [("type", VStr "article_usage");
         ("description", VStr ("Incorrect article usage: '" ++ Spacy.text token ++ "'"));
         ("severity", VStr "medium");
         ("position", VInt (Spacy.idx token))].

(** One round of the loop of [_analyze_grammar], for the token at position
    [i]. *)
Definition grammar_step (self : LLaMA.LLaMAAnalysisService Tokenizer Model)
    (doc : Spacy.Doc) (acc : list pyval * Z) (it : nat * Spacy.Token) : list pyval * Z :=
  let '(i, token) := it in
  let '(errors, error_count) := acc in
  let head := nth (Spacy.head token) doc token in
  let '(errors, error_count) :=
    if String.eqb (Spacy.dep_ token) "nsubj" && String.eqb (Spacy.pos_ head) "VERB"
       && negb (_check_subject_verb_agreement self token head)
    then ((errors ++ [agreement_error token head])%list, error_count + 1)
    else (errors, error_count) in
  if String.eqb (Spacy.pos_ token) "DET" && mem (lower (Spacy.text token)) ["a"; "an"]
     && negb (_check_article_usage self doc i token)
  then ((errors ++ [article_error token])%list, error_count + 1)
  else (errors, error_count).

Definition _analyze_grammar (self : LLaMA.LLaMAAnalysisService Tokenizer Model)
    (text : string) : M pyval :=
  match nlp with
  | None => _fallback_grammar_analysis self text
  | Some pipeline =>
      doc <- pipeline text ;;
      let '(errors, error_count) :=
        fold_left (grammar_step self doc) (combine (seq 0 (List.length doc)) doc) ([], 0) in
      let word_count := Z.of_nat (List.length (split text)) in
      scored <- grammar_scoring error_count word_count ;;
      let '(score, error_rate) := scored in
      Ok (VDict [("score", of_num score);
                 ("errors", VList errors);
                 ("error_count", VInt error_count);
                 ("error_rate", of_num error_rate)])
  end.

(* ------------------------------------------------------------------ *)
(** *** Fluency *)

Definition _analyze_fluency (self : LLaMA.LLaMAAnalysisService Tokenizer Model)
    (text : string) (duration : option pyfloat) : M pyval :=
  let words := split text in
  let word_count := Z.of_nat (List.length words) in
  if word_count =? 0 then Ok (VDict [("score", VInt 0); ("metrics", VDict [])])
  else
    wpm <-
      match duration with
      | Some d =>
          if float_eq d (Fin 0) then Ok (NInt 150)
          else
            per_second <- num_truediv (NInt word_count) (NFloat d) ;;
            Ok (num_mul per_second (NInt 60))
      | None => Ok (NInt 150)
      end ;;
    let sentences := re_split_sentences text in
    let sentence_lengths := sentence_lengths_of sentences in
    let avg_sentence_length :=
      match sentence_lengths with
      | [] => NInt 0
      | _ :: _ => NFloat (np_mean sentence_lengths)
      end in
    let unique_words := count_distinct words in
    lexical_diversity <-
      (if 0 <? word_count then num_truediv (NInt unique_words) (NInt word_count)
       else Ok (NInt 0)) ;;
    let wpm_score :=
      if num_le (NInt 120) wpm && num_le wpm (NInt 180) then LLaMA.fl 1.0
      else if num_le (NInt 100) wpm && num_le wpm (NInt 200) then LLaMA.fl 0.7
      else LLaMA.fl 0.4 in
    let sentence_score :=
      if num_le (NInt 8) avg_sentence_length && num_le avg_sentence_length (NInt 20)
      then LLaMA.fl 1.0 else LLaMA.fl 0.7 in
    let diversity_score := num_min (LLaMA.fl 1.0) (num_mul lexical_diversity (NInt 2)) in
    third <-
      num_truediv (num_add (num_add wpm_score sentence_score) diversity_score) (NInt 3) ;;
    let base_score := num_mul third (NInt 20) in
    let length_penalty :=
      if word_count <? 2 then 18
      else if word_count <? 3 then 15
      else if word_count <? 5 then 12
      else if word_count <? 10 then 8
      else 0 in
    let base_score :=
      if word_count <? 2 then num_max (LLaMA.fl 0.1) (num_sub base_score (NInt 12))
      else if word_count <? 3 then num_max (LLaMA.fl 0.2) (num_sub base_score (NInt 8))
      else if word_count <? 5 then num_max (LLaMA.fl 0.5) (num_sub base_score (NInt 5))
      else if word_count <? 10 then num_max (NInt 1) (num_sub base_score (NInt 2))
      else base_score in
    let score := num_max (LLaMA.fl 0.1) (num_sub base_score (NInt length_penalty)) in
    Ok (VDict [("score", of_num score);
               ("metrics", VDict [("words_per_minute", of_num wpm);
                                  ("average_sentence_length", of_num avg_sentence_length);
                                  ("lexical_diversity", of_num lexical_diversity);
                                  ("unique_words", VInt unique_words)])]).

(* ------------------------------------------------------------------ *)
(** *** The complexity of a word *)

(** The loop of [_count_syllables]: the number of groups of vowels. *)
Fixpoint count_vowel_groups (word : string) (count : Z) (prev_was_vowel : bool) : Z :=
  match word with
  | EmptyString => count
  | String char word' =>
      let is_vowel := contains (String char "") "aeiouy" in
      count_vowel_groups word'
        (if is_vowel && negb prev_was_vowel then count + 1 else count) is_vowel
  end.

Definition _count_syllables (self : LLaMA.LLaMAAnalysisService Tokenizer Model)
    (word : string) : Z :=
  let word := lower word in
  let count := count_vowel_groups word 0 false in
  let count := if endswith word "e" && (1 <? count) then count - 1 else count in
  Z.max 1 count.

Definition prefixes : list string :=
  ["un"; "re"; "pre"; "anti"; "dis"; "mis"; "over"; "under"].

Definition suffixes : list string :=
  ["tion"; "sion"; "ness"; "ment"; "able"; "ible"; "ful"; "less"].

Definition _assess_morphological_complexity
    (self : LLaMA.LLaMAAnalysisService Tokenizer Model) (word : string) : num :=
  let complexity := NInt 0 in
  let complexity :=
    fold_left (fun complexity prefix =>
                 if String.prefix prefix word then num_add complexity (LLaMA.fl 0.5)
                 else complexity)
              prefixes complexity in
  let complexity :=
    fold_left (fun complexity suffix =>
                 if endswith word suffix then num_add complexity (LLaMA.fl 0.5)
                 else complexity)
              suffixes complexity in
  let complexity :=
    if contains "_" word || any_char isupper (tail word)
    then num_add complexity (NInt 1) else complexity in
  num_min complexity (NInt 2).

(** The set [common_words] of [_get_word_frequency_score]. *)
Definition most_common_words : list string :=
  ["the"; "be"; "to"; "of"; "and"; "a"; "in"; "that"; "have"; "i";
   "it"; "for"; "not"; "on"; "with"; "he"; "as"; "you"; "do"; "at"].

Definition _get_word_frequency_score (self : LLaMA.LLaMAAnalysisService Tokenizer Model)
    (word : string) : num :=
  if mem word most_common_words then LLaMA.fl 0.1
  else if len word <=? 4 then LLaMA.fl 0.3
  else if len word <=? 7 then LLaMA.fl 0.6
  else LLaMA.fl 0.9.

Definition _calculate_word_complexity (self : LLaMA.LLaMAAnalysisService Tokenizer Model)
    (word : string) : M num :=
  tenth <- num_truediv (NInt (len word)) (NInt 10) ;;
  let length_score := num_mul (num_min tenth (NInt 1)) (NInt 3) in
  let syllables := _count_syllables self word in
  quarter <- num_truediv (NInt syllables) (NInt 4) ;;
  let syllable_score := num_mul (num_min quarter (NInt 1)) (NInt 2) in
  let morph_score := num_mul (_assess_morphological_complexity self word) (NInt 2) in
  let freq_score := num_mul (_get_word_frequency_score self word) (NInt 3) in
  num_truediv
    (num_add (num_add (num_add length_score syllable_score) morph_score) freq_score)
    (NInt 4).

(* ------------------------------------------------------------------ *)
(** *** Comprehension *)

Definition _fallback_comprehension_score (self : LLaMA.LLaMAAnalysisService Tokenizer Model)
    (text : string) : num :=
  let sentences := re_split_sentences text in
  let avg_length := NFloat (np_mean (sentence_lengths_of sentences)) in
  if num_gt avg_length (NInt 15) then NInt 18
  else if num_gt avg_length (NInt 10) then NInt 15
  else if num_gt avg_length (NInt 5) then NInt 12
  else NInt 8.

(** The four patterns of [_extract_score_from_response], under
    [re.IGNORECASE]:
    [score[:\s]*(\d+(?:\.\d+)?)], [(\d+(?:\.\d+)?)/N],
    [(\d+(?:\.\d+)?)\s*points?] and [(\d+(?:\.\d+)?)\s*out\s*of\s*N],
    where [N] is [str(max_score)]. *)
Definition spaces : Re.regex := Re.Star (Re.Chr isspace).

Definition score_patterns (max_score : Z) : list Re.regex :=
  [Re.Cat (Re.word_i "score") (Re.Cat (Re.Star Re.colon_or_space) (Re.Group Re.number));
   Re.Cat (Re.Group Re.number) (Re.word_i ("/" ++ str_of_Z max_score));
   Re.Cat (Re.Group Re.number)
     (Re.Cat spaces (Re.Cat (Re.word_i "point") (Re.Opt (Re.chr_i "s"))));
   Re.Cat (Re.Group Re.number)
     (Re.Cat spaces
        (Re.Cat (Re.word_i "out")
           (Re.Cat spaces
              (Re.Cat (Re.word_i "of")
                 (Re.Cat spaces (Re.word_i (str_of_Z max_score)))))))].

(** The loop over the patterns: the first that matches decides. *)
Fixpoint extract_score (patterns : list Re.regex) (response : string) (max_score : Z)
    : M num :=
  match patterns with
  | [] => num_truediv (NInt max_score) (NInt 2)
  | pattern :: rest =>
      match Re.search pattern response with
      | Some m =>
          match Re.group1 m with
          | Some digits =>
              score <- GPT.py_float digits ;;
              Ok (num_min (NFloat score) (NInt max_score))
          | None => Raise TypeError
          end
      | None => extract_score rest response max_score
      end
  end.

Definition _extract_score_from_response (self : LLaMA.LLaMAAnalysisService Tokenizer Model)
    (response : string) (max_score : Z) : M num :=
  extract_score (score_patterns max_score) response max_score.

Definition comprehension_prompt (text : string) (context : option string) : string :=
  (nl ++
      "            Analyze the following text for comprehension and coherence:" ++ nl ++
      "            " ++ nl ++
      "            Text: " ++ dq ++ text ++ dq ++ nl ++
      "            Context: " ++ str_or context "General conversation" ++ nl ++
      "            " ++ nl ++
      "            Rate the comprehension level (0-20) based on:" ++ nl ++
      "            1. Logical flow of ideas" ++ nl ++
      "            2. Appropriate responses to context" ++ nl ++
      "            3. Coherence and clarity" ++ nl ++
      "            4. Understanding of topic" ++ nl ++
      "            5. Sophistication of expression" ++ nl ++
      "            " ++ nl ++
      "            Provide a score and brief explanation." ++ nl ++
      "            ")%string.

Definition _analyze_comprehension (self : LLaMA.LLaMAAnalysisService Tokenizer Model)
    (text : string) (context : option string) : M pyval :=
  heuristic_score <- LLaMA._enhanced_comprehension_analysis self text context ;;
  score <-
    try_except
      (let prompt := comprehension_prompt text context in
       response <- LLaMA._generate_llama_response generate_and_decode self prompt 500 ;;
       llama_score <- _extract_score_from_response self response 20 ;;
       Ok (num_add (num_mul heuristic_score (LLaMA.fl 0.6))
                   (num_mul llama_score (LLaMA.fl 0.4))))
      (fun e => Ok heuristic_score) ;;
  Ok (VDict [("score", of_num (num_min (NInt 20) score));
             ("analysis", VStr "Enhanced comprehension analysis completed")]).

(* ------------------------------------------------------------------ *)
(** *** Feedback *)

Definition _generate_fallback_feedback (self : LLaMA.LLaMAAnalysisService Tokenizer Model)
    (text : string) : pyval :=
  VDict [
    ("pronunciation_score", VInt 0);
    ("strengths", strs ["Clear communication"; "Good vocabulary usage"]);
    ("areas_for_improvement", strs ["Grammar accuracy"; "Fluency"]);
    ("recommendations", strs ["Practice more conversations"; "Focus on grammar"]);
    ("detailed_feedback", VDict [
       ("grammar_notes", VStr "Continue practicing grammar rules");
       ("vocabulary_notes", VStr "Good word choice overall");
       ("fluency_notes", VStr "Work on speaking pace and pauses");
       ("pronunciation_notes", VStr "Focus on clear pronunciation");
       ("overall_assessment", VStr "Good effort, keep practicing")])].

Definition _parse_json_response (self : LLaMA.LLaMAAnalysisService Tokenizer Model)
    (response : string) : M pyval :=
  parsed <-
    try_except_only is_JSONDecodeError
      (match Re.search GPT.json_pattern response with
       | Some json_match =>
           let json_str := Re.group0 json_match in
           data <- json_loads json_str ;;
           Ok (Some data)
       | None => Ok None
       end)
      (Ok None) ;;
  match parsed with
  | Some data => Ok data
  | None => Ok (_generate_fallback_feedback self "")
  end.

Definition feedback_prompt (text : string) (context : option string) : string :=
  (nl ++
      "        As an expert language teacher, analyze this conversation and provide detailed feedback:" ++ nl ++
      "        " ++ nl ++
      "        Conversation: " ++ dq ++ text ++ dq ++ nl ++
      "        Context: " ++ str_or context "General conversation" ++ nl ++
      "        " ++ nl ++
      "        Provide analysis in this JSON format:" ++ nl ++
      "        {" ++ nl ++
      "            " ++ dq ++ "strengths" ++ dq ++ ": [" ++ dq ++ "strength1" ++ dq ++ ", " ++ dq ++ "strength2" ++ dq ++ "]," ++ nl ++
      "            " ++ dq ++ "areas_for_improvement" ++ dq ++ ": [" ++ dq ++ "area1" ++ dq ++ ", " ++ dq ++ "area2" ++ dq ++ "]," ++ nl ++
      "            " ++ dq ++ "recommendations" ++ dq ++ ": [" ++ dq ++ "rec1" ++ dq ++ ", " ++ dq ++ "rec2" ++ dq ++ "]," ++ nl ++
      "            " ++ dq ++ "detailed_feedback" ++ dq ++ ": {" ++ nl ++
      "                " ++ dq ++ "grammar_notes" ++ dq ++ ": " ++ dq ++ "grammar feedback" ++ dq ++ "," ++ nl ++
      "                " ++ dq ++ "vocabulary_notes" ++ dq ++ ": " ++ dq ++ "vocabulary feedback" ++ dq ++ "," ++ nl ++
      "                " ++ dq ++ "fluency_notes" ++ dq ++ ": " ++ dq ++ "fluency feedback" ++ dq ++ "," ++ nl ++
      "                " ++ dq ++ "comprehension_notes" ++ dq ++ ": " ++ dq ++ "comprehension feedback" ++ dq ++ "," ++ nl ++
      "                " ++ dq ++ "overall_assessment" ++ dq ++ ": " ++ dq ++ "overall assessment" ++ dq ++ nl ++
      "            }" ++ nl ++
      "        }" ++ nl ++
      "        ")%string.

Definition _generate_llama_feedback (self : LLaMA.LLaMAAnalysisService Tokenizer Model)
    (text : string) (context : option string) : M pyval :=
  let prompt := feedback_prompt text context in
  try_except
    (response <- LLaMA._generate_llama_response generate_and_decode self prompt 500 ;;
     _parse_json_response self response)
    (fun e => Ok (_generate_fallback_feedback self text)).

End Service.

End LLaMAAnalysers.

(* ================================================================== *)
(** ** [app/services/gpt_analysis.py]: the reply to the student *)

Module GPTConversation.

Import PyStr.
Local Open Scope string_scope.
Local Open Scope Z_scope.
Local Open Scope py_scope.

(** [v[:2]]: a list or a text has a slice; nothing else the result class can
    hold has one, and asking for it raises (a [TypeError]; for a dictionary
    a [KeyError] from Python 3.12 on). *)
Definition first_two (v : pyval) : M pyval :=
  match v with
  | VList l => Ok (VList (firstn 2 l))
  | VStr s => Ok (VStr (String.substring 0 2 s))
  | _ => Raise TypeError
  end.

(** The characters of a text, as iterating over it yields them. *)
Fixpoint characters (s : string) : list string :=
  match s with
  | EmptyString => []
  | String c s' => String c EmptyString :: characters s'
  end.

(** The items of a list if all of them are texts. *)
Fixpoint texts (l : list pyval) : option (list string) :=
  match l with
  | [] => Some []
  | VStr s :: l' => option_map (cons s) (texts l')
  | _ :: _ => None
  end.

(** [sep.join(v)] *)
Definition join_value (sep : string) (v : pyval) : M string :=
  match v with
  | VList l =>
      match texts l with
      | Some items => Ok (join sep items)
      | None => Raise TypeError
      end
  | VStr s => Ok (join sep (characters s))
  | _ => Raise TypeError
  end.

(** The entry of a dictionary with text keys and text values. *)
Fixpoint lookup_text (k : string) (d : list (string * string)) : option string :=
  match d with
  | [] => None
  | (k', v) :: d' => if String.eqb k k' then Some v else lookup_text k d'
  end.

Definition conversation_system_message : string :=
  "You are an intelligent English language teacher. Provide engaging, educational responses that help students improve their English.".

Section Service.

(** The chat completion of [generate_conversation_response] (temperature
    0.7, at most 300 tokens, 20 seconds): it yields the content of the first
    choice.  [py_str] is [str(v)], as a formatted string writes an object
    that is not a text. *)
Variable Client : Type.
Variable chat_completions_create : Client -> string -> string -> string -> M (option string).
Variable py_str : pyval -> string.

Definition formatted (v : pyval) : string :=
  match v with
  | VStr s => s
  | _ => py_str v
  end.

Definition _create_conversation_prompt (self : GPT.GPTAnalysisService Client)
    (user_message : string) (analysis : GPT.GPTAnalysisResult) (topic : string)
    (history : pyval) : M string :=
  let proficiency_level := formatted (GPT.proficiency_level analysis) in
  first_strengths <- first_two (GPT.strengths analysis) ;;
  strengths <- join_value ", " first_strengths ;;
  first_improvements <- first_two (GPT.areas_for_improvement analysis) ;;
  improvements <- join_value ", " first_improvements ;;
  Ok (nl ++
      "You are an intelligent English language teacher having a conversation with a student." ++ nl ++
      nl ++
      "STUDENT MESSAGE: " ++ dq ++ user_message ++ dq ++ nl ++
      "TOPIC: " ++ topic ++ nl ++
      "STUDENT LEVEL: " ++ proficiency_level ++ nl ++
      "STUDENT STRENGTHS: " ++ strengths ++ nl ++
      "AREAS TO IMPROVE: " ++ improvements ++ nl ++
      nl ++
      "Generate a natural, engaging response that:" ++ nl ++
      "1. Acknowledges their message appropriately" ++ nl ++
      "2. Provides educational value" ++ nl ++
      "3. Asks a follow-up question related to the topic" ++ nl ++
      "4. Adapts to their proficiency level (" ++ proficiency_level ++ ")" ++ nl ++
      "5. Is encouraging and supportive" ++ nl ++
      nl ++
      "Keep your response conversational, natural, and educational. Ask a question that will help them practice more." ++ nl)%string.

(** The dictionary [responses] of [_fallback_response]. *)
Definition responses (topic : string) : list (string * string) :=
  [("A1", "That's great! You're doing well with your English. What do you like most about "
          ++ lower topic ++ "?");
   ("A2", "Good job! I can see you're improving. Tell me more about your experience with "
          ++ lower topic ++ ".");
   ("B1", "Interesting point! Your English is getting better. What's your perspective on "
          ++ lower topic ++ "?");
   ("B2", "Excellent! You're expressing yourself well. How do you think "
          ++ lower topic ++ " has changed recently?");
   ("C1", "Sophisticated response! Your English is very good. What are your thoughts on the future of "
          ++ lower topic ++ "?");
   ("C2", "Outstanding! Your command of English is excellent. What's your assessment of current trends in "
          ++ lower topic ++ "?")].

(** [responses.get(proficiency_level, default)]: a list or a dictionary
    cannot be a key, and asking for it is a [TypeError]; a key that is not a
    text is not among the six. *)
Definition _fallback_response (self : GPT.GPTAnalysisService Client)
    (user_message : string) (analysis : GPT.GPTAnalysisResult) (topic : string) : M string :=
  let proficiency_level := GPT.proficiency_level analysis in
  let default := "That's interesting! Tell me more about " ++ lower topic ++ "." in
  match proficiency_level with
  | VStr level =>
      Ok (match lookup_text level (responses topic) with
          | Some reply => reply
          | None => default
          end)
  | VList _ | VDict _ => Raise TypeError
  | _ => Ok default
  end.

Definition generate_conversation_response (self : GPT.GPTAnalysisService Client)
    (user_message : string) (analysis : GPT.GPTAnalysisResult) (topic : string)
    (conversation_history : pyval) : M string :=
  match GPT.client self with
  | None => _fallback_response self user_message analysis topic
  | Some chat =>
      try_except
        (prompt <- _create_conversation_prompt self user_message analysis topic
                     conversation_history ;;
         content <- chat_completions_create chat (GPT.model self)
                      conversation_system_message prompt ;;
         match content with
         | Some reply => Ok (strip reply)
         | None => Raise AttributeError
         end)
        (fun e => _fallback_response self user_message analysis topic)
  end.

End Service.

End GPTConversation.

(* ================================================================== *)
(** ** [app/services/auth.py]: the tokens *)

Module Auth.

Local Open Scope string_scope.
Local Open Scope Z_scope.
Local Open Scope py_scope.

(** What the application reads of a [User]. *)
Record User : Type := {
  id : pyval;
  email : pyval;
  role : pyval
}.

(** What [jwt.decode] does with a token: it yields the claims, a dictionary,
    or raises [JWTError] (a bad signature, an expired token, claims that are
    not a dictionary), or fails otherwise. *)
Inductive decoded : Type :=
| Claims (payload : list (string * pyval))
| JWTError
| Failed (e : exn).

(** [d.update({key: value})] *)
Fixpoint update (key : string) (value : pyval) (d : list (string * pyval))
    : list (string * pyval) :=
  match d with
  | [] => [(key, value)]
  | (k, v) :: d' =>
      if String.eqb k key then (k, value) :: d' else (k, v) :: update key value d'
  end.

(** [payload.get(key)] *)
Definition get (payload : list (string * pyval)) (key : string) : pyval :=
  match lookup key payload with
  | Some v => v
  | None => VNone
  end.

(** [v != s] for a text [s]. *)
Definition differs_from (v : pyval) (s : string) : bool :=
  match v with
  | VStr s' => negb (String.eqb s' s)
  | _ => true
  end.

Section Service.

(** [jwt.encode] and [jwt.decode] with the key and the algorithm of the
    service, and the clock: [datetime.utcnow()] in seconds. *)
Variable jwt_encode : list (string * pyval) -> M string.
Variable jwt_decode : string -> decoded.
Variable utcnow : Z.

Record AuthService : Type := {
  access_token_expire_minutes : Z;
  refresh_token_expire_days : Z
}.

(** [expires_delta] is a number of seconds; a [timedelta] of zero is false. *)
Definition create_access_token (self : AuthService) (data : list (string * pyval))
    (expires_delta : option Z) : M string :=
  let to_encode := data in
  let expire :=
    match expires_delta with
    | Some delta =>
        if delta =? 0 then utcnow + 60 * access_token_expire_minutes self
        else utcnow + delta
    | None => utcnow + 60 * access_token_expire_minutes self
    end in
  let to_encode := update "type" (VStr "access") (update "exp" (VInt expire) to_encode) in
  jwt_encode to_encode.

Definition create_refresh_token (self : AuthService) (data : list (string * pyval))
    : M string :=
  let to_encode := data in
  let expire := utcnow + 86400 * refresh_token_expire_days self in
  let to_encode := update "type" (VStr "refresh") (update "exp" (VInt expire) to_encode) in
  jwt_encode to_encode.

Definition verify_token (self : AuthService) (token : string)
    : M (option (list (string * pyval))) :=
  match jwt_decode token with
  | Claims payload => Ok (Some payload)
  | JWTError => Ok None
  | Failed e => Raise e
  end.

Definition get_user_from_token (self : AuthService) (token : string) : M (option User) :=
  try_except
    (payload <- verify_token self token ;;
     match payload with
     | None | Some [] => Ok None
     | Some payload =>
         if differs_from (get payload "type") "access" then Ok None
         else
           let user_id := get payload "sub" in
           if negb (ConversationService.truthy user_id) then Ok None
           else Ok (Some {| id := user_id;
                            email := get payload "email";
                            role := get payload "role" |})
     end)
    (fun e => Ok None).

Definition refresh_access_token (self : AuthService) (refresh_token : string)
    : M (option string) :=
  try_except
    (payload <- verify_token self refresh_token ;;
     match payload with
     | None | Some [] => Ok None
     | Some payload =>
         if differs_from (get payload "type") "refresh" then Ok None
         else
           let user_id := get payload "sub" in
           if negb (ConversationService.truthy user_id) then Ok None
           else
             let token_data :=
               [("sub", user_id);
                ("email", get payload "email");
                ("role", get payload "role")] in
             new_access_token <- create_access_token self token_data None ;;
             Ok (Some new_access_token)
     end)
    (fun e => Ok None).

End Service.

End Auth.

(* ================================================================== *)
(** ** [app/services/conversation_service.py]: reading a conversation *)

Module ConversationQueries.

Local Open Scope py_scope.

Section Queries.

(** The database session and the three [select] statements, each followed
    by [scalar_one_or_none()] or [scalars().all()]: what the database holds,
    or an exception. *)
Variables Session Conversation ConversationEvaluation : Type.
Variable select_conversation : Session -> string -> pyval -> M (option Conversation).
Variable select_user_conversations : Session -> pyval -> M (list Conversation).
Variable select_evaluation : Session -> string -> M (option ConversationEvaluation).

Definition get_conversation (conversation_id : string) (user_id : pyval) (db : Session)
    : M (option Conversation) :=
  try_except
    (select_conversation db conversation_id user_id)
    (fun e => Ok None).

Definition get_user_conversations (user_id : pyval) (db : Session) : M (list Conversation) :=
  try_except
    (select_user_conversations db user_id)
    (fun e => Ok []).

Definition get_conversation_evaluation (conversation_id : string) (db : Session)
    : M (option ConversationEvaluation) :=
  try_except
    (select_evaluation db conversation_id)
    (fun e => Ok None).

End Queries.

End ConversationQueries.

(* ================================================================== *)
(** ** [app/main.py]: the other endpoints *)

Module Api.

Local Open Scope string_scope.
Local Open Scope Z_scope.
Local Open Scope py_scope.

Section Endpoints.

Variables Tokenizer Model Session Conversation ConversationResponse : Type.
Variable settings : Main.Settings.
Variable llama_service : LLaMA.LLaMAAnalysisService Tokenizer Model.
(** [str(e)] *)
Variable exn_str : exn -> string.

(** The token library and the clock of the authentication service. *)
Variable jwt_encode : list (string * pyval) -> M string.
Variable jwt_decode : string -> Auth.decoded.
Variable utcnow : Z.
Variable auth_service : Auth.AuthService.

(** The statements of the conversation service, and the validation of
    [ConversationResponse.from_orm]. *)
Variable select_conversation : Session -> string -> pyval -> M (option Conversation).
Variable from_orm : Conversation -> M ConversationResponse.
Variable count_conversations : Session -> string -> M pyval.
Variable average_overall_score : Session -> string -> M pyval.
Variable latest_proficiency_level : Session -> string -> M pyval.
Variable last_conversation_created_at : Session -> string -> M pyval.
Variable last_ten_evaluations : Session -> string -> M (list ConversationService.trend_row).

(** The dependency [get_current_user]; [credentials] is the bearer token. *)
Definition get_current_user (credentials : string) : M Auth.User :=
  try_except
    (let token := credentials in
     user <- Auth.get_user_from_token jwt_decode auth_service token ;;
     match user with
     | None => Raise (HTTPException 401 "Invalid authentication credentials")
     | Some user => Ok user
     end)
    (fun e => Raise (HTTPException 401 "Could not validate credentials")).

(** [GET /health] *)
Definition health_check : pyval :=
  let uses_gpt :=
    Main.USE_GPT_ANALYSIS settings && truthy_str (Main.OPENAI_API_KEY settings) in
  VDict [
    ("status", VStr "healthy");
    ("analysis_model", VStr (if uses_gpt then "GPT" else "LLaMA"));
    ("model", VStr (if uses_gpt then Main.GPT_MODEL settings
                    else LLaMA.model_name llama_service));
    ("device", VStr (LLaMA.device llama_service));
    ("version", VStr "1.0.0")].

(** [GET /api/conversations/{conversation_id}] *)
Definition get_conversation (conversation_id : string) (current_user : Auth.User)
    (db : Session) : M ConversationResponse :=
  try_except
    (conversation <-
       ConversationQueries.get_conversation select_conversation
         conversation_id (Auth.id current_user) db ;;
     match conversation with
     | None => Raise (HTTPException 404 "Conversation not found")
     | Some conversation => from_orm conversation
     end)
    (fun e => Raise (HTTPException 500 (exn_str e))).

(** [GET /api/users/{user_id}/progress] *)
Definition get_user_progress (user_id : string) (current_user : Auth.User) (db : Session)
    : M pyval :=
  try_except
    (if Auth.differs_from (Auth.id current_user) user_id
        && Auth.differs_from (Auth.role current_user) "teacher"
     then Raise (HTTPException 403 "Not authorized")
     else
       progress <-
         ConversationService.get_user_progress count_conversations average_overall_score
           latest_proficiency_level last_conversation_created_at last_ten_evaluations
           user_id db ;;
       Ok progress)
    (fun e => Raise (HTTPException 500 (exn_str e))).

End Endpoints.

End Api.

(* ================================================================== *)
(** ** The vocabulary of the properties *)

Local Open Scope string_scope.
Local Open Scope Z_scope.

(** *** Numbers and scores *)

Definition num_in (lo hi : Z) (n : num) : Prop :=
  num_le (NInt lo) n = true /\ num_le n (NInt hi) = true.

Definition score_in (lo hi : Z) (v : pyval) : Prop :=
  exists n, as_num v = Some n /\ num_in lo hi n.

(** [g] is [x] clamped into the interval from [lo] to [hi]. *)
Definition clamped_to (lo hi : Z) (x g : pyval) : Prop :=
  exists nx ng,
    as_num x = Some nx /\ as_num g = Some ng /\
    num_in lo hi ng /\
    (num_in lo hi nx -> num_eq ng nx = true) /\
    (num_lt nx (NInt lo) = true -> g = VInt lo) /\
    (num_lt (NInt hi) nx = true -> g = VInt hi).

Definition float_le (a b : pyfloat) : bool := float_lt a b || float_eq a b.

(** The position of a level in the CEFR order. *)
Definition cefr_rank (level : string) : option nat :=
  if String.eqb level "A1" then Some 0%nat
  else if String.eqb level "A2" then Some 1%nat
  else if String.eqb level "B1" then Some 2%nat
  else if String.eqb level "B2" then Some 3%nat
  else if String.eqb level "C1" then Some 4%nat
  else if String.eqb level "C2" then Some 5%nat
  else None.

(** The statistics of a text that the comprehension heuristic reads. *)
Record text_statistics : Type := {
  word_count : Z;
  sentence_count : Z;
  long_word_count : Z;
  has_transition_word : bool;
  has_complex_conjunction : bool;
  has_relative_pronoun : bool
}.

Definition statistics (text : string) : text_statistics :=
  {| word_count := Z.of_nat (List.length (PyStr.split text));
     sentence_count := Z.of_nat (List.length (PyStr.split_on "." text));
     long_word_count :=
       Z.of_nat (List.length (filter (fun word => 5 <? PyStr.len word) (PyStr.split text)));
     has_transition_word :=
       existsb (fun word => PyStr.contains (PyStr.lower word) (PyStr.lower text))
         LLaMA.transition_words;
     has_complex_conjunction :=
       existsb (fun word => PyStr.contains (PyStr.lower word) (PyStr.lower text))
         LLaMA.complex_conjunctions;
     has_relative_pronoun :=
       PyStr.contains "which" (PyStr.lower text) || PyStr.contains "that" (PyStr.lower text)
       || PyStr.contains "who" (PyStr.lower text) |}.

(** The key is set: a text that is not empty. *)
Definition key_is_set (key : option string) : Prop :=
  exists k, key = Some k /\ k <> "".

(** The texts a pattern matches. *)
Inductive matches : Re.regex -> string -> Prop :=
| matches_chr (p : ascii -> bool) (c : ascii) :
    p c = true -> matches (Re.Chr p) (String c "")
| matches_cat (r1 r2 : Re.regex) (w1 w2 : string) :
    matches r1 w1 -> matches r2 w2 -> matches (Re.Cat r1 r2) (w1 ++ w2)
| matches_star_nil (r : Re.regex) : matches (Re.Star r) ""
| matches_star_cons (r : Re.regex) (w1 w2 : string) :
    matches r w1 -> matches (Re.Star r) w2 -> matches (Re.Star r) (w1 ++ w2)
| matches_opt_none (r : Re.regex) : matches (Re.Opt r) ""
| matches_opt_some (r : Re.regex) (w : string) : matches r w -> matches (Re.Opt r) w
| matches_group (r : Re.regex) (w : string) : matches r w -> matches (Re.Group r) w.

(** The score types [_fallback_parse] searches for. *)
Definition score_types : list string :=
  ["overall"; "grammar"; "vocabulary"; "fluency"; "pronunciation"; "comprehension"].

(** What [_fallback_parse] returns when it finds nothing. *)
Definition fallback_defaults : pyval :=
  VDict [
    ("overall_score", VFloat (Fin 50.0));
    ("grammar_score", VFloat (Fin 12.5));
    ("vocabulary_score", VFloat (Fin 10.0));
    ("fluency_score", VFloat (Fin 10.0));
    ("pronunciation_score", VFloat (Fin 7.5));
    ("comprehension_score", VFloat (Fin 10.0));
    ("proficiency_level", VStr "B1");
    ("strengths", strs ["Good communication effort"; "Clear expression"]);
    ("areas_for_improvement", strs ["Continue practicing"; "Expand vocabulary"]);
    ("recommendations", strs ["Keep practicing regularly"; "Read more English texts"]);
    ("detailed_feedback", VDict [
       ("grammar_notes", VStr "Basic grammar structure observed");
       ("vocabulary_notes", VStr "Appropriate word choice");
       ("fluency_notes", VStr "Clear communication");
       ("pronunciation_notes", VStr "Text-based analysis");
       ("comprehension_notes", VStr "Good understanding demonstrated")]);
    ("grammar_errors", VList []);
    ("vocabulary_analysis", VList [])].

(** The words of [split] are not empty and hold no whitespace. *)
Definition is_word (w : string) : Prop :=
  w <> "" /\ PyStr.filter_chars PyStr.isspace w = "".

(** *** Sample collaborators, for the concrete runs *)

Module Sample.

Import PyStr.

Definition service : LLaMA.LLaMAAnalysisService unit unit :=
  {| LLaMA.model_name := "gpt2"; LLaMA.device := "cpu";
     LLaMA.model := tt; LLaMA.tokenizer := tt |}.

(** An answer whose [detailed_feedback] is a text, not an object. *)
Definition feedback_as_text : string :=
  "{" ++ dq ++ "grammar_score" ++ dq ++ ": 20, "
      ++ dq ++ "detailed_feedback" ++ dq ++ ": " ++ dq ++ "good" ++ dq ++ "}".

(** An answer that gives each dimension a score above 20. *)
Definition high_scores : string :=
  "{" ++ dq ++ "grammar_score" ++ dq ++ ": 25, "
      ++ dq ++ "vocabulary_score" ++ dq ++ ": 25, "
      ++ dq ++ "fluency_score" ++ dq ++ ": 24, "
      ++ dq ++ "comprehension_score" ++ dq ++ ": 23}".

(** An answer with scores outside the interval, a fraction and a boolean. *)
Definition mixed_scores : string :=
  "{" ++ dq ++ "grammar_score" ++ dq ++ ": 30, "
      ++ dq ++ "vocabulary_score" ++ dq ++ ": -2, "
      ++ dq ++ "fluency_score" ++ dq ++ ": 12.5, "
      ++ dq ++ "comprehension_score" ++ dq ++ ": true}".

Definition prose : string := " I think the text is good. ".

(** [json.loads] on the answers above; any other text of this file is not JSON. *)
Definition json_loads (s : string) : M pyval :=
  if String.eqb s feedback_as_text then
    Ok (VDict [("grammar_score", VInt 20); ("detailed_feedback", VStr "good")])
  else if String.eqb s high_scores then
    Ok (VDict [("grammar_score", VInt 25); ("vocabulary_score", VInt 25);
               ("fluency_score", VInt 24); ("comprehension_score", VInt 23)])
  else if String.eqb s mixed_scores then
    Ok (VDict [("grammar_score", VInt 30); ("vocabulary_score", VInt (-2));
               ("fluency_score", VFloat (Fin 12.5)); ("comprehension_score", VBool true)])
  else Raise JSONDecodeError.

(** A language model that always gives the same answer, or is out of memory. *)
Definition answers (answer : string) : unit -> unit -> string -> Z -> M string :=
  fun _ _ _ _ => Ok answer.

Definition out_of_memory : unit -> unit -> string -> Z -> M string :=
  fun _ _ _ _ => Raise (OtherError "CUDA out of memory").

Fixpoint copies (n : nat) (s : string) : string :=
  match n with
  | O => ""
  | S n' => s ++ copies n' s
  end.

(** A text of 180 words, all of them in the dictionary of common words. *)
Definition long_text : string := copies 20 "the cat and the dog play in the garden ".

End Sample.

(* ================================================================== *)
(** ** The vocabulary of the further properties *)

(** [n] is a finite number, and it lies between [lo] and [hi]. *)
Definition finite_in (lo hi : Q) (n : num) : Prop :=
  exists q, to_float n = Fin q /\ (lo <= q <= hi)%Q.

(** The number of words that repeat the word before them, whatever the case. *)
Fixpoint adjacent_repeats (words : list string) : Z :=
  match words with
  | [] => 0
  | word :: rest =>
      match rest with
      | [] => 0
      | next :: _ =>
          (if String.eqb (PyStr.lower next) (PyStr.lower word) then 1 else 0)
          + adjacent_repeats rest
      end
  end.

(** An entry of a list of errors, of the given type. *)
Definition error_of_type (type : string) (error : pyval) : Prop :=
  field "type" error = Some (VStr type).

(** A pattern without a group. *)
Fixpoint group_free (r : Re.regex) : bool :=
  match r with
  | Re.Chr _ => true
  | Re.Cat r1 r2 => group_free r1 && group_free r2
  | Re.Star r1 | Re.Opt r1 => group_free r1
  | Re.Group _ => false
  end.

(** The text holds a decimal digit. *)
Definition has_digit (s : string) : bool := LLaMAAnalysers.any_char PyStr.isdigit s.

(** The text holds nothing but whitespace. *)
Definition blank (s : string) : bool :=
  negb (LLaMAAnalysers.any_char (fun c => negb (PyStr.isspace c)) s).

Definition cefr_levels : list string := ["A1"; "A2"; "B1"; "B2"; "C1"; "C2"].

(** What loading a model by name gives: the tokenizer and the model, if both
    load. *)
Definition loads (Tokenizer Model : Type)
    (tokenizer_from_pretrained : string -> M Tokenizer)
    (model_from_pretrained : string -> M Model) (name : string)
    : option (Tokenizer * Model) :=
  match tokenizer_from_pretrained name, model_from_pretrained name with
  | Ok tok, Ok mdl => Some (tok, mdl)
  | _, _ => None
  end.

(** The sentence [_fallback_response] answers with for a level that is a
    text: the one of the level, or the general one. *)
Definition fallback_sentence (level topic : string) : string :=
  match GPTConversation.lookup_text level (GPTConversation.responses topic) with
  | Some reply => reply
  | None => "That's interesting! Tell me more about " ++ PyStr.lower topic ++ "."
  end.

(** The token decodes to claims of the given type that name a subject. *)
Definition token_of_type (jwt_decode : string -> Auth.decoded) (type token : string)
    (payload : list (string * pyval)) : Prop :=
  jwt_decode token = Auth.Claims payload /\
  Auth.get payload "type" = VStr type /\
  ConversationService.truthy (Auth.get payload "sub") = true.

(** The user the claims of an access token stand for. *)
Definition user_of_claims (payload : list (string * pyval)) : Auth.User :=
  {| Auth.id := Auth.get payload "sub";
     Auth.email := Auth.get payload "email";
     Auth.role := Auth.get payload "role" |}.

(** *** Sample collaborators, for the concrete runs *)

Module Cases.

(** A spaCy pipeline that tags every text as the two tokens of "an cat". *)
Definition article_pipeline : string -> M Spacy.Doc :=
  fun _ =>
    Ok [{| Spacy.text := "an"; Spacy.pos_ := "DET"; Spacy.dep_ := "det";
           Spacy.idx := 0; Spacy.head := 1%nat |};
        {| Spacy.text := "cat"; Spacy.pos_ := "NOUN"; Spacy.dep_ := "ROOT";
           Spacy.idx := 3; Spacy.head := 1%nat |}].

Definition broken_pipeline : string -> M Spacy.Doc :=
  fun _ => Raise ValueError.

(** Ten words, none of them twice in a row. *)
Definition clean_text : string :=
  "my sister reads a new book in the garden today".

(** A hub from which only [gpt2] can be loaded, and one that is unreachable. *)
Definition only_gpt2 (name : string) : M unit :=
  if String.eqb name "gpt2" then Ok tt else Raise (OtherError "not found").

Definition unreachable (name : string) : M unit :=
  Raise (OtherError "connection refused").

(** A GPT service with a client, and a chat completion that answers in
    prose. *)
Definition gpt_service : GPT.GPTAnalysisService unit :=
  {| GPT.api_key := Some "sk-test"; GPT.model := "gpt-3.5-turbo"; GPT.client := Some tt |}.

Definition prose_answer : string :=
  "Overall score: 72. Grammar score: 18.5. Proficiency level: b2".

(** An answer that writes its grammar score with four hundred digits. *)
Fixpoint nines (n : nat) : string :=
  match n with
  | O => ""
  | S n' => String "9" (nines n')
  end.

Definition long_score_answer : string := "Grammar score: " ++ nines 400.

Definition chat_answers (answer : string) : unit -> string -> string -> string -> M (option string) :=
  fun _ _ _ _ => Ok (Some answer).

Definition chat_times_out : unit -> string -> string -> string -> M (option string) :=
  fun _ _ _ _ => Raise (OtherError "Request timed out.").

Definition repr_float (f : pyfloat) : string := "30.0".

Definition py_str (v : pyval) : string := "None".

(** An analysis at level B1, with two strengths. *)
Definition analysis : GPT.GPTAnalysisResult :=
  {| GPT.overall_score := VFloat (Fin 50.0);
     GPT.grammar_score := VFloat (Fin 12.5);
     GPT.vocabulary_score := VFloat (Fin 10.0);
     GPT.fluency_score := VFloat (Fin 10.0);
     GPT.pronunciation_score := VFloat (Fin 7.5);
     GPT.comprehension_score := VFloat (Fin 10.0);
     GPT.proficiency_level := VStr "B1";
     GPT.strengths := strs ["Clear expression"; "Good effort"];
     GPT.areas_for_improvement := strs ["Expand vocabulary"];
     GPT.recommendations := strs ["Read more"];
     GPT.detailed_feedback := VDict [];
     GPT.grammar_errors := VList [];
     GPT.vocabulary_analysis := VList [] |}.

(** A token library that knows two tokens: an access token and a refresh
    token of the user 7; any other text is not a token. *)
Definition access_claims : list (string * pyval) :=
  [("sub", VStr "7"); ("email", VStr "ann@example.org"); ("role", VStr "student");
   ("exp", VInt 1800); ("type", VStr "access")].

Definition refresh_claims : list (string * pyval) :=
  [("sub", VStr "7"); ("email", VStr "ann@example.org"); ("role", VStr "student");
   ("exp", VInt 604800); ("type", VStr "refresh")].

Definition jwt_decode (token : string) : Auth.decoded :=
  if String.eqb token "access-token" then Auth.Claims access_claims
  else if String.eqb token "refresh-token" then Auth.Claims refresh_claims
  else Auth.JWTError.

(** The library makes the two tokens from their claims, and no other. *)
Definition jwt_encode (payload : list (string * pyval)) : M string :=
  match payload with
  | [(k1, VStr subject); (k2, VStr address); (k3, VStr role); (k4, VInt expire);
     (k5, VStr type)] =>
      if String.eqb k1 "sub" && String.eqb subject "7"
         && String.eqb k2 "email" && String.eqb address "ann@example.org"
         && String.eqb k3 "role" && String.eqb role "student"
         && String.eqb k4 "exp" && String.eqb k5 "type"
      then
        if (expire =? 1800) && String.eqb type "access" then Ok "access-token"
        else if (expire =? 604800) && String.eqb type "refresh" then Ok "refresh-token"
        else Raise (OtherError "unknown claims")
      else Raise (OtherError "unknown claims")
  | _ => Raise (OtherError "unknown claims")
  end.

Definition auth_service : Auth.AuthService :=
  {| Auth.access_token_expire_minutes := 30; Auth.refresh_token_expire_days := 7 |}.

Definition student : Auth.User := user_of_claims access_claims.

(** A database without conversations, and one that is down. *)
Definition no_conversation : unit -> string -> pyval -> M (option unit) :=
  fun _ _ _ => Ok None.

Definition database_down : unit -> string -> pyval -> M (option unit) :=
  fun _ _ _ => Raise (OtherError "connection closed").

Definition from_orm : unit -> M unit := fun _ => Ok tt.

Definition exn_str (e : exn) : string :=
  match e with
  | HTTPException status detail => PyStr.str_of_Z status ++ ": " ++ detail
  | RuntimeError msg | OtherError msg => msg
  | _ => ""
  end.

Definition no_rows : unit -> string -> M (list ConversationService.trend_row) :=
  fun _ _ => Ok [].

Definition null : unit -> string -> M pyval := fun _ _ => Ok VNone.

(** Settings that select GPT, for a deployment without the [openai]
    package. *)
Definition settings : Main.Settings :=
  {| Main.USE_GPT_ANALYSIS := true;
     Main.OPENAI_API_KEY := Some "sk-test";
     Main.GPT_MODEL := "gpt-4" |}.

End Cases.

(* ================================================================== *)
(** ** Properties *)

(* ------------------------------------------------------------------ *)
(** *** The embedding at work *)

Example split_example :
  PyStr.split "  Hello,   my name	is Ann. " = ["Hello,"; "my"; "name"; "is"; "Ann."].
Proof. reflexivity. Qed.

Example split_on_example : PyStr.split_on "." "One. Two." = ["One"; " Two"; ""].
Proof. reflexivity. Qed.

Example strip_example : PyStr.strip "  a b  " = "a b".
Proof. reflexivity. Qed.

Example search_score_example :
  Re.search (GPT.score_pattern "grammar") "The Grammar_Score:  12.5. Fluency score 3"
  = Some {| Re.group0 := "Grammar_Score:  12.5"; Re.group1 := Some "12.5" |}.
Proof. vm_compute. reflexivity. Qed.

Example search_json_example :
  Re.search GPT.json_pattern "Here: {a} and {b}."
  = Some {| Re.group0 := "{a} and {b}"; Re.group1 := None |}.
Proof. vm_compute. reflexivity. Qed.

Example py_float_example : GPT.py_float "12.5" = Ok (Fin (125 # 10)).
Proof. reflexivity. Qed.

(** [float('9' * 308)] is a number, [float('9' * 400)] is [inf]. *)
Example py_float_large_example :
  GPT.py_float (Cases.nines 308) = Ok (Fin (inject_Z (10 ^ 308 - 1))) /\
  GPT.py_float (Cases.nines 400) = Ok (Inf false) /\
  GPT.py_float (Cases.nines 400 ++ ".5") = Ok (Inf false).
Proof. split; [|split]; vm_compute; reflexivity. Qed.

Example py_round2_example :
  ConversationService.py_round2 (VFloat (Fin 62.125)) = Ok (VFloat (Fin (1553 # 25))).
Proof. reflexivity. Qed.

Lemma filter_chars_append (p : ascii -> bool) (a b : string) :
  PyStr.filter_chars p (a ++ b) = PyStr.filter_chars p a ++ PyStr.filter_chars p b.
Proof.
  induction a as [|c a IH]; cbn; [reflexivity|].
  destruct (p c); cbn; rewrite IH; reflexivity.
Qed.

Lemma split_from_words (s : string) :
  forall cur, (forall w, cur = Some w -> is_word w) ->
              Forall is_word (PyStr.split_from cur s).
Proof.
  induction s as [|c s IH]; intros cur H; cbn.
  - destruct cur as [w|]; [constructor; auto | constructor].
  - destruct (PyStr.isspace c) eqn:E.
    + destruct cur as [w|]; [constructor; [auto|] |]; apply IH; intros w' [=].
    + apply IH. intros w' [= <-]. unfold PyStr.snoc, is_word.
      split.
      * destruct cur as [w|]; [destruct w|]; discriminate.
      * rewrite filter_chars_append. cbn. rewrite E.
        destruct cur as [w|]; [|reflexivity].
        destruct (H w eq_refl) as [_ ->]. reflexivity.
Qed.

Lemma split_words (s : string) : Forall is_word (PyStr.split s).
Proof. apply split_from_words. intros w [=]. Qed.

(* ------------------------------------------------------------------ *)
(** *** Comparison and addition of numbers *)

Lemma Qltb_lt (a b : Q) : Qltb a b = true <-> (a < b)%Q.
Proof.
  unfold Qltb. rewrite negb_true_iff, <- not_true_iff_false, Qle_bool_iff.
  split; [apply Qnot_le_lt | apply Qlt_not_le].
Qed.

Lemma float_lt_fin (a b : Q) : float_lt (Fin a) (Fin b) = true <-> (a < b)%Q.
Proof. apply Qltb_lt. Qed.

Lemma float_eq_fin (a b : Q) : float_eq (Fin a) (Fin b) = true <-> (a == b)%Q.
Proof. apply Qeq_bool_iff. Qed.

Lemma num_lt_float (a b : num) : num_lt a b = float_lt (to_float a) (to_float b).
Proof.
  destruct a as [x|fa], b as [y|fb]; try reflexivity.
  cbn. apply eq_true_iff_eq. rewrite Z.ltb_lt, Qltb_lt, (Zlt_Qlt x y). reflexivity.
Qed.

Lemma num_eq_float (a b : num) : num_eq a b = float_eq (to_float a) (to_float b).
Proof.
  destruct a as [x|fa], b as [y|fb]; try reflexivity.
  cbn. apply eq_true_iff_eq. rewrite Z.eqb_eq, Qeq_bool_iff. symmetry. apply inject_Z_injective.
Qed.

Lemma num_le_fin (a b : num) (qa qb : Q) :
  to_float a = Fin qa -> to_float b = Fin qb ->
  (num_le a b = true <-> (qa <= qb)%Q).
Proof.
  intros Ha Hb. unfold num_le.
  rewrite num_lt_float, num_eq_float, Ha, Hb, orb_true_iff, float_lt_fin, float_eq_fin.
  split; [intros [H|H]; lra | intro H; destruct (Qlt_le_dec qa qb); [left; assumption | right; lra]].
Qed.

Lemma num_lt_fin (a b : num) (qa qb : Q) :
  to_float a = Fin qa -> to_float b = Fin qb ->
  (num_lt a b = true <-> (qa < qb)%Q).
Proof. intros Ha Hb. rewrite num_lt_float, Ha, Hb. apply float_lt_fin. Qed.

(** A number between two integers is finite. *)
Lemma num_in_fin (lo hi : Z) (n : num) :
  num_in lo hi n ->
  exists q, to_float n = Fin q /\ (inject_Z lo <= q <= inject_Z hi)%Q.
Proof.
  intros [Hlo Hhi].
  destruct (to_float n) as [q|neg|] eqn:Hn.
  - exists q. split; [reflexivity|].
    split; [apply (@num_le_fin (NInt lo) n) | apply (@num_le_fin n (NInt hi))]; auto.
  - exfalso. unfold num_le in Hlo, Hhi.
    rewrite num_lt_float, num_eq_float, Hn in Hlo, Hhi. cbn in Hlo, Hhi.
    destruct neg; cbn in *; discriminate.
  - exfalso. unfold num_le in Hlo.
    rewrite num_lt_float, num_eq_float, Hn in Hlo. cbn in Hlo. discriminate.
Qed.

Lemma fin_num_in (lo hi : Z) (n : num) (q : Q) :
  to_float n = Fin q -> (inject_Z lo <= q <= inject_Z hi)%Q -> num_in lo hi n.
Proof.
  intros Hn [Hlo Hhi].
  split; [apply (@num_le_fin (NInt lo) n (inject_Z lo) q) | apply (@num_le_fin n (NInt hi) q (inject_Z hi))]; auto.
Qed.

Lemma num_add_fin (a b : num) (qa qb : Q) :
  to_float a = Fin qa -> to_float b = Fin qb ->
  exists q, to_float (num_add a b) = Fin q /\ (q == qa + qb)%Q.
Proof.
  intros Ha Hb. destruct a as [x|fa], b as [y|fb]; cbn in *; subst;
    try (injection Ha as <-); try (injection Hb as <-).
  - exists (inject_Z (x + y)). split; [reflexivity | rewrite inject_Z_plus; reflexivity].
  - eexists; split; [reflexivity | reflexivity].
  - eexists; split; [reflexivity | reflexivity].
  - eexists; split; [reflexivity | reflexivity].
Qed.

(** The sum of two numbers in range is in the range of the sums. *)
Lemma num_add_in (a b : num) (la ha lb hb : Z) :
  num_in la ha a -> num_in lb hb b -> num_in (la + lb) (ha + hb) (num_add a b).
Proof.
  intros Ha Hb.
  destruct (num_in_fin Ha) as (qa & Ea & Ba).
  destruct (num_in_fin Hb) as (qb & Eb & Bb).
  destruct (num_add_fin _ _ Ea Eb) as (q & Eq & Hq).
  apply (@fin_num_in _ _ _ _ Eq). rewrite !inject_Z_plus, Hq. lra.
Qed.

Lemma num_eq_sym (a b : num) : num_eq a b = num_eq b a.
Proof.
  rewrite !num_eq_float.
  destruct (to_float a) as [x| |], (to_float b) as [y| |]; cbn; try reflexivity.
  - apply eq_true_iff_eq. rewrite !Qeq_bool_iff. split; intro; symmetry; assumption.
  - destruct negative, negative0; reflexivity.
Qed.

Lemma num_lt_le (a b : num) : num_lt a b = true -> num_le a b = true.
Proof. unfold num_le. intros ->. reflexivity. Qed.

Lemma num_le_float (a b : num) : num_le a b = float_le (to_float a) (to_float b).
Proof. unfold num_le, float_le. rewrite num_lt_float, num_eq_float. reflexivity. Qed.

Lemma float_le_fin (a b : Q) : float_le (Fin a) (Fin b) = true <-> (a <= b)%Q.
Proof.
  unfold float_le. rewrite orb_true_iff, float_lt_fin, float_eq_fin.
  split; [intros [H|H]; lra | intro H; destruct (Qlt_le_dec a b); [left; assumption | right; lra]].
Qed.

Lemma float_le_trans (a b c : pyfloat) :
  float_le a b = true -> float_le b c = true -> float_le a c = true.
Proof.
  destruct a as [x|na|], b as [y|nb|], c as [z|nc|];
    try (rewrite !float_le_fin; intros; lra);
    try destruct na; try destruct nb; try destruct nc;
    cbn; intros; try discriminate; try reflexivity.
Qed.

Lemma num_le_trans (a b c : num) :
  num_le a b = true -> num_le b c = true -> num_le a c = true.
Proof. rewrite !num_le_float. apply float_le_trans. Qed.

Lemma float_lt_trans (a b c : pyfloat) :
  float_lt a b = true -> float_lt b c = true -> float_lt a c = true.
Proof.
  destruct a as [x|na|], b as [y|nb|], c as [z|nc|];
    try (rewrite !float_lt_fin; intros; lra);
    try destruct na; try destruct nb; try destruct nc;
    cbn; intros; try discriminate; try reflexivity.
Qed.

Lemma num_lt_trans (a b c : num) :
  num_lt a b = true -> num_lt b c = true -> num_lt a c = true.
Proof. rewrite !num_lt_float. apply float_lt_trans. Qed.

Lemma num_lt_max (a m x : num) : num_lt a m = true -> num_lt a (num_max m x) = true.
Proof.
  intros H. unfold num_max. destruct (num_lt m x) eqn:E; [|exact H].
  exact (num_lt_trans _ _ _ H E).
Qed.

Lemma num_ge_fin_int (q : Q) (k : Z) :
  num_ge (NFloat (Fin q)) (NInt k) = true <-> (inject_Z k <= q)%Q.
Proof. unfold num_ge. apply (num_le_fin (NInt k) (NFloat (Fin q)) eq_refl eq_refl). Qed.

Lemma num_ge_fin_int_false (q : Q) (k : Z) :
  num_ge (NFloat (Fin q)) (NInt k) = false <-> (q < inject_Z k)%Q.
Proof.
  rewrite <- not_true_iff_false, num_ge_fin_int.
  split; [apply Qnot_le_lt | apply Qlt_not_le].
Qed.

Lemma truediv_nonzero (a b : Z) :
  b <> 0 -> num_truediv (NInt a) (NInt b) = Ok (NFloat (Fin (inject_Z a / inject_Z b))).
Proof.
  intros H. unfold num_truediv. cbn [num_eq]. 
  destruct (Z.eqb_spec b 0); [contradiction | reflexivity].
Qed.

Lemma as_num_of_num (n : num) : as_num (of_num n) = Some n.
Proof. destruct n; reflexivity. Qed.

Lemma num_in_le_lt_false (lo hi : Z) (n : num) :
  num_in lo hi n -> num_lt n (NInt lo) = false.
Proof.
  intros H. destruct (num_in_fin H) as (q & E & B).
  apply not_true_is_false. intro L.
  apply (num_lt_fin n (NInt lo) E eq_refl) in L. unfold inject_Z in *. lra.
Qed.

Lemma num_in_ge_lt_false (lo hi : Z) (n : num) :
  num_in lo hi n -> num_lt (NInt hi) n = false.
Proof.
  intros H. destruct (num_in_fin H) as (q & E & B).
  apply not_true_is_false. intro L.
  apply (num_lt_fin (NInt hi) n eq_refl E) in L. lra.
Qed.

Lemma num_eq_refl_fin (n : num) (q : Q) : to_float n = Fin q -> num_eq n n = true.
Proof. intro E. rewrite num_eq_float, E. apply float_eq_fin. reflexivity. Qed.

(** [max(0, min(25, x))] either raises or clamps. *)
Lemma clamp_0_25 (x m g : pyval) :
  py_min (VInt 25) x = Ok m -> py_max (VInt 0) m = Ok g -> clamped_to 0 25 x g.
Proof.
  unfold py_min, py_max, py_lt, bind. cbn [as_num].
  destruct (as_num x) as [nx|] eqn:Ex; [|discriminate].
  intros Hm. injection Hm as <-.
  destruct (num_lt nx (NInt 25)) eqn:L25.
  - rewrite Ex. destruct (num_lt (NInt 0) nx) eqn:L0; intros Hg; injection Hg as <-.
    + assert (H : num_in 0 25 nx) by (split; auto using num_lt_le).
      exists nx, nx. rewrite Ex.
      refine (conj eq_refl (conj eq_refl (conj H (conj _ (conj _ _))))).
      * intros _. destruct (num_in_fin H) as (q & E & _). apply (num_eq_refl_fin _ E).
      * intro L. rewrite (num_in_le_lt_false H) in L. discriminate.
      * intro L. rewrite (num_in_ge_lt_false H) in L. discriminate.
    + exists nx, (NInt 0). rewrite Ex.
      refine (conj eq_refl (conj eq_refl (conj (conj eq_refl eq_refl) (conj _ (conj _ _))))).
      * intros [Hlo _]. unfold num_le in Hlo. rewrite L0 in Hlo. exact Hlo.
      * reflexivity.
      * intro L. exfalso.
        destruct (to_float nx) as [q|neg|] eqn:E.
        -- apply (num_lt_fin (NInt 25) nx eq_refl E) in L.
           apply (num_lt_fin (NInt 0) nx eq_refl E) in L0 || idtac.
           apply (num_lt_fin nx (NInt 25) E eq_refl) in L25. unfold inject_Z in *. lra.
        -- rewrite num_lt_float, E in L, L25. cbn in L, L25. destruct neg; discriminate.
        -- rewrite num_lt_float, E in L. discriminate.
  - cbn [as_num]. change (num_lt (NInt 0) (NInt 25)) with true.
    intros Hg. injection Hg as <-.
    exists nx, (NInt 25). rewrite Ex.
    refine (conj eq_refl (conj eq_refl (conj (conj eq_refl eq_refl) (conj _ (conj _ _))))).
    + intros [_ Hhi]. unfold num_le in Hhi. rewrite L25 in Hhi. cbn in Hhi.
      rewrite num_eq_sym. exact Hhi.
    + intro L. exfalso.
      destruct (to_float nx) as [q|neg|] eqn:E.
      * apply (num_lt_fin nx (NInt 0) E eq_refl) in L.
        assert (L' : num_lt nx (NInt 25) = true)
          by (apply (num_lt_fin nx (NInt 25) E eq_refl); unfold inject_Z in *; lra).
        rewrite L' in L25. discriminate.
      * rewrite num_lt_float, E in L, L25. cbn in L, L25. destruct neg; discriminate.
      * rewrite num_lt_float, E in L. discriminate.
    + reflexivity.
Qed.

(** [max(0, min(25, x))] returns for every number [x]. *)
Lemma clamp_returns (x : pyval) (n : num) :
  as_num x = Some n ->
  exists m g, py_min (VInt 25) x = Ok m /\ py_max (VInt 0) m = Ok g.
Proof.
  intros N. unfold py_min, py_max, py_lt. cbn [as_num]. rewrite N. cbn [bind].
  destruct (num_lt n (NInt 25)).
  - eexists _, _. split; [reflexivity|]. rewrite N. reflexivity.
  - eexists _, _. split; reflexivity.
Qed.

Lemma clamped_to_in (lo hi : Z) (x g : pyval) : clamped_to lo hi x g -> score_in lo hi g.
Proof. intros (nx & ng & _ & Eg & H & _). exists ng. auto. Qed.

Lemma py_add_in (a b : pyval) (la ha lb hb : Z) :
  score_in la ha a -> score_in lb hb b ->
  exists s, py_add a b = Ok s /\ score_in (la + lb) (ha + hb) s.
Proof.
  intros (na & Ea & Ha) (nb & Eb & Hb). unfold py_add. rewrite Ea, Eb.
  eexists. split; [reflexivity|].
  exists (num_add na nb). split; [apply as_num_of_num | apply num_add_in; assumption].
Qed.

Lemma score_in_int (lo hi z : Z) : lo <= z <= hi -> score_in lo hi (VInt z).
Proof.
  intros [H1 H2]. exists (NInt z). split; [reflexivity|].
  split; unfold num_le, num_lt, num_eq; apply orb_true_iff.
  - destruct (Z.eq_dec lo z); [right; apply Z.eqb_eq | left; apply Z.ltb_lt]; lia.
  - destruct (Z.eq_dec z hi); [right; apply Z.eqb_eq | left; apply Z.ltb_lt]; lia.
Qed.

(* ------------------------------------------------------------------ *)
(** *** The LLaMA service *)

Section LLaMAFacts.
Variables Tokenizer Model : Type.
Variable generate_and_decode : Tokenizer -> Model -> string -> Z -> M string.
Variable json_loads : string -> M pyval.
Variable self : LLaMA.LLaMAAnalysisService Tokenizer Model.

Local Notation "'llm_eval'" := (LLaMA._llm_based_evaluation generate_and_decode json_loads self).
Local Notation "'fallback'" := (LLaMA._fallback_evaluation self).

Lemma fallback_evaluation_shape (transcript : string) :
  exists b lvl fb,
    fallback transcript =
      VDict [("grammar_score", VInt b); ("vocabulary_score", VInt b);
             ("fluency_score", VInt b); ("comprehension_score", VInt b);
             ("overall_score", VInt (b * 4)); ("proficiency_level", VStr lvl);
             ("detailed_feedback", VDict fb); ("evaluation_method", VStr "Fallback")]
    /\ 0 <= b <= 25.
Proof.
  unfold LLaMA._fallback_evaluation.
  do 3 eexists. split; [reflexivity|].
  repeat match goal with |- context [if ?c then _ else _] => destruct c end; lia.
Qed.

Lemma generate_raises (prompt : string) (n : Z) (e : exn) :
  generate_and_decode (LLaMA.tokenizer self) (LLaMA.model self) prompt n = Raise e ->
  LLaMA._generate_llama_response generate_and_decode self prompt n = Raise e.
Proof. unfold LLaMA._generate_llama_response. intros ->. reflexivity. Qed.

Lemma generate_returns (prompt : string) (n : Z) (out : string) :
  generate_and_decode (LLaMA.tokenizer self) (LLaMA.model self) prompt n = Ok out ->
  LLaMA._generate_llama_response generate_and_decode self prompt n = Ok (PyStr.strip out).
Proof. unfold LLaMA._generate_llama_response. intros ->. reflexivity. Qed.

(** [_llm_based_evaluation] returns: either the fallback evaluation, or the
    dictionary made of the clamped scores of the parsed output. *)
Lemma llm_based_evaluation_cases (transcript : string) (context : option string) :
  llm_eval transcript context = Ok (fallback transcript)
  \/ exists response data g v f c o lvl fb xg xv xf xc,
       LLaMA._generate_llama_response generate_and_decode self
         (LLaMA.evaluation_prompt transcript context) 500 = Ok response /\
       json_loads response = Ok data /\
       py_get data "grammar_score" (VInt 0) = Ok xg /\ clamped_to 0 25 xg g /\
       py_get data "vocabulary_score" (VInt 0) = Ok xv /\ clamped_to 0 25 xv v /\
       py_get data "fluency_score" (VInt 0) = Ok xf /\ clamped_to 0 25 xf f /\
       py_get data "comprehension_score" (VInt 0) = Ok xc /\ clamped_to 0 25 xc c /\
       bind (py_add g v) (fun s => bind (py_add s f) (fun s => py_add s c)) = Ok o /\
       score_in 0 100 o /\
       py_get data "proficiency_level" (VStr "A1") = Ok lvl /\
       py_get data "detailed_feedback" (VDict []) = Ok fb /\
       llm_eval transcript context =
         Ok (VDict [("grammar_score", g); ("vocabulary_score", v);
                    ("fluency_score", f); ("comprehension_score", c);
                    ("overall_score", o); ("proficiency_level", lvl);
                    ("detailed_feedback", fb); ("evaluation_method", VStr "LLM-based")]).
Proof.
  unfold LLaMA._llm_based_evaluation.
  destruct (LLaMA._generate_llama_response _ _ _ _) as [response|e] eqn:Eg;
    cbn [bind try_except]; [|left; reflexivity].
  destruct (json_loads response) as [data|e] eqn:El; cbn [bind try_except_only try_except];
    [|left; destruct (is_JSONDecodeError e); reflexivity].
  destruct (py_get data "grammar_score" (VInt 0)) as [xg|e] eqn:G0; cbn [bind try_except_only];
    [|left; destruct (is_JSONDecodeError e); reflexivity].
  destruct (py_min (VInt 25) xg) as [mg|e] eqn:G1; cbn [bind try_except_only];
    [|left; destruct (is_JSONDecodeError e); reflexivity].
  destruct (py_max (VInt 0) mg) as [g|e] eqn:G2; cbn [bind try_except_only];
    [|left; destruct (is_JSONDecodeError e); reflexivity].
  destruct (py_get data "vocabulary_score" (VInt 0)) as [xv|e] eqn:V0; cbn [bind try_except_only];
    [|left; destruct (is_JSONDecodeError e); reflexivity].
  destruct (py_min (VInt 25) xv) as [mv|e] eqn:V1; cbn [bind try_except_only];
    [|left; destruct (is_JSONDecodeError e); reflexivity].
  destruct (py_max (VInt 0) mv) as [v|e] eqn:V2; cbn [bind try_except_only];
    [|left; destruct (is_JSONDecodeError e); reflexivity].
  destruct (py_get data "fluency_score" (VInt 0)) as [xf|e] eqn:F0; cbn [bind try_except_only];
    [|left; destruct (is_JSONDecodeError e); reflexivity].
  destruct (py_min (VInt 25) xf) as [mf|e] eqn:F1; cbn [bind try_except_only];
    [|left; destruct (is_JSONDecodeError e); reflexivity].
  destruct (py_max (VInt 0) mf) as [f|e] eqn:F2; cbn [bind try_except_only];
    [|left; destruct (is_JSONDecodeError e); reflexivity].
  destruct (py_get data "comprehension_score" (VInt 0)) as [xc|e] eqn:C0; cbn [bind try_except_only];
    [|left; destruct (is_JSONDecodeError e); reflexivity].
  destruct (py_min (VInt 25) xc) as [mc|e] eqn:C1; cbn [bind try_except_only];
    [|left; destruct (is_JSONDecodeError e); reflexivity].
  destruct (py_max (VInt 0) mc) as [c|e] eqn:C2; cbn [bind try_except_only];
    [|left; destruct (is_JSONDecodeError e); reflexivity].
  assert (Kg : clamped_to 0 25 xg g) by (eapply clamp_0_25; eassumption).
  assert (Kv : clamped_to 0 25 xv v) by (eapply clamp_0_25; eassumption).
  assert (Kf : clamped_to 0 25 xf f) by (eapply clamp_0_25; eassumption).
  assert (Kc : clamped_to 0 25 xc c) by (eapply clamp_0_25; eassumption).
  assert (Ig := clamped_to_in Kg). assert (Iv := clamped_to_in Kv).
  assert (If := clamped_to_in Kf). assert (Ic := clamped_to_in Kc).
  destruct (py_add_in Ig Iv) as (s1 & S1 & B1).
  destruct (py_add_in B1 If) as (s2 & S2 & B2).
  destruct (py_add_in B2 Ic) as (o & S3 & B3).
  rewrite S1; cbn [bind]. rewrite S2; cbn [bind]. rewrite S3; cbn [bind try_except_only].
  destruct (py_get data "proficiency_level" (VStr "A1")) as [lvl|e] eqn:L0; cbn [bind try_except_only];
    [|left; destruct (is_JSONDecodeError e); reflexivity].
  destruct (py_get data "detailed_feedback" (VDict [])) as [fb|e] eqn:D0; cbn [bind try_except_only try_except];
    [|left; destruct (is_JSONDecodeError e); reflexivity].
  right. exists response, data, g, v, f, c, o, lvl, fb, xg, xv, xf, xc.
  refine (conj eq_refl (conj El (conj G0 (conj Kg (conj V0 (conj Kv (conj F0
            (conj Kf (conj C0 (conj Kc (conj _ (conj B3 (conj L0 (conj D0 eq_refl)))))))))))))).
  rewrite S1; cbn [bind]. rewrite S2; cbn [bind]. exact S3.
Qed.


Local Notation "'analyze'" := (LLaMA.analyze_conversation generate_and_decode json_loads self).
Local Notation "'analyze_try'" := (LLaMA.analyze_conversation_try generate_and_decode json_loads self).

(** What the [try] block of [analyze_conversation] makes of an evaluation. *)
Lemma analyze_try_of_evaluation (transcript : string) (context : option string)
    (dur : option pyfloat) (g v f c o lvl fb method : pyval) :
  llm_eval transcript context =
    Ok (VDict [("grammar_score", g); ("vocabulary_score", v);
               ("fluency_score", f); ("comprehension_score", c);
               ("overall_score", o); ("proficiency_level", lvl);
               ("detailed_feedback", fb); ("evaluation_method", method)]) ->
  (exists d, fb = VDict d /\
     exists r, analyze_try transcript context dur = Ok r /\
       LLaMA.overall_score r = o /\ LLaMA.grammar_score r = g /\
       LLaMA.vocabulary_score r = v /\ LLaMA.fluency_score r = f /\
       LLaMA.comprehension_score r = c /\ LLaMA.proficiency_level r = lvl /\
       LLaMA.pronunciation_score r = VInt 0 /\ LLaMA.detailed_feedback r = fb)
  \/ ((forall d, fb <> VDict d) /\
      analyze_try transcript context dur = Raise AttributeError).
Proof.
  intros E. unfold LLaMA.analyze_conversation_try. rewrite E.
  cbn [bind py_getitem lookup String.eqb Ascii.eqb Bool.eqb].
  destruct fb as [ | | | | | |d];
    try (right; split; [intros d; discriminate | reflexivity]).
  left. exists d. split; [reflexivity|].
  cbn [py_get bind]. eexists. split; [reflexivity|]. cbn. repeat split; reflexivity.
Qed.

Lemma analyze_conversation_returns (transcript : string) (context : option string)
    (dur : option pyfloat) :
  exists r, analyze transcript context dur = Ok r /\
    LLaMA.pronunciation_score r = VInt 0 /\
    (forall e, analyze_try transcript context dur = Raise e -> r = LLaMA.analysis_failed).
Proof.
  unfold LLaMA.analyze_conversation.
  destruct (analyze_try transcript context dur) as [r|e] eqn:E; cbn [try_except].
  - exists r. split; [reflexivity|]. split; [|discriminate].
    destruct (llm_based_evaluation_cases transcript context) as [F|F].
    + destruct (fallback_evaluation_shape transcript) as (b & lvl & fb & S & _).
      rewrite S in F.
      destruct (analyze_try_of_evaluation transcript context dur F) as [(d & _ & r' & R & H)|[_ R]];
        rewrite E in R; [injection R as <-; apply H | discriminate].
    + destruct F as (response & data & g & v & f & c & o & lvl & fb & xg & xv & xf & xc & F).
      repeat (destruct F as (_ & F)).
      destruct (analyze_try_of_evaluation transcript context dur F) as [(d & _ & r' & R & H)|[_ R]];
        rewrite E in R; [injection R as <-; apply H | discriminate].
  - exists LLaMA.analysis_failed. repeat split; reflexivity.
Qed.

End LLaMAFacts.

Section RecoveryFacts.
Variables Tokenizer Model : Type.
Variable generate_and_decode : Tokenizer -> Model -> string -> Z -> M string.
Variable json_loads : string -> M pyval.
Variable self : LLaMA.LLaMAAnalysisService Tokenizer Model.

Local Notation "'llm_eval'" := (LLaMA._llm_based_evaluation generate_and_decode json_loads self).
Local Notation "'fallback'" := (LLaMA._fallback_evaluation self).
Local Notation "'analyze'" := (LLaMA.analyze_conversation generate_and_decode json_loads self).
Local Notation "'analyze_try'" := (LLaMA.analyze_conversation_try generate_and_decode json_loads self).

(** After the rule-based fallback the [try] block of [analyze_conversation]
    does not raise, and the result carries the fallback scores. *)
Lemma analyze_try_after_fallback (transcript : string) (context : option string)
    (dur : option pyfloat) :
  llm_eval transcript context = Ok (fallback transcript) ->
  exists r,
    analyze_try transcript context dur = Ok r /\
    analyze transcript context dur = Ok r /\
    field "overall_score" (fallback transcript) = Some (LLaMA.overall_score r) /\
    field "grammar_score" (fallback transcript) = Some (LLaMA.grammar_score r) /\
    field "vocabulary_score" (fallback transcript) = Some (LLaMA.vocabulary_score r) /\
    field "fluency_score" (fallback transcript) = Some (LLaMA.fluency_score r) /\
    field "comprehension_score" (fallback transcript) = Some (LLaMA.comprehension_score r) /\
    field "proficiency_level" (fallback transcript) = Some (LLaMA.proficiency_level r).
Proof.
  intros F.
  destruct (fallback_evaluation_shape self transcript) as (b & lvl & fb & S & _).
  rewrite S in F |- *.
  destruct (analyze_try_of_evaluation generate_and_decode json_loads self
              transcript context dur F)
    as [(d & _ & r & R & Ho & Hg & Hv & Hf & Hc & Hl & _)|[N _]].
  - exists r. unfold LLaMA.analyze_conversation. rewrite R.
    cbn [field lookup String.eqb Ascii.eqb Bool.eqb try_except].
    rewrite Ho, Hg, Hv, Hf, Hc, Hl. repeat split; reflexivity.
  - exfalso. apply (N fb). reflexivity.
Qed.

End RecoveryFacts.

Lemma split_on_from_cons (sep : ascii) (s cur : string) :
  exists x l, PyStr.split_on_from sep cur s = x :: l.
Proof.
  revert cur. induction s as [|c s IH]; intros cur; cbn.
  - eauto.
  - destruct (Ascii.eqb c sep); [eauto | apply IH].
Qed.

Section ComprehensionFacts.
Variables Tokenizer Model : Type.

Lemma comprehension_returns (self : LLaMA.LLaMAAnalysisService Tokenizer Model)
    (text : string) (context : option string) :
  exists score, LLaMA._enhanced_comprehension_analysis self text context = Ok score.
Proof.
  unfold LLaMA._enhanced_comprehension_analysis.
  destruct (Z.eqb_spec (Z.of_nat (List.length (PyStr.split text))) 0) as [E|E]; [eauto|].
  unfold PyStr.split_on.
  destruct (split_on_from_cons "." text "") as (x & l & ->).
  rewrite !truediv_nonzero by (cbn [List.length]; lia).
  cbn [bind]. eauto.
Qed.

Lemma comprehension_of_statistics
    (self1 self2 : LLaMA.LLaMAAnalysisService Tokenizer Model)
    (text1 text2 : string) (context1 context2 : option string) :
  statistics text1 = statistics text2 ->
  LLaMA._enhanced_comprehension_analysis self1 text1 context1 =
  LLaMA._enhanced_comprehension_analysis self2 text2 context2.
Proof.
  intros H.
  assert (Hw := f_equal word_count H). assert (Hs := f_equal sentence_count H).
  assert (Hl := f_equal long_word_count H). assert (Ht := f_equal has_transition_word H).
  assert (Hc := f_equal has_complex_conjunction H).
  assert (Hr := f_equal has_relative_pronoun H).
  unfold statistics in Hw, Hs, Hl, Ht, Hc, Hr.
  cbn [word_count sentence_count long_word_count has_transition_word
       has_complex_conjunction has_relative_pronoun] in Hw, Hs, Hl, Ht, Hc, Hr.
  clear H.
  unfold LLaMA._enhanced_comprehension_analysis.
  rewrite Hw, Hl, Ht, Hc, Hr.
  destruct (Z.of_nat (List.length (PyStr.split text2)) =? 0); [reflexivity|].
  unfold PyStr.split_on in *.
  destruct (split_on_from_cons "." text1 "") as (x1 & l1 & E1).
  destruct (split_on_from_cons "." text2 "") as (x2 & l2 & E2).
  rewrite E1, E2 in *. rewrite Hs. reflexivity.
Qed.

End ComprehensionFacts.

(** The floor of the vocabulary score grows with the text: from 134 words on
    it is above 20, whatever the words are. *)
Lemma vocabulary_score_of_long_text (Tokenizer Model : Type)
    (self : LLaMA.LLaMAAnalysisService Tokenizer Model) (text : string) :
  134 <= Z.of_nat (List.length (PyStr.split (PyStr.lower text))) ->
  exists score feedback,
    LLaMA._analyze_vocabulary self text =
      Ok (VDict [("score", of_num score); ("feedback", VStr feedback)]) /\
    num_lt (NInt 20) score = true.
Proof.
  intros H. unfold LLaMA._analyze_vocabulary.
  destruct (PyStr.split (PyStr.lower text)) as [|w words] eqn:W; [cbn in H; lia|].
  set (n := Z.of_nat (List.length (w :: words))) in *.
  destruct (fold_left LLaMA.spelling_step (w :: words) (0, [])) as [errors misspelled].
  rewrite truediv_nonzero by lia. cbn [bind try_except].
  destruct (Z.ltb_spec n 2); [lia|]. destruct (Z.ltb_spec n 3); [lia|].
  destruct (Z.ltb_spec n 5); [lia|].
  do 2 eexists. split; [reflexivity|].
  apply num_lt_max.
  assert (Q134 : (134 <= inject_Z n)%Q) by (change (inject_Z 134 <= inject_Z n)%Q; rewrite <- Zle_Qle; exact H).
  unfold num_max. cbn [num_mul to_float float_mul LLaMA.fl].
  destruct (num_lt (NInt 1) _) eqn:E.
  - apply (num_lt_fin (NInt 20) (NFloat (Fin (inject_Z n * 0.15))) eq_refl eq_refl).
    unfold inject_Z at 1. lra.
  - exfalso. apply not_true_iff_false in E. apply E.
    apply (num_lt_fin (NInt 1) (NFloat (Fin (inject_Z n * 0.15))) eq_refl eq_refl).
    unfold inject_Z at 1. lra.
Qed.

Lemma proficiency_level_of_rational (Tokenizer Model : Type)
    (self : LLaMA.LLaMAAnalysisService Tokenizer Model) (q : Q) :
  let level := LLaMA._determine_proficiency_level self (NFloat (Fin q)) in
  ((70 <= q)%Q -> level = "C2") /\
  ((55 <= q < 70)%Q -> level = "C1") /\
  ((40 <= q < 55)%Q -> level = "B2") /\
  ((25 <= q < 40)%Q -> level = "B1") /\
  ((15 <= q < 25)%Q -> level = "A2") /\
  ((q < 15)%Q -> level = "A1").
Proof.
  cbv zeta. unfold LLaMA._determine_proficiency_level.
  destruct (num_ge (NFloat (Fin q)) (NInt 70)) eqn:E70;
    [apply num_ge_fin_int in E70 | apply num_ge_fin_int_false in E70];
  (destruct (num_ge (NFloat (Fin q)) (NInt 55)) eqn:E55;
    [apply num_ge_fin_int in E55 | apply num_ge_fin_int_false in E55]);
  (destruct (num_ge (NFloat (Fin q)) (NInt 40)) eqn:E40;
    [apply num_ge_fin_int in E40 | apply num_ge_fin_int_false in E40]);
  (destruct (num_ge (NFloat (Fin q)) (NInt 25)) eqn:E25;
    [apply num_ge_fin_int in E25 | apply num_ge_fin_int_false in E25]);
  (destruct (num_ge (NFloat (Fin q)) (NInt 15)) eqn:E15;
    [apply num_ge_fin_int in E15 | apply num_ge_fin_int_false in E15]);
  unfold inject_Z in *;
  repeat split; intros; try reflexivity; exfalso; lra.
Qed.

(* ------------------------------------------------------------------ *)
(** *** The patterns of the GPT service *)

Lemma append_assoc (a b c : string) : (a ++ b) ++ c = a ++ (b ++ c).
Proof. induction a as [|x a IH]; cbn; [reflexivity | rewrite IH; reflexivity]. Qed.

Lemma append_nil_r (a : string) : a ++ "" = a.
Proof. induction a as [|x a IH]; cbn; [reflexivity | rewrite IH; reflexivity]. Qed.

Lemma length_append (a b : string) :
  String.length (a ++ b) = (String.length a + String.length b)%nat.
Proof. induction a as [|x a IH]; cbn; [reflexivity | rewrite IH; reflexivity]. Qed.

Lemma substring_prefix (w rest : string) :
  String.substring 0 (String.length w) (w ++ rest) = w.
Proof.
  induction w as [|c w IH]; cbn.
  - destruct rest; reflexivity.
  - rewrite IH. reflexivity.
Qed.

Lemma consumed_append (w rest : string) : Re.consumed (w ++ rest) rest = w.
Proof.
  unfold Re.consumed. rewrite length_append.
  replace (String.length w + String.length rest - String.length rest)%nat
    with (String.length w) by lia.
  apply substring_prefix.
Qed.

Section RunSound.
Variable R : Type.

(** Whatever [run] answers, the continuation answered it, after the pattern
    matched a prefix of the input. *)
Lemma run_sound (r : Re.regex) :
  forall (s : string) (g : option string) (k : string -> option string -> option R)
         (res : R),
    Re.run r s g k = Some res ->
    exists w rest g', s = w ++ rest /\ matches r w /\ k rest g' = Some res.
Proof.
  induction r as [p | r1 IH1 r2 IH2 | r1 IH1 | r1 IH1 | r1 IH1]; intros s g k res H.
  - cbn in H. destruct s as [|c s]; [discriminate|].
    destruct (p c) eqn:P; [|discriminate].
    exists (String c ""), s, g. repeat split; [constructor; exact P | exact H].
  - cbn in H. apply IH1 in H. destruct H as (w1 & s1 & g1 & -> & M1 & H).
    apply IH2 in H. destruct H as (w2 & s2 & g2 & -> & M2 & H).
    exists (w1 ++ w2), s2, g2. rewrite append_assoc.
    repeat split; [constructor; assumption | exact H].
  - cbn [Re.run] in H. revert H. generalize (String.length s). intros fuel. revert s g.
    induction fuel as [|fuel IHf]; intros s g H.
    + exists "", s, g. repeat split; [constructor | exact H].
    + cbn [Re.star_loop] in H.
      destruct (Re.run r1 s g _) as [x|] eqn:E in H.
      * injection H as ->. apply IH1 in E. destruct E as (w1 & s1 & g1 & -> & M1 & E).
        destruct (String.length s1 <? String.length (w1 ++ s1))%nat; [|discriminate].
        apply IHf in E. destruct E as (w2 & s2 & g2 & -> & M2 & E).
        exists (w1 ++ w2), s2, g2. rewrite append_assoc.
        repeat split; [econstructor; eassumption | exact E].
      * exists "", s, g. repeat split; [constructor | exact H].
  - cbn in H. destruct (Re.run r1 s g k) as [x|] eqn:E.
    + injection H as ->. apply IH1 in E. destruct E as (w & rest & g' & -> & M & E).
      exists w, rest, g'. repeat split; [constructor; exact M | exact E].
    + exists "", s, g. repeat split; [constructor | exact H].
  - cbn in H. apply IH1 in H. destruct H as (w & rest & g' & -> & M & H).
    exists w, rest, (Some (Re.consumed (w ++ rest) rest)).
    repeat split; [constructor; exact M | exact H].
Qed.

(** A pattern that ends in its group hands the text of the group over. *)
Lemma run_group_last (r : Re.regex) (s : string) (g : option string)
    (k : string -> option string -> option R) (res : R) :
  Re.run (Re.Group r) s g k = Some res ->
  exists w rest, s = w ++ rest /\ matches r w /\ k rest (Some w) = Some res.
Proof.
  cbn. intros H. apply run_sound in H. destruct H as (w & rest & g' & -> & M & H).
  rewrite consumed_append in H. eauto.
Qed.

End RunSound.

Section Fuel.
Variable R : Type.

(** The matcher only looks at what its continuation answers. *)
Lemma run_ext (r : Re.regex) :
  forall (s : string) (g : option string) (k1 k2 : string -> option string -> option R),
    (forall s' g', k1 s' g' = k2 s' g') -> Re.run r s g k1 = Re.run r s g k2.
Proof.
  induction r as [p | r1 IH1 r2 IH2 | r1 IH1 | r1 IH1 | r1 IH1]; intros s g k1 k2 H; cbn [Re.run].
  - destruct s as [|c s]; [reflexivity|]. destruct (p c); [apply H | reflexivity].
  - apply IH1. intros s' g'. apply IH2. exact H.
  - generalize (String.length s). intros fuel. revert s g.
    induction fuel as [|fuel IHf]; intros s g; cbn [Re.star_loop]; [apply H|].
    rewrite (IH1 s g _ (fun s' g' =>
               if (String.length s' <? String.length s)%nat
               then Re.star_loop (Re.run r1) k2 fuel s' g' else None)).
    + rewrite H. reflexivity.
    + intros s' g'. destruct (String.length s' <? String.length s)%nat; [apply IHf | reflexivity].
  - rewrite (IH1 s g k1 k2 H), H. reflexivity.
  - apply IH1. intros s' g'. apply H.
Qed.

Lemma run_no_continuation (r : Re.regex) (s : string) (g : option string) :
  Re.run r s g (fun _ _ => @None R) = None.
Proof.
  destruct (Re.run r s g (fun _ _ => None)) as [x|] eqn:E; [|reflexivity].
  apply run_sound in E. destruct E as (_ & _ & _ & _ & _ & E). discriminate.
Qed.

(** The repetition never runs out of fuel: any amount that is at least the
    length of the input gives the same answer. *)
Lemma star_loop_fuel (r : Re.regex) (k : string -> option string -> option R) :
  forall (fuel1 fuel2 : nat) (s : string) (g : option string),
    (String.length s <= fuel1)%nat -> (String.length s <= fuel2)%nat ->
    Re.star_loop (Re.run r) k fuel1 s g = Re.star_loop (Re.run r) k fuel2 s g.
Proof.
  assert (stop : forall fuel s g, String.length s = 0%nat ->
            Re.star_loop (Re.run r) k fuel s g = k s g).
  { intros [|fuel] s g L; cbn [Re.star_loop]; [reflexivity|].
    rewrite (run_ext r s g _ (fun _ _ => None)).
    - rewrite run_no_continuation. reflexivity.
    - intros s' g'. rewrite L. destruct (String.length s'); reflexivity. }
  induction fuel1 as [|fuel1 IH]; intros fuel2 s g H1 H2.
  - rewrite !stop by lia. reflexivity.
  - destruct fuel2 as [|fuel2]; [rewrite !stop by lia; reflexivity|].
    cbn [Re.star_loop].
    rewrite (run_ext r s g _ (fun s' g' =>
               if (String.length s' <? String.length s)%nat
               then Re.star_loop (Re.run r) k fuel2 s' g' else None)); [reflexivity|].
    intros s' g'. destruct (Nat.ltb_spec (String.length s') (String.length s));
      [apply IH; lia | reflexivity].
Qed.

End Fuel.

Lemma search_match_at (r : Re.regex) (text : string) (m : Re.match_object) :
  Re.search r text = Some m -> exists s, Re.match_at r s = Some m.
Proof.
  induction text as [|c text IH]; cbn; intros H.
  - destruct (Re.match_at r "") eqn:E; [injection H as ->; eauto | discriminate].
  - destruct (Re.match_at r (String c text)) eqn:E; [injection H as ->; eauto | auto].
Qed.

Lemma all_digits_append (a b : string) :
  GPT.all_digits (a ++ b) = GPT.all_digits a && GPT.all_digits b.
Proof.
  induction a as [|c a IH]; cbn; [reflexivity | rewrite IH, andb_assoc; reflexivity].
Qed.

Lemma matches_digit (w : string) :
  matches (Re.Chr PyStr.isdigit) w -> exists c, w = String c "" /\ PyStr.isdigit c = true.
Proof. intros H. inversion H; subst. eauto. Qed.

Lemma matches_digits_star (w : string) :
  matches (Re.Star (Re.Chr PyStr.isdigit)) w -> GPT.all_digits w = true.
Proof.
  intros H. remember (Re.Star (Re.Chr PyStr.isdigit)) as r eqn:Er.
  induction H; try discriminate.
  - reflexivity.
  - injection Er as ->.
    destruct (matches_digit H) as (c & -> & D).
    cbn. rewrite D. apply IHmatches2. reflexivity.
Qed.

Lemma matches_digits_plus (w : string) :
  matches (Re.plus (Re.Chr PyStr.isdigit)) w -> GPT.nonempty_digits w = true.
Proof.
  unfold Re.plus. intros H. inversion H as [ | r1 r2 w1 w2 H1 H2 | | | | | ]; subst.
  destruct (matches_digit H1) as (c & -> & D).
  apply matches_digits_star in H2.
  unfold GPT.nonempty_digits. cbn. rewrite D, H2. reflexivity.
Qed.

Lemma split_on_digits (cur d : string) :
  GPT.all_digits d = true -> PyStr.split_on_from "." cur d = [cur ++ d].
Proof.
  revert cur. induction d as [|c d IH]; intros cur H; cbn in *.
  - rewrite append_nil_r. reflexivity.
  - apply andb_true_iff in H. destruct H as [D H].
    destruct (Ascii.eqb_spec c ".") as [->|_]; [discriminate|].
    rewrite IH by exact H. unfold PyStr.snoc. rewrite append_assoc. reflexivity.
Qed.

Lemma split_on_digits_point (cur d rest : string) :
  GPT.all_digits d = true ->
  PyStr.split_on_from "." cur (d ++ String "." rest) =
    (cur ++ d) :: PyStr.split_on_from "." "" rest.
Proof.
  revert cur. induction d as [|c d IH]; intros cur H; cbn in *.
  - rewrite append_nil_r. reflexivity.
  - apply andb_true_iff in H. destruct H as [D H].
    destruct (Ascii.eqb_spec c ".") as [->|_]; [discriminate|].
    rewrite IH by exact H. unfold PyStr.snoc. rewrite append_assoc. reflexivity.
Qed.

Lemma nonempty_digits_all (d : string) :
  GPT.nonempty_digits d = true -> GPT.all_digits d = true.
Proof. unfold GPT.nonempty_digits. intros H. apply andb_true_iff in H. tauto. Qed.

(** [float] reads every text that [\d+(?:\.\d+)?] matches. *)
Lemma py_float_number (w : string) :
  matches Re.number w -> exists x, GPT.py_float w = Ok x.
Proof.
  unfold Re.number. intros H.
  inversion H as [ | r1 r2 w1 w2 H1 H2 | | | | | ]; subst.
  apply matches_digits_plus in H1.
  unfold GPT.py_float, PyStr.split_on.
  inversion H2 as [ | | | | r | r w H3 | ]; subst.
  - rewrite append_nil_r, split_on_digits by (apply nonempty_digits_all; exact H1).
    cbn [append]. rewrite H1. eauto.
  - inversion H3 as [ | r1 r2 wp wd Hp Hd | | | | | ]; subst.
    inversion Hp; subst. apply matches_digits_plus in Hd.
    match goal with E : Ascii.eqb "." ?c = true |- _ => apply Ascii.eqb_eq in E; subst end.
    cbn [append].
    rewrite split_on_digits_point by (apply nonempty_digits_all; exact H1).
    rewrite split_on_digits by (apply nonempty_digits_all; exact Hd).
    cbn [append]. rewrite H1, Hd. cbn. eauto.
Qed.

(** A match of a score pattern has a group, and the group is a number. *)
Lemma score_pattern_group (kind text : string) (m : Re.match_object) :
  Re.search (GPT.score_pattern kind) text = Some m ->
  exists digits x, Re.group1 m = Some digits /\ GPT.py_float digits = Ok x.
Proof.
  intros H. apply search_match_at in H. destruct H as (s & H).
  unfold Re.match_at, GPT.score_pattern in H. cbn [Re.run] in H.
  apply run_sound in H. destruct H as (w1 & s1 & g1 & _ & _ & H).
  change (Re.star_loop ?a ?b ?c ?d ?e) with (Re.run (Re.Star Re.underscore_or_space) d e b) in H.
  apply run_sound in H. destruct H as (w2 & s2 & g2 & _ & _ & H).
  apply run_sound in H. destruct H as (w3 & s3 & g3 & _ & _ & H).
  change (Re.star_loop ?a ?b ?c ?d ?e) with (Re.run (Re.Star Re.colon_or_space) d e b) in H.
  apply run_sound in H. destruct H as (w4 & s4 & g4 & _ & _ & H).
  change (Re.run Re.number s4 g4 ?k) with
    (Re.run (Re.Group Re.number) s4 g4
       (fun rest g => Some {| Re.group0 := Re.consumed s rest; Re.group1 := g |})) in H.
  apply run_group_last in H. destruct H as (w & rest & _ & M & H).
  injection H as <-. cbn [Re.group1].
  destruct (py_float_number M) as (x & X). eauto.
Qed.

Lemma find_score_returns (kind text : string) :
  exists found, GPT.find_score kind text = Ok found.
Proof.
  unfold GPT.find_score.
  destruct (Re.search (GPT.score_pattern kind) text) as [m|] eqn:E; [|eauto].
  destruct (score_pattern_group _ _ E) as (digits & x & -> & ->). cbn. eauto.
Qed.

Lemma find_score_none (kind text : string) :
  Re.search (GPT.score_pattern kind) text = None -> GPT.find_score kind text = Ok None.
Proof. unfold GPT.find_score. intros ->. reflexivity. Qed.

Lemma find_score_some (kind text : string) (m : Re.match_object) (digits : string) (x : pyfloat) :
  Re.search (GPT.score_pattern kind) text = Some m ->
  Re.group1 m = Some digits -> GPT.py_float digits = Ok x ->
  GPT.find_score kind text = Ok (Some (VFloat x)).
Proof. unfold GPT.find_score. intros -> -> ->. reflexivity. Qed.

Ltac all_scores text :=
  destruct (find_score_returns "overall" text) as (o & Ho);
  destruct (find_score_returns "grammar" text) as (g & Hg);
  destruct (find_score_returns "vocabulary" text) as (v & Hv);
  destruct (find_score_returns "fluency" text) as (f & Hf);
  destruct (find_score_returns "pronunciation" text) as (p & Hp);
  destruct (find_score_returns "comprehension" text) as (c & Hc).

Lemma fallback_parse_returns (text : string) : exists d, GPT._fallback_parse text = Ok d.
Proof.
  unfold GPT._fallback_parse. all_scores text.
  rewrite Ho, Hg, Hv, Hf, Hp, Hc. cbn. eauto.
Qed.

(* ------------------------------------------------------------------ *)
(** *** Configuration and progress *)

Lemma truthy_str_set (key : option string) : truthy_str key = true <-> key_is_set key.
Proof.
  unfold key_is_set. destruct key as [k|]; cbn.
  - destruct (String.eqb_spec k ""); cbn; split.
    + discriminate.
    + intros (k' & E & N). injection E as <-. contradiction.
    + intros _. eauto.
    + reflexivity.
  - split; [discriminate | intros (k & E & _); discriminate].
Qed.

Lemma progress_failure (Session UUID : Type)
    (q1 q2 q3 q4 : Session -> UUID -> M pyval)
    (q5 : Session -> UUID -> M (list ConversationService.trend_row))
    (user_id : UUID) (db : Session) :
  (exists e, q1 db user_id = Raise e \/ q2 db user_id = Raise e \/ q3 db user_id = Raise e
             \/ q4 db user_id = Raise e \/ q5 db user_id = Raise e) ->
  ConversationService.get_user_progress q1 q2 q3 q4 q5 user_id db
    = Ok ConversationService.no_progress.
Proof.
  intros (e & H). unfold ConversationService.get_user_progress.
  destruct (q1 db user_id) as [v1|e1]; [|reflexivity].
  destruct (q2 db user_id) as [v2|e2]; [|reflexivity].
  destruct (q3 db user_id) as [v3|e3]; [|reflexivity].
  destruct (q4 db user_id) as [v4|e4]; [|reflexivity].
  destruct (q5 db user_id) as [v5|e5]; [|reflexivity].
  exfalso. decompose [or] H; discriminate.
Qed.

(* ================================================================== *)
(** ** The statements of the specification *)

Ltac ranks := cbn; do 2 eexists; split; [reflexivity | split; [reflexivity | lia]].

(** C1.  For every transcript, [_fallback_evaluation] gives the four dimensions
    the same base score: 1 below 2 words, 3 below 5, 8 below 10 and 15 from
    10 words on; the overall score is 4 times the base score; the level is
    A1 below 5 words and B1 otherwise.  The words are those of [str.split]. *)
Theorem fallback_evaluation_thresholds :
  forall (Tokenizer Model : Type) (self : LLaMA.LLaMAAnalysisService Tokenizer Model)
         (transcript : string),
    let word_count := Z.of_nat (List.length (PyStr.split transcript)) in
    let result := LLaMA._fallback_evaluation self transcript in
    exists base_score : Z,
      (word_count < 2 -> base_score = 1) /\
      (2 <= word_count < 5 -> base_score = 3) /\
      (5 <= word_count < 10 -> base_score = 8) /\
      (10 <= word_count -> base_score = 15) /\
      field "grammar_score" result = Some (VInt base_score) /\
      field "vocabulary_score" result = Some (VInt base_score) /\
      field "fluency_score" result = Some (VInt base_score) /\
      field "comprehension_score" result = Some (VInt base_score) /\
      field "overall_score" result = Some (VInt (4 * base_score)) /\
      (word_count < 5 -> field "proficiency_level" result = Some (VStr "A1")) /\
      (5 <= word_count -> field "proficiency_level" result = Some (VStr "B1")).
Proof.
  intros Tokenizer Model self transcript word_count result.
  subst result. unfold LLaMA._fallback_evaluation. fold word_count.
  destruct (Z.ltb_spec word_count 2) as [H2|H2];
    [exists 1 | destruct (Z.ltb_spec word_count 5) as [H5|H5];
      [exists 3 | destruct (Z.ltb_spec word_count 10) as [H10|H10]; [exists 8 | exists 15]]];
  cbn [field lookup String.eqb Ascii.eqb Bool.eqb];
  repeat split; try reflexivity; try lia;
  intros; destruct (Z.ltb_spec word_count 5); try lia; reflexivity.
Qed.

(** A concrete run of the statement above. *)
Lemma fallback_evaluation_thresholds_witness :
  field "grammar_score" (LLaMA._fallback_evaluation Sample.service "hello there")
    = Some (VInt 3) /\
  field "overall_score" (LLaMA._fallback_evaluation Sample.service "hello there")
    = Some (VInt 12) /\
  field "proficiency_level" (LLaMA._fallback_evaluation Sample.service "hello there")
    = Some (VStr "A1").
Proof.
  destruct (fallback_evaluation_thresholds Sample.service "hello there")
    as (b & _ & H & _ & _ & G & _ & _ & _ & O & L & _).
  assert (W : Z.of_nat (List.length (PyStr.split "hello there")) = 2)
    by (vm_compute; reflexivity).
  rewrite W in H, L.
  assert (B : b = 3) by (apply H; lia). subst b.
  split; [exact G|]. split; [exact O|]. apply L. lia.
Defined.

(** C2.  If the generation raises, or if reading its output as JSON raises
    ([JSONDecodeError] or any other exception), the result of
    [_llm_based_evaluation] is that of [_fallback_evaluation], and
    [analyze_conversation] returns the result its [try] block builds from
    it: the scores and the level are those of the rule-based evaluation, so
    the result is not the fixed one.  [analyze_conversation] always returns
    a result: the one of its [try] block when the block returns, and when
    the block raises the fixed one: overall 5, grammar 1, vocabulary 1,
    fluency 1, comprehension 2, level A1. *)
Theorem llm_failure_falls_back :
  forall (Tokenizer Model : Type)
         (generate_and_decode : Tokenizer -> Model -> string -> Z -> M string)
         (json_loads : string -> M pyval)
         (self : LLaMA.LLaMAAnalysisService Tokenizer Model)
         (transcript : string) (context : option string) (audio_duration : option pyfloat),
    let generated :=
      generate_and_decode (LLaMA.tokenizer self) (LLaMA.model self)
        (LLaMA.evaluation_prompt transcript context) 500 in
    let evaluation :=
      LLaMA._llm_based_evaluation generate_and_decode json_loads self transcript context in
    let rule_based := LLaMA._fallback_evaluation self transcript in
    let attempt :=
      LLaMA.analyze_conversation_try generate_and_decode json_loads self
        transcript context audio_duration in
    let analysis :=
      LLaMA.analyze_conversation generate_and_decode json_loads self
        transcript context audio_duration in
    (forall e, generated = Raise e -> evaluation = Ok rule_based) /\
    (forall out e, generated = Ok out ->
       json_loads (PyStr.strip out) = Raise e ->
       evaluation = Ok rule_based) /\
    ((exists e, generated = Raise e) \/
     (exists out e, generated = Ok out /\ json_loads (PyStr.strip out) = Raise e) ->
     exists r,
       attempt = Ok r /\ analysis = Ok r /\
       field "overall_score" rule_based = Some (LLaMA.overall_score r) /\
       field "grammar_score" rule_based = Some (LLaMA.grammar_score r) /\
       field "vocabulary_score" rule_based = Some (LLaMA.vocabulary_score r) /\
       field "fluency_score" rule_based = Some (LLaMA.fluency_score r) /\
       field "comprehension_score" rule_based = Some (LLaMA.comprehension_score r) /\
       field "proficiency_level" rule_based = Some (LLaMA.proficiency_level r) /\
       r <> LLaMA.analysis_failed) /\
    (exists r, analysis = Ok r) /\
    (forall r, attempt = Ok r -> analysis = Ok r) /\
    (forall e, attempt = Raise e -> analysis = Ok LLaMA.analysis_failed) /\
    LLaMA.overall_score LLaMA.analysis_failed = VInt 5 /\
    LLaMA.grammar_score LLaMA.analysis_failed = VInt 1 /\
    LLaMA.vocabulary_score LLaMA.analysis_failed = VInt 1 /\
    LLaMA.fluency_score LLaMA.analysis_failed = VInt 1 /\
    LLaMA.comprehension_score LLaMA.analysis_failed = VInt 2 /\
    LLaMA.proficiency_level LLaMA.analysis_failed = VStr "A1".
Proof.
  intros Tokenizer Model gen loads self transcript context dur
         generated evaluation rule_based attempt analysis.
  assert (Raised : forall e, generated = Raise e -> evaluation = Ok rule_based).
  { intros e G. subst evaluation. unfold LLaMA._llm_based_evaluation.
    rewrite (generate_raises gen self _ _ G). reflexivity. }
  assert (Unread : forall out e, generated = Ok out ->
                     loads (PyStr.strip out) = Raise e -> evaluation = Ok rule_based).
  { intros out e G J. subst evaluation. unfold LLaMA._llm_based_evaluation.
    rewrite (generate_returns gen self _ _ G). cbn [bind]. rewrite J.
    cbn [bind try_except_only]. destruct (is_JSONDecodeError e); reflexivity. }
  split; [exact Raised|]. split; [exact Unread|].
  split; [|split; [|split; [|split]]].
  - intros Failed.
    assert (F : evaluation = Ok rule_based).
    { destruct Failed as [(e & G)|(out & e & G & J)]; eauto. }
    destruct (@analyze_try_after_fallback _ _ gen loads self transcript context dur F)
      as (r & T & A & Ho & Hg & Hv & Hf & Hc & Hl).
    exists r. split; [exact T|]. split; [exact A|]. split; [exact Ho|].
    split; [exact Hg|]. split; [exact Hv|]. split; [exact Hf|].
    split; [exact Hc|]. split; [exact Hl|].
    intros ->. subst rule_based.
    destruct (fallback_evaluation_shape self transcript) as (b & lvl & fb & S & _).
    rewrite S in Ho. cbn in Ho. injection Ho as Ho. lia.
  - destruct (analyze_conversation_returns gen loads self transcript context dur)
      as (r & R & _). exists r. exact R.
  - intros r T. subst analysis attempt. unfold LLaMA.analyze_conversation.
    rewrite T. reflexivity.
  - intros e T. subst analysis attempt. unfold LLaMA.analyze_conversation.
    rewrite T. reflexivity.
  - repeat split; reflexivity.
Qed.

(** Concrete runs of the statement above.  With a model that is out of
    memory, and with one that answers in prose, the caller of
    [analyze_conversation] receives the rule-based scores of the two words
    of the transcript (overall 12, 3 for each dimension); with an answer
    whose feedback is a text the [try] block raises and the caller receives
    the fixed result. *)
Lemma llm_failure_falls_back_witness :
  LLaMA._llm_based_evaluation Sample.out_of_memory Sample.json_loads
      Sample.service "hello there" None
    = Ok (LLaMA._fallback_evaluation Sample.service "hello there") /\
  LLaMA._llm_based_evaluation (Sample.answers Sample.prose) Sample.json_loads
      Sample.service "hello there" None
    = Ok (LLaMA._fallback_evaluation Sample.service "hello there") /\
  (exists r,
     LLaMA.analyze_conversation Sample.out_of_memory Sample.json_loads
       Sample.service "hello there" None None = Ok r /\
     LLaMA.overall_score r = VInt 12 /\ LLaMA.grammar_score r = VInt 3 /\
     LLaMA.vocabulary_score r = VInt 3 /\ LLaMA.fluency_score r = VInt 3 /\
     LLaMA.comprehension_score r = VInt 3 /\ LLaMA.proficiency_level r = VStr "A1") /\
  (exists r,
     LLaMA.analyze_conversation (Sample.answers Sample.prose) Sample.json_loads
       Sample.service "hello there" None None = Ok r /\
     LLaMA.overall_score r = VInt 12 /\ LLaMA.grammar_score r = VInt 3 /\
     LLaMA.vocabulary_score r = VInt 3 /\ LLaMA.fluency_score r = VInt 3 /\
     LLaMA.comprehension_score r = VInt 3 /\ LLaMA.proficiency_level r = VStr "A1") /\
  LLaMA.analyze_conversation (Sample.answers Sample.feedback_as_text) Sample.json_loads
      Sample.service "hello there" None None
    = Ok LLaMA.analysis_failed.
Proof.
  split; [|split; [|split; [|split]]].
  - destruct (llm_failure_falls_back Sample.out_of_memory Sample.json_loads
                Sample.service "hello there" None None) as (H & _).
    apply (H (OtherError "CUDA out of memory")). reflexivity.
  - destruct (llm_failure_falls_back (Sample.answers Sample.prose) Sample.json_loads
                Sample.service "hello there" None None) as (_ & H & _).
    apply (H Sample.prose JSONDecodeError); [reflexivity | vm_compute; reflexivity].
  - destruct (llm_failure_falls_back Sample.out_of_memory Sample.json_loads
                Sample.service "hello there" None None) as (_ & _ & H & _).
    destruct H as (r & _ & A & Ho & Hg & Hv & Hf & Hc & Hl & _).
    + left. exists (OtherError "CUDA out of memory"). reflexivity.
    + exists r. split; [exact A|].
      vm_compute in Ho, Hg, Hv, Hf, Hc, Hl.
      injection Ho as Ho. injection Hg as Hg. injection Hv as Hv.
      injection Hf as Hf. injection Hc as Hc. injection Hl as Hl.
      split; [symmetry; exact Ho|]. split; [symmetry; exact Hg|].
      split; [symmetry; exact Hv|]. split; [symmetry; exact Hf|].
      split; [symmetry; exact Hc | symmetry; exact Hl].
  - destruct (llm_failure_falls_back (Sample.answers Sample.prose) Sample.json_loads
                Sample.service "hello there" None None) as (_ & _ & H & _).
    destruct H as (r & _ & A & Ho & Hg & Hv & Hf & Hc & Hl & _).
    + right. exists Sample.prose, JSONDecodeError.
      split; [reflexivity | vm_compute; reflexivity].
    + exists r. split; [exact A|].
      vm_compute in Ho, Hg, Hv, Hf, Hc, Hl.
      injection Ho as Ho. injection Hg as Hg. injection Hv as Hv.
      injection Hf as Hf. injection Hc as Hc. injection Hl as Hl.
      split; [symmetry; exact Ho|]. split; [symmetry; exact Hg|].
      split; [symmetry; exact Hv|]. split; [symmetry; exact Hf|].
      split; [symmetry; exact Hc | symmetry; exact Hl].
  - destruct (llm_failure_falls_back (Sample.answers Sample.feedback_as_text)
                Sample.json_loads Sample.service "hello there" None None)
      as (_ & _ & _ & _ & _ & H & _).
    apply (H AttributeError). vm_compute. reflexivity.
Defined.

(** C3.  [_llm_based_evaluation] always returns an evaluation.  Its four
    dimension scores are numbers between 0 and 25, the overall score is
    their sum and is at most 100.  When the generation returns, its output
    is read as a JSON object and the four entries of the object (0 for a
    missing one) are numbers, the evaluation is the LLM-based one: each
    score is the entry clamped into the interval from 0 to 25 (the entry
    itself when it lies inside, 0 below, 25 above), the overall score is
    the sum of the four clamped scores, and the level and the feedback are
    those of the object.  Conversely, when the evaluation is the LLM-based
    one, its scores are the clamped entries of the parsed output.  The
    pronunciation score of the result of [analyze_conversation] is 0. *)
Theorem llm_scores_clamped_and_summed :
  forall (Tokenizer Model : Type)
         (generate_and_decode : Tokenizer -> Model -> string -> Z -> M string)
         (json_loads : string -> M pyval)
         (self : LLaMA.LLaMAAnalysisService Tokenizer Model)
         (transcript : string) (context : option string) (audio_duration : option pyfloat),
    let evaluation :=
      LLaMA._llm_based_evaluation generate_and_decode json_loads self transcript context in
    let analysis :=
      LLaMA.analyze_conversation generate_and_decode json_loads self
        transcript context audio_duration in
    (exists ev g v f c o,
       evaluation = Ok ev /\
       field "grammar_score" ev = Some g /\
       field "vocabulary_score" ev = Some v /\
       field "fluency_score" ev = Some f /\
       field "comprehension_score" ev = Some c /\
       field "overall_score" ev = Some o /\
       score_in 0 25 g /\ score_in 0 25 v /\ score_in 0 25 f /\ score_in 0 25 c /\
       bind (py_add g v) (fun s => bind (py_add s f) (fun s => py_add s c)) = Ok o /\
       score_in 0 100 o /\
       (field "evaluation_method" ev = Some (VStr "LLM-based") ->
        exists response data xg xv xf xc,
          LLaMA._generate_llama_response generate_and_decode self
            (LLaMA.evaluation_prompt transcript context) 500 = Ok response /\
          json_loads response = Ok data /\
          py_get data "grammar_score" (VInt 0) = Ok xg /\ clamped_to 0 25 xg g /\
          py_get data "vocabulary_score" (VInt 0) = Ok xv /\ clamped_to 0 25 xv v /\
          py_get data "fluency_score" (VInt 0) = Ok xf /\ clamped_to 0 25 xf f /\
          py_get data "comprehension_score" (VInt 0) = Ok xc /\ clamped_to 0 25 xc c)) /\
    (forall response data xg xv xf xc ng nv nf nc,
       LLaMA._generate_llama_response generate_and_decode self
         (LLaMA.evaluation_prompt transcript context) 500 = Ok response ->
       json_loads response = Ok data ->
       py_get data "grammar_score" (VInt 0) = Ok xg -> as_num xg = Some ng ->
       py_get data "vocabulary_score" (VInt 0) = Ok xv -> as_num xv = Some nv ->
       py_get data "fluency_score" (VInt 0) = Ok xf -> as_num xf = Some nf ->
       py_get data "comprehension_score" (VInt 0) = Ok xc -> as_num xc = Some nc ->
       exists g v f c o lvl fb,
         evaluation =
           Ok (VDict [("grammar_score", g); ("vocabulary_score", v);
                      ("fluency_score", f); ("comprehension_score", c);
                      ("overall_score", o); ("proficiency_level", lvl);
                      ("detailed_feedback", fb);
                      ("evaluation_method", VStr "LLM-based")]) /\
         clamped_to 0 25 xg g /\ clamped_to 0 25 xv v /\
         clamped_to 0 25 xf f /\ clamped_to 0 25 xc c /\
         bind (py_add g v) (fun s => bind (py_add s f) (fun s => py_add s c)) = Ok o /\
         score_in 0 100 o /\
         py_get data "proficiency_level" (VStr "A1") = Ok lvl /\
         py_get data "detailed_feedback" (VDict []) = Ok fb) /\
    (exists r, analysis = Ok r /\ LLaMA.pronunciation_score r = VInt 0).
Proof.
  intros Tokenizer Model gen loads self transcript context dur evaluation analysis.
  split; [|split].
  - subst evaluation.
    destruct (llm_based_evaluation_cases gen loads self transcript context) as [F|F].
    + destruct (fallback_evaluation_shape self transcript) as (b & lvl & fb & S & B).
      rewrite S in F.
      eexists _, (VInt b), (VInt b), (VInt b), (VInt b), (VInt (b * 4)).
      split; [exact F|].
      cbn [field lookup String.eqb Ascii.eqb Bool.eqb].
      do 5 (split; [reflexivity|]).
      do 4 (split; [apply score_in_int; lia|]).
      split; [cbn; do 2 f_equal; lia|].
      split; [apply score_in_int; lia | discriminate].
    + destruct F as (response & data & g & v & f & c & o & lvl & fb & xg & xv & xf & xc
                     & G & L & G0 & Kg & V0 & Kv & F0 & Kf & C0 & Kc & S & B & _ & _ & F).
      eexists _, g, v, f, c, o.
      split; [exact F|].
      cbn [field lookup String.eqb Ascii.eqb Bool.eqb].
      do 5 (split; [reflexivity|]).
      do 4 (split; [eapply clamped_to_in; eassumption|]).
      split; [exact S|]. split; [exact B|].
      intros _. exists response, data, xg, xv, xf, xc. auto 12.
  - intros response data xg xv xf xc ng nv nf nc G L G0 Ng V0 Nv F0 Nf C0 Nc.
    destruct (@clamp_returns _ _ Ng) as (mg & g & G1 & G2).
    destruct (@clamp_returns _ _ Nv) as (mv & v & V1 & V2).
    destruct (@clamp_returns _ _ Nf) as (mf & f & F1 & F2).
    destruct (@clamp_returns _ _ Nc) as (mc & c & C1 & C2).
    assert (Kg := @clamp_0_25 _ _ _ G1 G2). assert (Kv := @clamp_0_25 _ _ _ V1 V2).
    assert (Kf := @clamp_0_25 _ _ _ F1 F2). assert (Kc := @clamp_0_25 _ _ _ C1 C2).
    destruct (py_add_in (clamped_to_in Kg) (clamped_to_in Kv)) as (s1 & S1 & B1).
    destruct (py_add_in B1 (clamped_to_in Kf)) as (s2 & S2 & B2).
    destruct (py_add_in B2 (clamped_to_in Kc)) as (o & S3 & B3).
    assert (D : exists d, data = VDict d)
      by (destruct data; try discriminate G0; eauto).
    destruct D as (d & ->).
    eexists g, v, f, c, o, _, _.
    split; [|split; [exact Kg|split; [exact Kv|split; [exact Kf|split; [exact Kc|]]]]].
    + subst evaluation. unfold LLaMA._llm_based_evaluation.
      rewrite G. cbn [bind]. rewrite L. cbn [bind].
      rewrite G0. cbn [bind]. rewrite G1. cbn [bind]. rewrite G2. cbn [bind].
      rewrite V0. cbn [bind]. rewrite V1. cbn [bind]. rewrite V2. cbn [bind].
      rewrite F0. cbn [bind]. rewrite F1. cbn [bind]. rewrite F2. cbn [bind].
      rewrite C0. cbn [bind]. rewrite C1. cbn [bind]. rewrite C2. cbn [bind].
      rewrite S1. cbn [bind]. rewrite S2. cbn [bind]. rewrite S3.
      cbn [bind py_get try_except_only try_except]. reflexivity.
    + split; [rewrite S1; cbn [bind]; rewrite S2; cbn [bind]; exact S3|].
      split; [exact B3|]. split; reflexivity.
  - destruct (analyze_conversation_returns gen loads self transcript context dur)
      as (r & R & P & _). exists r. auto.
Qed.

(** A concrete run of the statement above: the entries 30, -2, 12.5 and
    [True] of the answer become the scores 25, 0, 12.5 and [True], and the
    overall score is their sum, 38.5. *)
Lemma llm_scores_clamped_and_summed_witness :
  LLaMA._llm_based_evaluation (Sample.answers Sample.mixed_scores) Sample.json_loads
    Sample.service "hello there" None
    = Ok (VDict [("grammar_score", VInt 25); ("vocabulary_score", VInt 0);
                 ("fluency_score", VFloat (Fin 12.5));
                 ("comprehension_score", VBool true);
                 ("overall_score", VFloat (Fin 38.5));
                 ("proficiency_level", VStr "A1");
                 ("detailed_feedback", VDict []);
                 ("evaluation_method", VStr "LLM-based")]) /\
  clamped_to 0 25 (VInt 30) (VInt 25) /\
  clamped_to 0 25 (VInt (-2)) (VInt 0) /\
  clamped_to 0 25 (VFloat (Fin 12.5)) (VFloat (Fin 12.5)) /\
  clamped_to 0 25 (VBool true) (VBool true) /\
  score_in 0 100 (VFloat (Fin 38.5)).
Proof.
  destruct (llm_scores_clamped_and_summed (Sample.answers Sample.mixed_scores)
              Sample.json_loads Sample.service "hello there" None None)
    as (_ & H & _).
  destruct (H Sample.mixed_scores
              (VDict [("grammar_score", VInt 30); ("vocabulary_score", VInt (-2));
                      ("fluency_score", VFloat (Fin 12.5));
                      ("comprehension_score", VBool true)])
              (VInt 30) (VInt (-2)) (VFloat (Fin 12.5)) (VBool true)
              (NInt 30) (NInt (-2)) (NFloat (Fin 12.5)) (NInt 1))
    as (g & v & f & c & o & lvl & fb & E & Kg & Kv & Kf & Kc & S & B & Hl & Hf);
    try (vm_compute; reflexivity).
  assert (E' := E). vm_compute in E'.
  injection E' as Eg Ev Ef Ec Eo El Efb. subst g v f c o lvl fb.
  split; [exact E|]. split; [exact Kg|]. split; [exact Kv|].
  split; [exact Kf|]. split; [exact Kc | exact B].
Defined.

(** C4.  The rule-based scoring is a function of the text alone: two services
    in different states give the same fallback evaluation (scores, level and
    feedback) and the same comprehension score for the same text and
    context, and the comprehension analysis always returns.  More, the
    fallback evaluation depends on the text through its number of words
    only, and the comprehension score through its [statistics] only: the
    numbers of words, of parts between full stops and of words longer than
    five characters, and whether a transition word, a conjunction or a
    relative pronoun occurs.  The context plays no part. *)
Theorem heuristic_scoring_deterministic :
  forall (Tokenizer Model : Type)
         (self1 self2 : LLaMA.LLaMAAnalysisService Tokenizer Model)
         (text1 text2 : string) (context1 context2 : option string),
    LLaMA._fallback_evaluation self1 text1 = LLaMA._fallback_evaluation self2 text1 /\
    LLaMA._enhanced_comprehension_analysis self1 text1 context1 =
      LLaMA._enhanced_comprehension_analysis self2 text1 context1 /\
    (exists score,
       LLaMA._enhanced_comprehension_analysis self1 text1 context1 = Ok score) /\
    (List.length (PyStr.split text1) = List.length (PyStr.split text2) ->
     LLaMA._fallback_evaluation self1 text1 = LLaMA._fallback_evaluation self2 text2) /\
    (statistics text1 = statistics text2 ->
     LLaMA._enhanced_comprehension_analysis self1 text1 context1 =
       LLaMA._enhanced_comprehension_analysis self2 text2 context2).
Proof.
  intros Tokenizer Model self1 self2 text1 text2 context1 context2.
  split; [reflexivity|].
  split; [reflexivity|].
  split; [apply comprehension_returns|].
  split.
  - intros H. unfold LLaMA._fallback_evaluation. rewrite H. reflexivity.
  - apply comprehension_of_statistics.
Qed.

(** A concrete run of the statement above. *)
Lemma heuristic_scoring_deterministic_witness :
  let self1 := {| LLaMA.model_name := "microsoft/DialoGPT-medium"; LLaMA.device := "cpu";
                  LLaMA.model := tt; LLaMA.tokenizer := tt |} in
  let self2 := {| LLaMA.model_name := "gpt2"; LLaMA.device := "cuda";
                  LLaMA.model := tt; LLaMA.tokenizer := tt |} in
  LLaMA._fallback_evaluation self1 "I like green apples" =
    LLaMA._fallback_evaluation self2 "We met them yesterday" /\
  LLaMA._enhanced_comprehension_analysis self1 "I like green apples" None =
    LLaMA._enhanced_comprehension_analysis self2 "We  saw  brown horses" (Some "Farm").
Proof.
  cbv zeta.
  destruct (heuristic_scoring_deterministic
    {| LLaMA.model_name := "microsoft/DialoGPT-medium"; LLaMA.device := "cpu";
       LLaMA.model := tt; LLaMA.tokenizer := tt |}
    {| LLaMA.model_name := "gpt2"; LLaMA.device := "cuda";
       LLaMA.model := tt; LLaMA.tokenizer := tt |}
    "I like green apples" "We met them yesterday" None None) as (_ & _ & _ & H & _).
  destruct (heuristic_scoring_deterministic
    {| LLaMA.model_name := "microsoft/DialoGPT-medium"; LLaMA.device := "cpu";
       LLaMA.model := tt; LLaMA.tokenizer := tt |}
    {| LLaMA.model_name := "gpt2"; LLaMA.device := "cuda";
       LLaMA.model := tt; LLaMA.tokenizer := tt |}
    "I like green apples" "We  saw  brown horses" None (Some "Farm")) as (_ & _ & _ & _ & H').
  split; [apply H; vm_compute; reflexivity | apply H'; vm_compute; reflexivity].
Defined.

(** C5.  The test endpoint answers with the analysis of the GPT service when
    [USE_GPT_ANALYSIS] is true and [OPENAI_API_KEY] is set (a text that is
    not empty, by Python's truth value), and the LLaMA service then plays no
    part; otherwise it answers with the analysis of the LLaMA service, and
    the GPT service plays no part.  [GPTAnalysisService.analyze_conversation]
    raises [RuntimeError] when the service has no client, which is the case
    of a service made without a key. *)
Theorem analysis_service_selected_by_configuration :
  forall (Tokenizer Model Client : Type)
         (generate_and_decode : Tokenizer -> Model -> string -> Z -> M string)
         (chat_completions_create : Client -> string -> string -> string -> M (option string))
         (json_loads : string -> M pyval)
         (repr_float : pyfloat -> string) (exn_str : exn -> string)
         (settings : Main.Settings)
         (llama_service llama_service' : LLaMA.LLaMAAnalysisService Tokenizer Model)
         (gpt_service gpt_service' : GPT.GPTAnalysisService Client)
         (transcript : string) (context : option string) (audio_duration : option pyfloat),
    let endpoint :=
      Main.test_analyze_conversation generate_and_decode chat_completions_create
        json_loads repr_float exn_str settings in
    let gpt_analysis :=
      GPT.analyze_conversation chat_completions_create json_loads repr_float
        gpt_service transcript (str_or context "General conversation") audio_duration in
    let llama_analysis :=
      LLaMA.analyze_conversation generate_and_decode json_loads
        llama_service transcript context audio_duration in
    let failed e := Raise (HTTPException 500 ("Analysis failed: " ++ exn_str e)) in
    let uses_gpt :=
      Main.USE_GPT_ANALYSIS settings = true /\ key_is_set (Main.OPENAI_API_KEY settings) in
    (uses_gpt ->
       endpoint llama_service gpt_service transcript context audio_duration =
         try_except (bind gpt_analysis (fun r => Ok (Main.response r))) failed /\
       endpoint llama_service gpt_service transcript context audio_duration =
         endpoint llama_service' gpt_service transcript context audio_duration) /\
    (~ uses_gpt ->
       endpoint llama_service gpt_service transcript context audio_duration =
         try_except (bind llama_analysis (fun r => Ok (Main.response r))) failed /\
       endpoint llama_service gpt_service transcript context audio_duration =
         endpoint llama_service gpt_service' transcript context audio_duration) /\
    (GPT.client gpt_service = None ->
       gpt_analysis =
         Raise (RuntimeError "GPT client not initialized. Please provide OpenAI API key.")) /\
    (forall (available : bool) (make_client : string -> Client)
            (key : option string) (model_name : string),
       available = false \/ ~ key_is_set key ->
       GPT.client (GPT.init available make_client key model_name) = None).
Proof.
  intros Tokenizer Model Client gen chat loads repr exn_str settings llama llama' gpt gpt'
         transcript context dur endpoint gpt_analysis llama_analysis failed uses_gpt.
  assert (C : Main.USE_GPT_ANALYSIS settings && truthy_str (Main.OPENAI_API_KEY settings) = true
              <-> uses_gpt).
  { subst uses_gpt. rewrite andb_true_iff, truthy_str_set. reflexivity. }
  subst endpoint. unfold Main.test_analyze_conversation.
  split; [|split; [|split]].
  - intros U. apply C in U. rewrite U. split; reflexivity.
  - intros U.
    destruct (Main.USE_GPT_ANALYSIS settings && truthy_str (Main.OPENAI_API_KEY settings));
      [exfalso; apply U, C; reflexivity | split; reflexivity].
  - intros N. subst gpt_analysis. unfold GPT.analyze_conversation. rewrite N. reflexivity.
  - intros available make_client key model_name K. unfold GPT.init. cbn [GPT.client].
    destruct (available && truthy_str key) eqn:E; [|reflexivity].
    apply andb_true_iff in E. destruct E as [A T]. apply truthy_str_set in T.
    destruct K as [K|K]; [congruence | contradiction].
Qed.

(** A concrete run of the statement above. *)
Lemma analysis_service_selected_by_configuration_witness :
  let with_key := {| Main.USE_GPT_ANALYSIS := true;
                     Main.OPENAI_API_KEY := Some "sk-test";
                     Main.GPT_MODEL := "gpt-3.5-turbo" |} in
  let without_key := {| Main.USE_GPT_ANALYSIS := true;
                        Main.OPENAI_API_KEY := None;
                        Main.GPT_MODEL := "gpt-3.5-turbo" |} in
  let no_client : GPT.GPTAnalysisService unit :=
    GPT.init false (fun _ => tt) (Some "sk-test") "gpt-3.5-turbo" in
  let chat : unit -> string -> string -> string -> M (option string) :=
    fun _ _ _ _ => Ok None in
  let repr : pyfloat -> string := fun _ => "30.0" in
  let exn_str : exn -> string :=
    fun e => match e with RuntimeError msg => msg | _ => "" end in
  Main.test_analyze_conversation Sample.out_of_memory chat Sample.json_loads repr exn_str
    with_key Sample.service no_client "hello there" None None
  = Raise (HTTPException 500
      "Analysis failed: GPT client not initialized. Please provide OpenAI API key.") /\
  Main.test_analyze_conversation Sample.out_of_memory chat Sample.json_loads repr exn_str
    without_key Sample.service no_client "hello there" None None
  = try_except
      (bind (LLaMA.analyze_conversation Sample.out_of_memory Sample.json_loads
               Sample.service "hello there" None None)
            (fun r => Ok (Main.response r)))
      (fun e => Raise (HTTPException 500 ("Analysis failed: " ++ exn_str e))).
Proof.
  cbv zeta. split.
  - destruct (analysis_service_selected_by_configuration
                Sample.out_of_memory (fun _ _ _ _ => Ok None) Sample.json_loads
                (fun _ => "30.0")
                (fun e => match e with RuntimeError msg => msg | _ => "" end)
                {| Main.USE_GPT_ANALYSIS := true; Main.OPENAI_API_KEY := Some "sk-test";
                   Main.GPT_MODEL := "gpt-3.5-turbo" |}
                Sample.service Sample.service
                (GPT.init false (fun _ => tt) (Some "sk-test") "gpt-3.5-turbo")
                (GPT.init false (fun _ => tt) (Some "sk-test") "gpt-3.5-turbo")
                "hello there" None None) as (H & _ & R & _).
    destruct H as (H & _).
    + split; [reflexivity|]. exists "sk-test". split; [reflexivity | discriminate].
    + rewrite H, R by reflexivity. reflexivity.
  - destruct (analysis_service_selected_by_configuration
                Sample.out_of_memory (fun _ _ _ _ => Ok None) Sample.json_loads
                (fun _ => "30.0")
                (fun e => match e with RuntimeError msg => msg | _ => "" end)
                {| Main.USE_GPT_ANALYSIS := true; Main.OPENAI_API_KEY := None;
                   Main.GPT_MODEL := "gpt-3.5-turbo" |}
                Sample.service Sample.service
                (GPT.init false (fun _ => tt) (Some "sk-test") "gpt-3.5-turbo")
                (GPT.init false (fun _ => tt) (Some "sk-test") "gpt-3.5-turbo")
                "hello there" None None) as (_ & H & _).
    destruct H as (H & _).
    + intros (_ & k & E & _). discriminate.
    + exact H.
Defined.

(** C6, as stated, fails: this text holds no JSON object and no score pattern,
    yet [_fallback_parse] does not return the defaults, because the pattern
    of the proficiency level matches and the level found replaces B1. *)
Lemma fallback_parse_level_counterexample :
  let text := "Proficiency level: C2" in
  Re.search GPT.json_pattern text = None /\
  Forall (fun kind => Re.search (GPT.score_pattern kind) text = None) score_types /\
  GPT._fallback_parse text <> Ok fallback_defaults /\
  exists d, GPT._fallback_parse text = Ok d /\
            field "proficiency_level" d = Some (VStr "C2").
Proof.
  cbv zeta. split; [vm_compute; reflexivity|].
  split; [repeat constructor; vm_compute; reflexivity|].
  split; [vm_compute; discriminate|].
  eexists. split; vm_compute; reflexivity.
Qed.

(** C6, amended.  When no score pattern and no proficiency-level pattern
    matches the text, [_fallback_parse] returns exactly the defaults: overall
    50.0, grammar 12.5, vocabulary 10.0, fluency 10.0, pronunciation 7.5,
    comprehension 10.0, level B1, no grammar errors and no vocabulary
    analysis.  When the pattern of a score matches, the number it captured
    is the score returned.  [_parse_gpt_response] hands a text over to
    [_fallback_parse] when it holds no braces or when what the braces hold
    is not JSON. *)
Theorem fallback_parse_defaults :
  forall (text : string),
    (Forall (fun kind => Re.search (GPT.score_pattern kind) text = None) score_types ->
     Re.search GPT.level_pattern text = None ->
     GPT._fallback_parse text = Ok fallback_defaults) /\
    (field "overall_score" fallback_defaults = Some (VFloat (Fin 50.0)) /\
     field "grammar_score" fallback_defaults = Some (VFloat (Fin 12.5)) /\
     field "vocabulary_score" fallback_defaults = Some (VFloat (Fin 10.0)) /\
     field "fluency_score" fallback_defaults = Some (VFloat (Fin 10.0)) /\
     field "pronunciation_score" fallback_defaults = Some (VFloat (Fin 7.5)) /\
     field "comprehension_score" fallback_defaults = Some (VFloat (Fin 10.0)) /\
     field "proficiency_level" fallback_defaults = Some (VStr "B1") /\
     field "grammar_errors" fallback_defaults = Some (VList []) /\
     field "vocabulary_analysis" fallback_defaults = Some (VList [])) /\
    (forall kind m,
       In kind score_types ->
       Re.search (GPT.score_pattern kind) text = Some m ->
       exists digits x d,
         Re.group1 m = Some digits /\ GPT.py_float digits = Ok x /\
         GPT._fallback_parse text = Ok d /\
         field (kind ++ "_score") d = Some (VFloat x)) /\
    (forall (Client : Type) (json_loads : string -> M pyval)
            (self : GPT.GPTAnalysisService Client),
       (Re.search GPT.json_pattern text = None \/
        exists jm, Re.search GPT.json_pattern text = Some jm /\
                   json_loads (Re.group0 jm) = Raise JSONDecodeError) ->
       GPT._parse_gpt_response json_loads self (Some text) = GPT._fallback_parse text).
Proof.
  intros text. split; [|split; [|split]].
  - intros H L. unfold score_types in H.
    repeat match goal with H : Forall _ (_ :: _) |- _ => inversion H; clear H; subst end.
    unfold GPT._fallback_parse, GPT.find_level.
    rewrite !find_score_none by assumption. rewrite L. reflexivity.
  - repeat split; reflexivity.
  - intros kind m Hin S.
    destruct (score_pattern_group _ _ S) as (digits & x & G & F).
    pose proof (find_score_some _ _ S G F) as K.
    exists digits, x. unfold GPT._fallback_parse.
    all_scores text.
    unfold score_types in Hin. cbn [In] in Hin.
    decompose [or] Hin; try contradiction; subst kind;
      rewrite Ho, Hg, Hv, Hf, Hp, Hc in *; injection K as ->;
      eexists; (split; [exact G|]); (split; [exact F|]); (split; [reflexivity|]);
      reflexivity.
  - intros Client loads self H. unfold GPT._parse_gpt_response.
    destruct H as [H|(jm & H & J)]; rewrite H; cbn [try_except_only].
    + destruct (GPT._fallback_parse text) as [d|e]; cbn;
        [|destruct (is_JSONDecodeError e)]; reflexivity.
    + rewrite J. reflexivity.
Qed.

(** A concrete run of the statement above. *)
Lemma fallback_parse_defaults_witness :
  GPT._fallback_parse "The answer was short and clear." = Ok fallback_defaults /\
  (exists d,
     GPT._fallback_parse "Grammar score: 18.5, fluency is fine" = Ok d /\
     field "grammar_score" d = Some (VFloat (Fin (185 # 10))) /\
     field "fluency_score" d = Some (VFloat (Fin 10.0))).
Proof.
  split.
  - apply (fallback_parse_defaults "The answer was short and clear.").
    + repeat constructor; vm_compute; reflexivity.
    + vm_compute; reflexivity.
  - destruct (fallback_parse_defaults "Grammar score: 18.5, fluency is fine")
      as (_ & _ & H & _).
    destruct (H "grammar" {| Re.group0 := "Grammar score: 18.5"; Re.group1 := Some "18.5" |})
      as (digits & x & d & G & F & P & S).
    + cbn; tauto.
    + vm_compute; reflexivity.
    + exists d. split; [exact P|].
      cbn [Re.group1] in G. injection G as <-.
      assert (X : x = Fin (185 # 10)) by (vm_compute in F; congruence).
      subst x. split; [exact S|].
      assert (E : GPT._fallback_parse "Grammar score: 18.5, fluency is fine" = Ok d)
        by exact P.
      vm_compute in E. injection E as <-. reflexivity.
Defined.

(** C7, as stated, fails: the model answers with JSON whose
    [detailed_feedback] is a text.  [_llm_based_evaluation] does not fall
    back, the [try] block of [analyze_conversation] raises, and the second
    handler answers with the fixed result (overall 5), which is not the
    rule-based one (overall 12 for these two words). *)
Lemma second_recovery_layer_counterexample :
  let evaluation :=
    LLaMA._llm_based_evaluation (Sample.answers Sample.feedback_as_text) Sample.json_loads
      Sample.service "hello there" None in
  let rule_based := LLaMA._fallback_evaluation Sample.service "hello there" in
  evaluation <> Ok rule_based /\
  LLaMA.analyze_conversation_try (Sample.answers Sample.feedback_as_text) Sample.json_loads
    Sample.service "hello there" None None = Raise AttributeError /\
  LLaMA.analyze_conversation (Sample.answers Sample.feedback_as_text) Sample.json_loads
    Sample.service "hello there" None None = Ok LLaMA.analysis_failed /\
  field "overall_score" rule_based = Some (VInt 12) /\
  LLaMA.overall_score LLaMA.analysis_failed = VInt 5.
Proof.
  cbv zeta. split; [vm_compute; discriminate|].
  repeat split; vm_compute; reflexivity.
Qed.

(** C7, amended.  Recovery has two nested layers.  When the generation raises
    or its output is not JSON, [_llm_based_evaluation] substitutes the
    rule-based fallback evaluation, the [try] block of [analyze_conversation]
    then does not raise, and the result carries the fallback scores.  When
    the [try] block of [analyze_conversation] raises, its own handler
    substitutes the fixed result; this is what happens when the
    [detailed_feedback] of the evaluation is not a dictionary. *)
Theorem recovery_has_two_layers :
  forall (Tokenizer Model : Type)
         (generate_and_decode : Tokenizer -> Model -> string -> Z -> M string)
         (json_loads : string -> M pyval)
         (self : LLaMA.LLaMAAnalysisService Tokenizer Model)
         (transcript : string) (context : option string) (audio_duration : option pyfloat),
    let generated :=
      generate_and_decode (LLaMA.tokenizer self) (LLaMA.model self)
        (LLaMA.evaluation_prompt transcript context) 500 in
    let evaluation :=
      LLaMA._llm_based_evaluation generate_and_decode json_loads self transcript context in
    let attempt :=
      LLaMA.analyze_conversation_try generate_and_decode json_loads self
        transcript context audio_duration in
    let analysis :=
      LLaMA.analyze_conversation generate_and_decode json_loads self
        transcript context audio_duration in
    let rule_based := LLaMA._fallback_evaluation self transcript in
    ((exists e, generated = Raise e) \/
     (exists out, generated = Ok out /\
                  json_loads (PyStr.strip out) = Raise JSONDecodeError) ->
     evaluation = Ok rule_based /\
     exists r,
       attempt = Ok r /\ analysis = Ok r /\
       field "overall_score" rule_based = Some (LLaMA.overall_score r) /\
       field "grammar_score" rule_based = Some (LLaMA.grammar_score r) /\
       field "vocabulary_score" rule_based = Some (LLaMA.vocabulary_score r) /\
       field "fluency_score" rule_based = Some (LLaMA.fluency_score r) /\
       field "comprehension_score" rule_based = Some (LLaMA.comprehension_score r) /\
       field "proficiency_level" rule_based = Some (LLaMA.proficiency_level r)) /\
    (forall e, attempt = Raise e -> analysis = Ok LLaMA.analysis_failed) /\
    (forall ev feedback,
       evaluation = Ok ev ->
       field "detailed_feedback" ev = Some feedback ->
       (forall d, feedback <> VDict d) ->
       attempt = Raise AttributeError /\ analysis = Ok LLaMA.analysis_failed).
Proof.
  intros Tokenizer Model gen loads self transcript context dur
         generated evaluation attempt analysis rule_based.
  split; [|split].
  - intros H.
    assert (F : evaluation = Ok rule_based).
    { subst evaluation. unfold LLaMA._llm_based_evaluation.
      destruct H as [(e & G)|(out & G & J)].
      - rewrite (generate_raises gen self _ _ G). reflexivity.
      - rewrite (generate_returns gen self _ _ G). cbn [bind]. rewrite J. reflexivity. }
    split; [exact F|].
    apply analyze_try_after_fallback. exact F.
  - intros e T. subst analysis. unfold LLaMA.analyze_conversation.
    fold attempt. rewrite T. reflexivity.
  - intros ev feedback E Fb N.
    assert (T : attempt = Raise AttributeError).
    { subst attempt evaluation.
      destruct (llm_based_evaluation_cases gen loads self transcript context) as [F|F].
      - destruct (fallback_evaluation_shape self transcript) as (b & lvl & fb & S & _).
        rewrite F, S in E. injection E as <-.
        cbn in Fb. injection Fb as <-. exfalso. apply (N fb). reflexivity.
      - destruct F as (response & data & g & v & f & c & o & lvl & fb & xg & xv & xf & xc & F).
        repeat (destruct F as (_ & F)).
        assert (F' := F). rewrite E in F'. injection F' as ->.
        cbn in Fb. injection Fb as <-.
        destruct (analyze_try_of_evaluation gen loads self transcript context dur F)
          as [(d & D & _)|[_ R]]; [exfalso; apply (N d); exact D | exact R]. }
    split; [exact T|]. subst analysis. unfold LLaMA.analyze_conversation.
    fold attempt. rewrite T. reflexivity.
Qed.

(** A concrete run of the statement above. *)
Lemma recovery_has_two_layers_witness :
  (exists r,
     LLaMA.analyze_conversation Sample.out_of_memory Sample.json_loads
       Sample.service "hello there" None None = Ok r /\
     LLaMA.overall_score r = VInt 12) /\
  (exists r,
     LLaMA.analyze_conversation (Sample.answers Sample.prose) Sample.json_loads
       Sample.service "hello there" None None = Ok r /\
     LLaMA.overall_score r = VInt 12) /\
  LLaMA.analyze_conversation (Sample.answers Sample.feedback_as_text) Sample.json_loads
    Sample.service "hello there" None None = Ok LLaMA.analysis_failed.
Proof.
  split; [|split].
  - destruct (recovery_has_two_layers Sample.out_of_memory Sample.json_loads
                Sample.service "hello there" None None) as (H & _).
    destruct H as (_ & r & _ & A & O & _).
    + left. eexists. reflexivity.
    + exists r. split; [exact A|].
      assert (E : field "overall_score"
                    (LLaMA._fallback_evaluation Sample.service "hello there")
                  = Some (VInt 12)) by (vm_compute; reflexivity).
      rewrite E in O. injection O as <-. reflexivity.
  - destruct (recovery_has_two_layers (Sample.answers Sample.prose) Sample.json_loads
                Sample.service "hello there" None None) as (H & _).
    destruct H as (_ & r & _ & A & O & _).
    + right. eexists. split; [reflexivity | vm_compute; reflexivity].
    + exists r. split; [exact A|].
      assert (E : field "overall_score"
                    (LLaMA._fallback_evaluation Sample.service "hello there")
                  = Some (VInt 12)) by (vm_compute; reflexivity).
      rewrite E in O. injection O as <-. reflexivity.
  - destruct (recovery_has_two_layers (Sample.answers Sample.feedback_as_text)
                Sample.json_loads Sample.service "hello there" None None) as (_ & _ & H).
    eapply H; [vm_compute; reflexivity | vm_compute; reflexivity | intros d; discriminate].
Defined.

(** C8.  If one of the five statements of [get_user_progress] raises, the
    dictionary returned is exactly the default one: no conversation, average
    0.0, level A1, no date and five empty trends.  On the successful path,
    when the average and the latest level are NULL, as they are for a user
    without evaluation, the average reported is 0.0 and the level A1. *)
Theorem progress_defaults :
  forall (Session UUID : Type)
         (count_conversations average_overall_score latest_proficiency_level
            last_conversation_created_at : Session -> UUID -> M pyval)
         (last_ten_evaluations : Session -> UUID -> M (list ConversationService.trend_row))
         (user_id : UUID) (db : Session),
    let progress :=
      ConversationService.get_user_progress count_conversations average_overall_score
        latest_proficiency_level last_conversation_created_at last_ten_evaluations
        user_id db in
    ((exists e,
        count_conversations db user_id = Raise e \/
        average_overall_score db user_id = Raise e \/
        latest_proficiency_level db user_id = Raise e \/
        last_conversation_created_at db user_id = Raise e \/
        last_ten_evaluations db user_id = Raise e) ->
     progress = Ok ConversationService.no_progress) /\
    ConversationService.no_progress =
      VDict [("total_conversations", VInt 0);
             ("average_score", VFloat (Fin 0.0));
             ("current_level", VStr "A1");
             ("last_conversation_date", VNone);
             ("grammar_trend", VList []);
             ("vocabulary_trend", VList []);
             ("fluency_trend", VList []);
             ("pronunciation_trend", VList []);
             ("comprehension_trend", VList [])] /\
    (forall total last,
       count_conversations db user_id = Ok total ->
       average_overall_score db user_id = Ok VNone ->
       latest_proficiency_level db user_id = Ok VNone ->
       last_conversation_created_at db user_id = Ok last ->
       last_ten_evaluations db user_id = Ok [] ->
       exists d average,
         progress = Ok d /\
         field "average_score" d = Some (VFloat average) /\
         float_eq average (Fin 0.0) = true /\
         field "current_level" d = Some (VStr "A1")).
Proof.
  intros Session UUID q1 q2 q3 q4 q5 user_id db progress.
  split; [apply progress_failure|]. split; [reflexivity|].
  intros total last H1 H2 H3 H4 H5. subst progress.
  unfold ConversationService.get_user_progress.
  rewrite H1, H2, H3, H4, H5. cbn.
  do 2 eexists. split; [reflexivity|]. cbn. repeat split; reflexivity.
Qed.

(** A concrete run of the statement above. *)
Lemma progress_defaults_witness :
  let fails : unit -> nat -> M pyval := fun _ _ => Raise (OtherError "connection closed") in
  let none : unit -> nat -> M pyval := fun _ _ => Ok VNone in
  let zero : unit -> nat -> M pyval := fun _ _ => Ok (VInt 0) in
  let no_rows : unit -> nat -> M (list ConversationService.trend_row) := fun _ _ => Ok [] in
  ConversationService.get_user_progress zero fails none none no_rows 7%nat tt
    = Ok ConversationService.no_progress /\
  exists d average,
    ConversationService.get_user_progress zero none none none no_rows 7%nat tt = Ok d /\
    field "average_score" d = Some (VFloat average) /\
    float_eq average (Fin 0.0) = true /\
    field "current_level" d = Some (VStr "A1").
Proof.
  cbv zeta. split.
  - destruct (progress_defaults (fun _ _ => Ok (VInt 0))
                (fun _ _ => Raise (OtherError "connection closed"))
                (fun _ _ => Ok VNone) (fun _ _ => Ok VNone)
                (fun (_ : unit) (_ : nat) => Ok (@nil ConversationService.trend_row))
                7%nat tt) as (H & _).
    apply H. exists (OtherError "connection closed"). right. left. reflexivity.
  - destruct (progress_defaults (fun _ _ => Ok (VInt 0)) (fun _ _ => Ok VNone)
                (fun _ _ => Ok VNone) (fun _ _ => Ok VNone)
                (fun (_ : unit) (_ : nat) => Ok (@nil ConversationService.trend_row))
                7%nat tt) as (_ & _ & H).
    apply (H (VInt 0) VNone); reflexivity.
Defined.

(** C9.  The scores can leave the bounds of [AnalysisResponse]: on a text of
    180 common words [_analyze_vocabulary] returns 27, above the 20 of the
    schema and of its own comment; and on an answer of the model with 25, 24
    and 23 for vocabulary, fluency and comprehension, the LLM-based
    evaluation keeps these scores, above the 20 of the schema. *)
Theorem scores_exceed_response_schema :
  let vocabulary := LLaMA._analyze_vocabulary Sample.service Sample.long_text in
  let evaluation :=
    LLaMA._llm_based_evaluation (Sample.answers Sample.high_scores) Sample.json_loads
      Sample.service "hello there" None in
  (exists d score,
     vocabulary = Ok d /\ field "score" d = Some (VFloat (Fin score)) /\
     (score == 27)%Q /\ (20 < score)%Q) /\
  (exists ev,
     evaluation = Ok ev /\
     field "evaluation_method" ev = Some (VStr "LLM-based") /\
     field "vocabulary_score" ev = Some (VInt 25) /\
     field "fluency_score" ev = Some (VInt 24) /\
     field "comprehension_score" ev = Some (VInt 23) /\
     20 < 23).
Proof.
  cbv zeta. split.
  - do 2 eexists. split; [vm_compute; reflexivity|].
    split; [reflexivity|]. split; [reflexivity | reflexivity].
  - eexists. split; [vm_compute; reflexivity|].
    repeat split; reflexivity.
Qed.

(** C10.  [_determine_proficiency_level] returns one of the six CEFR levels
    for every score, NaN and the infinities included; the level is decided
    by the thresholds 15, 25, 40, 55 and 70; and a greater score never gets
    a lower level. *)
Theorem proficiency_level_total_and_monotone :
  forall (Tokenizer Model : Type) (self : LLaMA.LLaMAAnalysisService Tokenizer Model),
    let level := LLaMA._determine_proficiency_level self in
    (forall s, In (level s) ["A1"; "A2"; "B1"; "B2"; "C1"; "C2"]) /\
    (forall s,
       (level s = "C2" <-> num_ge s (NInt 70) = true) /\
       (level s = "C1" <-> num_ge s (NInt 55) = true /\ num_ge s (NInt 70) = false) /\
       (level s = "B2" <-> num_ge s (NInt 40) = true /\ num_ge s (NInt 55) = false) /\
       (level s = "B1" <-> num_ge s (NInt 25) = true /\ num_ge s (NInt 40) = false) /\
       (level s = "A2" <-> num_ge s (NInt 15) = true /\ num_ge s (NInt 25) = false) /\
       (level s = "A1" <-> num_ge s (NInt 15) = false)) /\
    (forall q : Q,
       let level_q := level (NFloat (Fin q)) in
       ((70 <= q)%Q -> level_q = "C2") /\
       ((55 <= q < 70)%Q -> level_q = "C1") /\
       ((40 <= q < 55)%Q -> level_q = "B2") /\
       ((25 <= q < 40)%Q -> level_q = "B1") /\
       ((15 <= q < 25)%Q -> level_q = "A2") /\
       ((q < 15)%Q -> level_q = "A1")) /\
    (forall s1 s2, num_le s1 s2 = true ->
       exists r1 r2, cefr_rank (level s1) = Some r1 /\ cefr_rank (level s2) = Some r2 /\
                     (r1 <= r2)%nat).
Proof.
  intros Tokenizer Model self level.
  assert (down : forall s (k k' : Z), k' <= k ->
            num_ge s (NInt k) = true -> num_ge s (NInt k') = true).
  { intros s k k' Hk H. unfold num_ge in *.
    apply (num_le_trans (NInt k') (NInt k) s); [|exact H].
    unfold num_le, num_lt, num_eq. apply orb_true_iff.
    destruct (Z.eq_dec k' k); [right; apply Z.eqb_eq | left; apply Z.ltb_lt]; lia. }
  assert (up : forall s1 s2 (k : Z), num_le s1 s2 = true ->
            num_ge s1 (NInt k) = true -> num_ge s2 (NInt k) = true).
  { intros s1 s2 k H12 H. unfold num_ge in *. exact (num_le_trans _ _ _ H H12). }
  split; [|split; [|split]].
  - intros s. subst level. unfold LLaMA._determine_proficiency_level.
    repeat match goal with |- context [if ?c then _ else _] => destruct c end;
      cbn; tauto.
  - intros s. subst level. unfold LLaMA._determine_proficiency_level.
    pose proof (down s 70 55 ltac:(lia)) as D1.
    pose proof (down s 55 40 ltac:(lia)) as D2.
    pose proof (down s 40 25 ltac:(lia)) as D3.
    pose proof (down s 25 15 ltac:(lia)) as D4.
    destruct (num_ge s (NInt 70)) eqn:E70;
    destruct (num_ge s (NInt 55)) eqn:E55;
    destruct (num_ge s (NInt 40)) eqn:E40;
    destruct (num_ge s (NInt 25)) eqn:E25;
    destruct (num_ge s (NInt 15)) eqn:E15;
    try (specialize (D1 eq_refl); discriminate);
    try (specialize (D2 eq_refl); discriminate);
    try (specialize (D3 eq_refl); discriminate);
    try (specialize (D4 eq_refl); discriminate);
    repeat split; intros; try discriminate; try reflexivity;
    repeat match goal with H : _ /\ _ |- _ => destruct H end; try discriminate.
  - intros q. apply proficiency_level_of_rational.
  - intros s1 s2 H12. subst level. unfold LLaMA._determine_proficiency_level.
    pose proof (up s1 s2 70 H12) as U70. pose proof (up s1 s2 55 H12) as U55.
    pose proof (up s1 s2 40 H12) as U40. pose proof (up s1 s2 25 H12) as U25.
    pose proof (up s1 s2 15 H12) as U15.
    pose proof (down s2 70 55 ltac:(lia)) as D1.
    pose proof (down s2 55 40 ltac:(lia)) as D2.
    pose proof (down s2 40 25 ltac:(lia)) as D3.
    pose proof (down s2 25 15 ltac:(lia)) as D4.
    destruct (num_ge s1 (NInt 70)); [rewrite (U70 eq_refl); ranks|].
    destruct (num_ge s1 (NInt 55)).
    { specialize (U55 eq_refl). rewrite U55.
      destruct (num_ge s2 (NInt 70)); ranks. }
    destruct (num_ge s1 (NInt 40)).
    { specialize (U40 eq_refl). rewrite U40.
      destruct (num_ge s2 (NInt 70)); [ranks|].
      destruct (num_ge s2 (NInt 55)); ranks. }
    destruct (num_ge s1 (NInt 25)).
    { specialize (U25 eq_refl). rewrite U25.
      destruct (num_ge s2 (NInt 70)); [ranks|].
      destruct (num_ge s2 (NInt 55)); [ranks|].
      destruct (num_ge s2 (NInt 40)); ranks. }
    destruct (num_ge s1 (NInt 15)).
    { specialize (U15 eq_refl). rewrite U15.
      destruct (num_ge s2 (NInt 70)); [ranks|].
      destruct (num_ge s2 (NInt 55)); [ranks|].
      destruct (num_ge s2 (NInt 40)); [ranks|].
      destruct (num_ge s2 (NInt 25)); ranks. }
    repeat match goal with |- context [if ?c then _ else _] => destruct c end;
      ranks.
Qed.

(** A concrete run of the statement above. *)
Lemma proficiency_level_total_and_monotone_witness :
  exists r1 r2,
    cefr_rank (LLaMA._determine_proficiency_level Sample.service (NFloat (Fin 20.5)))
      = Some r1 /\
    cefr_rank (LLaMA._determine_proficiency_level Sample.service (NInt 62)) = Some r2 /\
    (r1 <= r2)%nat.
Proof.
  destruct (proficiency_level_total_and_monotone Sample.service) as (_ & _ & _ & H).
  apply H. vm_compute. reflexivity.
Defined.

(* ================================================================== *)
(** ** Further properties of the services: lemmas *)

(* ------------------------------------------------------------------ *)
(** *** Interval arithmetic on the numbers of Python *)

Lemma finite_int (z : Z) : finite_in (inject_Z z) (inject_Z z) (NInt z).
Proof. exists (inject_Z z). split; [reflexivity | lra]. Qed.

Lemma finite_fl (q : Q) : finite_in q q (LLaMA.fl q).
Proof. exists q. split; [reflexivity | lra]. Qed.

Lemma finite_int_in (lo hi : Q) (z : Z) :
  (lo <= inject_Z z <= hi)%Q -> finite_in lo hi (NInt z).
Proof. intros H. exists (inject_Z z). split; [reflexivity | exact H]. Qed.

Lemma finite_weaken (lo hi lo' hi' : Q) (n : num) :
  finite_in lo hi n -> (lo' <= lo)%Q -> (hi <= hi')%Q -> finite_in lo' hi' n.
Proof. intros (q & E & B) Hl Hh. exists q. split; [exact E | lra]. Qed.

Lemma finite_add (la ha lb hb : Q) (a b : num) :
  finite_in la ha a -> finite_in lb hb b -> finite_in (la + lb) (ha + hb) (num_add a b).
Proof.
  intros (qa & Ea & Ba) (qb & Eb & Bb).
  destruct (num_add_fin _ _ Ea Eb) as (q & E & Hq).
  exists q. split; [exact E | rewrite Hq; lra].
Qed.

Lemma num_sub_fin (a b : num) (qa qb : Q) :
  to_float a = Fin qa -> to_float b = Fin qb ->
  exists q, to_float (num_sub a b) = Fin q /\ (q == qa - qb)%Q.
Proof.
  intros Ha Hb. destruct a as [x|fa], b as [y|fb]; cbn in *; subst;
    try (injection Ha as <-); try (injection Hb as <-).
  - exists (inject_Z (x - y)). split; [reflexivity|].
    unfold Z.sub. rewrite inject_Z_plus, inject_Z_opp. reflexivity.
  - eexists; split; reflexivity.
  - eexists; split; reflexivity.
  - eexists; split; reflexivity.
Qed.

Lemma finite_sub (la ha lb hb : Q) (a b : num) :
  finite_in la ha a -> finite_in lb hb b -> finite_in (la - hb) (ha - lb) (num_sub a b).
Proof.
  intros (qa & Ea & Ba) (qb & Eb & Bb).
  destruct (num_sub_fin _ _ Ea Eb) as (q & E & Hq).
  exists q. split; [exact E | rewrite Hq; lra].
Qed.

Lemma num_mul_fin (a b : num) (qa qb : Q) :
  to_float a = Fin qa -> to_float b = Fin qb ->
  exists q, to_float (num_mul a b) = Fin q /\ (q == qa * qb)%Q.
Proof.
  intros Ha Hb. destruct a as [x|fa], b as [y|fb]; cbn in *; subst;
    try (injection Ha as <-); try (injection Hb as <-).
  - exists (inject_Z (x * y)). split; [reflexivity | rewrite inject_Z_mult; reflexivity].
  - eexists; split; reflexivity.
  - eexists; split; reflexivity.
  - eexists; split; reflexivity.
Qed.

(** The product with a factor that is not negative. *)
Lemma finite_mul (la ha c : Q) (a b : num) :
  finite_in la ha a -> finite_in c c b -> (0 <= c)%Q ->
  finite_in (la * c) (ha * c) (num_mul a b).
Proof.
  intros (qa & Ea & Ba) (qb & Eb & Bb) C.
  destruct (num_mul_fin _ _ Ea Eb) as (q & E & Hq).
  exists q. split; [exact E|]. rewrite Hq.
  assert (qb == c)%Q as -> by lra. nra.
Qed.

Lemma finite_mul_l (lb hb c : Q) (a b : num) :
  finite_in c c a -> finite_in lb hb b -> (0 <= c)%Q ->
  finite_in (c * lb) (c * hb) (num_mul a b).
Proof.
  intros (qa & Ea & Ba) (qb & Eb & Bb) C.
  destruct (num_mul_fin _ _ Ea Eb) as (q & E & Hq).
  exists q. split; [exact E|]. rewrite Hq.
  assert (qa == c)%Q as -> by lra. nra.
Qed.

(** The quotient by a divisor that is positive. *)
Lemma finite_div (la ha c lo hi : Q) (a b : num) :
  finite_in la ha a -> finite_in c c b -> (0 < c)%Q ->
  (lo * c <= la)%Q -> (ha <= hi * c)%Q ->
  exists r, num_truediv a b = Ok r /\ finite_in lo hi r.
Proof.
  intros (qa & Ea & Ba) (qb & Eb & Bb) C Hl Hh.
  assert (Qb : (qb == c)%Q) by lra.
  unfold num_truediv.
  assert (Z : num_eq b (NInt 0) = false).
  { apply not_true_iff_false. intros H.
    rewrite num_eq_float, Eb in H. cbn in H. apply Qeq_bool_iff in H.
    unfold inject_Z in H. lra. }
  rewrite Z, Ea, Eb. eexists. split; [reflexivity|].
  exists (qa / qb)%Q. split; [reflexivity|].
  assert (P : (0 < qb)%Q) by lra.
  split.
  - apply Qle_shift_div_l; [exact P|]. rewrite Qb. lra.
  - apply Qle_shift_div_r; [exact P|]. rewrite Qb. lra.
Qed.

Lemma finite_max (la ha lb hb lo hi : Q) (a b : num) :
  finite_in la ha a -> finite_in lb hb b ->
  (lo <= la \/ lo <= lb)%Q -> (ha <= hi)%Q -> (hb <= hi)%Q ->
  finite_in lo hi (num_max a b).
Proof.
  intros (qa & Ea & Ba) (qb & Eb & Bb) Hl Hh1 Hh2. unfold num_max.
  destruct (num_lt a b) eqn:L.
  - apply (num_lt_fin _ _ Ea Eb) in L. exists qb. split; [exact Eb|].
    destruct Hl; lra.
  - assert (N : ~ (qa < qb)%Q).
    { intros H. apply (num_lt_fin _ _ Ea Eb) in H. congruence. }
    exists qa. split; [exact Ea|]. destruct Hl; lra.
Qed.

Lemma finite_min (la ha lb hb lo hi : Q) (a b : num) :
  finite_in la ha a -> finite_in lb hb b ->
  (lo <= la)%Q -> (lo <= lb)%Q -> (ha <= hi \/ hb <= hi)%Q ->
  finite_in lo hi (num_min a b).
Proof.
  intros (qa & Ea & Ba) (qb & Eb & Bb) Hl1 Hl2 Hh. unfold num_min.
  destruct (num_lt b a) eqn:L.
  - apply (num_lt_fin _ _ Eb Ea) in L. exists qb. split; [exact Eb|].
    destruct Hh; lra.
  - assert (N : ~ (qb < qa)%Q).
    { intros H. apply (num_lt_fin _ _ Eb Ea) in H. congruence. }
    exists qa. split; [exact Ea|]. destruct Hh; lra.
Qed.

(** [max(a, b)] is [a] itself when [b] is not above it. *)
Lemma max_keeps (la ha lb hb : Q) (a b : num) :
  finite_in la ha a -> finite_in lb hb b -> (hb <= la)%Q -> num_max a b = a.
Proof.
  intros (qa & Ea & Ba) (qb & Eb & Bb) H. unfold num_max.
  destruct (num_lt a b) eqn:L; [|reflexivity].
  apply (num_lt_fin _ _ Ea Eb) in L. lra.
Qed.

Lemma max_takes (la ha lb hb : Q) (a b : num) :
  finite_in la ha a -> finite_in lb hb b -> (ha < lb)%Q -> num_max a b = b.
Proof.
  intros (qa & Ea & Ba) (qb & Eb & Bb) H. unfold num_max.
  destruct (num_lt a b) eqn:L; [reflexivity|].
  apply not_true_iff_false in L. exfalso. apply L.
  apply (num_lt_fin _ _ Ea Eb). lra.
Qed.

Lemma min_keeps (la ha lb hb : Q) (a b : num) :
  finite_in la ha a -> finite_in lb hb b -> (ha <= lb)%Q -> num_min a b = a.
Proof.
  intros (qa & Ea & Ba) (qb & Eb & Bb) H. unfold num_min.
  destruct (num_lt b a) eqn:L; [|reflexivity].
  apply (num_lt_fin _ _ Eb Ea) in L. lra.
Qed.

Lemma finite_lt_true (la ha lb hb : Q) (a b : num) :
  finite_in la ha a -> finite_in lb hb b -> (ha < lb)%Q -> num_lt a b = true.
Proof.
  intros (qa & Ea & Ba) (qb & Eb & Bb) H. apply (num_lt_fin _ _ Ea Eb). lra.
Qed.

Lemma finite_lt_false (la ha lb hb : Q) (a b : num) :
  finite_in la ha a -> finite_in lb hb b -> (hb <= la)%Q -> num_lt a b = false.
Proof.
  intros (qa & Ea & Ba) (qb & Eb & Bb) H. apply not_true_iff_false. intros L.
  apply (num_lt_fin _ _ Ea Eb) in L. lra.
Qed.

Lemma finite_le (la ha lb hb : Q) (a b : num) :
  finite_in la ha a -> finite_in lb hb b -> (ha <= lb)%Q -> num_le a b = true.
Proof.
  intros (qa & Ea & Ba) (qb & Eb & Bb) H. apply (num_le_fin _ _ Ea Eb). lra.
Qed.

Lemma finite_Z (lo hi z : Z) : lo <= z <= hi ->
  finite_in (inject_Z lo) (inject_Z hi) (NInt z).
Proof.
  intros [H1 H2]. apply finite_int_in. rewrite <- !Zle_Qle. lia.
Qed.

Ltac qlra := unfold inject_Z in *; lra.

Ltac close_with S :=
  (split; [|split; [|split; [|split]]]); intros; try lia; try reflexivity;
  try (eapply finite_weaken; [exact S | lra | lra]).

Lemma inject_Z_nonneg (z : Z) : 0 <= z -> (0 <= inject_Z z)%Q.
Proof. intros H. change 0%Q with (inject_Z 0). rewrite <- Zle_Qle. exact H. Qed.

Lemma inject_Z_pos (z : Z) : 0 < z -> (0 < inject_Z z)%Q.
Proof. intros H. change 0%Q with (inject_Z 0). rewrite <- Zlt_Qlt. exact H. Qed.

Lemma inject_Z_ge_1 (z : Z) : 1 <= z -> (1 <= inject_Z z)%Q.
Proof. intros H. change 1%Q with (inject_Z 1). rewrite <- Zle_Qle. exact H. Qed.

(** The score of the grammar analyses, from the numbers of errors and words. *)
Lemma grammar_scoring_spec (error_count word_count : Z) :
  0 <= error_count -> 0 <= word_count ->
  exists score error_rate,
    LLaMAAnalysers.grammar_scoring error_count word_count = Ok (score, error_rate) /\
    finite_in 1 25 score /\
    (word_count < 5 -> score = NInt 1) /\
    (word_count < 10 -> finite_in 1 10 score) /\
    (error_count = 0 -> 10 <= word_count -> score = NInt 25) /\
    finite_in 0 (inject_Z error_count) error_rate.
Proof.
  intros He Hw. unfold LLaMAAnalysers.grammar_scoring.
  pose proof (inject_Z_nonneg He) as Qe.
  assert (Qm : (1 <= inject_Z (Z.max word_count 1))%Q) by (apply inject_Z_ge_1; lia).
  destruct (@finite_div _ _ _ 0 (inject_Z error_count) _ _
              (finite_int error_count) (finite_int (Z.max word_count 1)))
    as (rate & -> & R);
    [lra | lra | rewrite <- inject_Z_mult, <- Zle_Qle; nia |].
  cbn [bind].
  set (base := if num_lt rate (LLaMA.fl 0.05) then NInt 25 else _).
  assert (B : finite_in 8 25 base).
  { subst base.
    destruct (num_lt rate (LLaMA.fl 0.05)); [apply finite_int_in; unfold inject_Z in *; lra|].
    destruct (num_lt rate (LLaMA.fl 0.1)); [apply finite_int_in; unfold inject_Z in *; lra|].
    destruct (num_lt rate (LLaMA.fl 0.15)); [apply finite_int_in; unfold inject_Z in *; lra|].
    destruct (num_lt rate (LLaMA.fl 0.25)); [apply finite_int_in; unfold inject_Z in *; lra|].
    eapply finite_max;
      [apply finite_int
      | apply finite_sub; [apply finite_int | apply finite_mul; [apply finite_int | apply finite_fl | lra]]
      | left; unfold inject_Z in *; lra | unfold inject_Z in *; lra | unfold inject_Z in *; lra]. }
  assert (Clean : error_count = 0 -> base = NInt 25).
  { intros ->. subst base.
    rewrite (finite_lt_true R (finite_fl 0.05)); [reflexivity | unfold inject_Z in *; lra]. }
  clearbody base.
  do 2 eexists. split; [reflexivity|].
  assert (I1 : finite_in 1 1 (NInt 1)) by apply finite_int.
  destruct (Z.ltb_spec word_count 2) as [W2|W2];
  [|destruct (Z.ltb_spec word_count 3) as [W3|W3];
  [|destruct (Z.ltb_spec word_count 5) as [W5|W5];
  [|destruct (Z.ltb_spec word_count 10) as [W10|W10]]]].
  - assert (B2 : finite_in 1 10 (num_max (NInt 1) (num_sub base (NInt 15)))).
    { eapply finite_max; [apply finite_int | apply finite_sub; [exact B | apply finite_int]
                         | left; unfold inject_Z in *; lra | unfold inject_Z in *; lra | unfold inject_Z in *; lra]. }
    assert (E : num_max (NInt 1) (num_sub (num_max (NInt 1) (num_sub base (NInt 15))) (NInt 25))
                = NInt 1).
    { eapply max_keeps; [apply finite_int | apply finite_sub; [exact B2 | apply finite_int]
                        | unfold inject_Z in *; lra]. }
    rewrite E. repeat split; try (intros; reflexivity); try lia;
      try (intros; apply finite_int_in; unfold inject_Z in *; lra); try exact R.
  - assert (B2 : finite_in 2 15 (num_max (NInt 2) (num_sub base (NInt 10)))).
    { eapply finite_max; [apply finite_int | apply finite_sub; [exact B | apply finite_int]
                         | left; unfold inject_Z in *; lra | unfold inject_Z in *; lra | unfold inject_Z in *; lra]. }
    assert (E : num_max (NInt 1) (num_sub (num_max (NInt 2) (num_sub base (NInt 10))) (NInt 22))
                = NInt 1).
    { eapply max_keeps; [apply finite_int | apply finite_sub; [exact B2 | apply finite_int]
                        | unfold inject_Z in *; lra]. }
    rewrite E. repeat split; try (intros; reflexivity); try lia;
      try (intros; apply finite_int_in; unfold inject_Z in *; lra); try exact R.
  - assert (B2 : finite_in 3 19 (num_max (NInt 3) (num_sub base (NInt 6)))).
    { eapply finite_max; [apply finite_int | apply finite_sub; [exact B | apply finite_int]
                         | left; unfold inject_Z in *; lra | unfold inject_Z in *; lra | unfold inject_Z in *; lra]. }
    assert (E : num_max (NInt 1) (num_sub (num_max (NInt 3) (num_sub base (NInt 6))) (NInt 18))
                = NInt 1).
    { eapply max_keeps; [apply finite_int | apply finite_sub; [exact B2 | apply finite_int]
                        | unfold inject_Z in *; lra]. }
    rewrite E. repeat split; try (intros; reflexivity); try lia;
      try (intros; apply finite_int_in; unfold inject_Z in *; lra); try exact R.
  - assert (B2 : finite_in 5 22 (num_max (NInt 5) (num_sub base (NInt 3)))).
    { eapply finite_max; [apply finite_int | apply finite_sub; [exact B | apply finite_int]
                         | left; unfold inject_Z in *; lra | unfold inject_Z in *; lra | unfold inject_Z in *; lra]. }
    assert (S : finite_in 1 10
                  (num_max (NInt 1) (num_sub (num_max (NInt 5) (num_sub base (NInt 3))) (NInt 12)))).
    { eapply finite_max; [apply finite_int | apply finite_sub; [exact B2 | apply finite_int]
                         | left; unfold inject_Z in *; lra | unfold inject_Z in *; lra | unfold inject_Z in *; lra]. }
    repeat split; try lia; try exact R.
    + eapply finite_weaken; [exact S | lra | lra].
    + intros _. exact S.
  - assert (S : finite_in 1 25 (num_max (NInt 1) (num_sub base (NInt 0)))).
    { eapply finite_max; [apply finite_int | apply finite_sub; [exact B | apply finite_int]
                         | left; unfold inject_Z in *; lra | unfold inject_Z in *; lra | unfold inject_Z in *; lra]. }
    repeat split; try lia; try exact R; try exact S.
    intros E0 _. rewrite (Clean E0). reflexivity.
Qed.

(* ------------------------------------------------------------------ *)
(** *** Grammar *)

Lemma adjacent_repeats_cons (word next : string) (rest : list string) :
  adjacent_repeats (word :: next :: rest) =
    (if String.eqb (PyStr.lower next) (PyStr.lower word) then 1 else 0)
    + adjacent_repeats (next :: rest).
Proof. reflexivity. Qed.

Lemma repetitions_spec (words : list string) :
  forall (previous : option string) (i : Z) (errors : list pyval) (error_count : Z),
    exists found,
      LLaMAAnalysers.repetitions previous i words errors error_count
        = ((errors ++ found)%list, error_count + Z.of_nat (List.length found)) /\
      Forall (error_of_type "repetition") found /\
      Z.of_nat (List.length found) =
        adjacent_repeats (match previous with
                          | Some before => before :: words
                          | None => words
                          end).
Proof.
  induction words as [|word rest IH]; intros previous i errors error_count.
  - exists []. cbn. rewrite app_nil_r, Z.add_0_r.
    repeat split; [constructor | destruct previous; reflexivity].
  - cbn [LLaMAAnalysers.repetitions].
    destruct previous as [before|].
    + destruct (String.eqb (PyStr.lower word) (PyStr.lower before)) eqn:E.
      * destruct (IH (Some word) (i + 1)
                     (errors ++ [LLaMAAnalysers.repetition_error word i])%list
                     (error_count + 1)) as (found & -> & F & N).
        exists (LLaMAAnalysers.repetition_error word i :: found).
        rewrite <- app_assoc. cbn [app List.length].
        split; [f_equal; lia|]. split; [constructor; [reflexivity | exact F]|].
        rewrite adjacent_repeats_cons, E. cbv iota in N. rewrite <- N. lia.
      * destruct (IH (Some word) (i + 1) errors error_count) as (found & -> & F & N).
        exists found. split; [reflexivity|]. split; [exact F|].
        rewrite adjacent_repeats_cons, E. cbv iota in N. rewrite <- N. lia.
    + destruct (IH (Some word) (i + 1) errors error_count) as (found & -> & F & N).
      exists found. split; [reflexivity|]. split; [exact F | exact N].
Qed.

Lemma adjacent_repeats_bounds (words : list string) :
  0 <= adjacent_repeats words <= Z.max 0 (Z.of_nat (List.length words) - 1).
Proof.
  induction words as [|word rest IH]; [cbn; lia|].
  cbn [adjacent_repeats]. destruct rest as [|next rest']; [cbn; lia|].
  cbn [List.length] in *.
  destruct (String.eqb (PyStr.lower next) (PyStr.lower word)); lia.
Qed.

Section GrammarFacts.
Variables Tokenizer Model : Type.
Variable self : LLaMA.LLaMAAnalysisService Tokenizer Model.

Lemma fallback_grammar_returns (text : string) :
  let words := PyStr.split text in
  let word_count := Z.of_nat (List.length words) in
  exists score errors error_rate,
    LLaMAAnalysers._fallback_grammar_analysis self text =
      Ok (VDict [("score", of_num score);
                 ("errors", VList errors);
                 ("error_count", VInt (Z.of_nat (List.length errors)));
                 ("error_rate", of_num error_rate)]) /\
    Forall (error_of_type "repetition") errors /\
    Z.of_nat (List.length errors) = adjacent_repeats words /\
    finite_in 1 25 score /\
    (word_count < 5 -> score = NInt 1) /\
    (word_count < 10 -> finite_in 1 10 score) /\
    (adjacent_repeats words = 0 -> 10 <= word_count -> score = NInt 25).
Proof.
  cbv zeta. unfold LLaMAAnalysers._fallback_grammar_analysis.
  destruct (repetitions_spec (PyStr.split text) None 0 [] 0) as (found & -> & F & N).
  cbn [app Z.add].
  destruct (@grammar_scoring_spec (Z.of_nat (List.length found))
              (Z.of_nat (List.length (PyStr.split text))))
    as (score & rate & -> & S & S5 & S10 & S25 & R); [lia | lia |].
  cbn [bind]. exists score, found, rate.
  split; [reflexivity|]. split; [exact F|]. split; [exact N|].
  split; [exact S|]. split; [exact S5|]. split; [exact S10|].
  intros Z. apply S25. rewrite N. exact Z.
Qed.

Lemma check_subject_verb_agreement_true (subject verb : Spacy.Token) :
  LLaMAAnalysers._check_subject_verb_agreement self subject verb = true.
Proof.
  unfold LLaMAAnalysers._check_subject_verb_agreement.
  destruct (_ && _); [reflexivity|]. destruct (_ && _); reflexivity.
Qed.

Lemma grammar_steps (doc : Spacy.Doc) (tokens : list (nat * Spacy.Token)) :
  forall (errors : list pyval) (error_count : Z),
    exists found,
      fold_left (LLaMAAnalysers.grammar_step self doc) tokens (errors, error_count)
        = ((errors ++ found)%list, error_count + Z.of_nat (List.length found)) /\
      Forall (error_of_type "article_usage") found /\
      (List.length found <= List.length tokens)%nat.
Proof.
  induction tokens as [|[i token] tokens IH]; intros errors error_count.
  - exists []. cbn. rewrite app_nil_r, Z.add_0_r. repeat split; [constructor | lia].
  - cbn [fold_left]. unfold LLaMAAnalysers.grammar_step at 2.
    rewrite check_subject_verb_agreement_true. cbn [negb]. rewrite !andb_false_r.
    destruct (_ && _).
    + destruct (IH (errors ++ [LLaMAAnalysers.article_error token])%list (error_count + 1))
        as (found & -> & F & L).
      exists (LLaMAAnalysers.article_error token :: found).
      rewrite <- app_assoc. cbn [app List.length].
      split; [f_equal; lia|]. split; [constructor; [reflexivity | exact F] | lia].
    + destruct (IH errors error_count) as (found & -> & F & L).
      exists found. split; [reflexivity|]. split; [exact F | cbn [List.length]; lia].
Qed.

End GrammarFacts.

(* ------------------------------------------------------------------ *)
(** *** Fluency, vocabulary and comprehension *)

Section FluencyFacts.
Variables Tokenizer Model : Type.
Variable self : LLaMA.LLaMAAnalysisService Tokenizer Model.

Lemma fluency_spec (text : string) (duration : option pyfloat) :
  let word_count := Z.of_nat (List.length (PyStr.split text)) in
  (word_count = 0 ->
   LLaMAAnalysers._analyze_fluency self text duration =
     Ok (VDict [("score", VInt 0); ("metrics", VDict [])])) /\
  (0 < word_count ->
   exists score metrics,
     LLaMAAnalysers._analyze_fluency self text duration =
       Ok (VDict [("score", of_num score); ("metrics", VDict metrics)]) /\
     finite_in 0.1 20 score /\
     (word_count < 3 -> score = LLaMA.fl 0.1) /\
     (word_count < 5 -> finite_in 0.1 3 score) /\
     (word_count < 10 -> finite_in 0.1 10 score) /\
     (10 <= word_count -> finite_in 7 20 score)).
Proof.
  cbv zeta. unfold LLaMAAnalysers._analyze_fluency.
  set (word_count := Z.of_nat (List.length (PyStr.split text))).
  split.
  - intros ->. reflexivity.
  - intros W. destruct (Z.eqb_spec word_count 0) as [E|_]; [lia|].
    assert (Wpm : exists wpm,
              match duration with
              | Some d =>
                  if float_eq d (Fin 0) then Ok (NInt 150)
                  else bind (num_truediv (NInt word_count) (NFloat d))
                         (fun per_second => Ok (num_mul per_second (NInt 60)))
              | None => Ok (NInt 150)
              end = Ok wpm).
    { destruct duration as [d|]; [|eauto].
      destruct (float_eq d (Fin 0)) eqn:D; [eauto|].
      unfold num_truediv. rewrite num_eq_float. cbn [to_float].
      change (Fin (inject_Z 0)) with (Fin 0). rewrite D. cbn [bind]. eauto. }
    destruct Wpm as (wpm & ->). cbn [bind].
    destruct (Z.ltb_spec 0 word_count) as [_|]; [|lia].
    set (unique_words := PyStr.count_distinct (PyStr.split text)).
    assert (U : 0 <= unique_words) by (unfold unique_words, PyStr.count_distinct; lia).
    pose proof (inject_Z_nonneg U) as QU.
    assert (QW : (1 <= inject_Z word_count)%Q) by (apply inject_Z_ge_1; lia).
    destruct (@finite_div _ _ _ 0 (inject_Z unique_words) _ _
                (finite_int unique_words) (finite_int word_count))
      as (diversity & -> & D);
      [lra | lra | rewrite <- inject_Z_mult, <- Zle_Qle; nia |].
    cbn [bind].
    set (wpm_score := if _ && _ then LLaMA.fl 1.0 else _).
    assert (S1 : finite_in 0.4 1 wpm_score).
    { subst wpm_score. destruct (_ && _); [exists 1.0%Q; split; [reflexivity | lra]|].
      destruct (_ && _); [exists 0.7%Q | exists 0.4%Q]; (split; [reflexivity | lra]). }
    clearbody wpm_score.
    set (sentence_score := if _ && _ then LLaMA.fl 1.0 else _).
    assert (S2 : finite_in 0.7 1 sentence_score).
    { subst sentence_score.
      destruct (_ && _); [exists 1.0%Q | exists 0.7%Q]; (split; [reflexivity | lra]). }
    clearbody sentence_score.
    set (diversity_score := num_min (LLaMA.fl 1.0) (num_mul diversity (NInt 2))).
    assert (S3 : finite_in 0 1 diversity_score).
    { subst diversity_score.
      eapply finite_min;
        [apply finite_fl | apply finite_mul; [exact D | apply finite_int | qlra]
        | lra | qlra | left; lra]. }
    clearbody diversity_score.
    destruct (@finite_div _ _ _ 0.36 1 _ _
                (finite_add (finite_add S1 S2) S3) (finite_int 3))
      as (third & -> & T); [qlra | qlra | qlra |].
    cbn [bind].
    assert (B : finite_in 7.2 20 (num_mul third (NInt 20))).
    { eapply finite_weaken; [apply (finite_mul T (finite_int 20)); qlra | qlra | qlra]. }
    set (base := num_mul third (NInt 20)) in *. clearbody base.
    do 2 eexists. split; [reflexivity|].
    destruct (Z.ltb_spec word_count 2) as [W2|W2];
    [|destruct (Z.ltb_spec word_count 3) as [W3|W3];
    [|destruct (Z.ltb_spec word_count 5) as [W5|W5];
    [|destruct (Z.ltb_spec word_count 10) as [W10|W10]]]].
    + assert (B2 : finite_in 0.1 8 (num_max (LLaMA.fl 0.1) (num_sub base (NInt 12)))).
      { eapply finite_max; [apply finite_fl | apply finite_sub; [exact B | apply finite_int]
                           | left; lra | lra | qlra]. }
      assert (E : num_max (LLaMA.fl 0.1)
                    (num_sub (num_max (LLaMA.fl 0.1) (num_sub base (NInt 12))) (NInt 18))
                  = LLaMA.fl 0.1).
      { eapply max_keeps; [apply finite_fl | apply finite_sub; [exact B2 | apply finite_int]
                          | qlra]. }
      rewrite E. close_with (finite_fl 0.1).
    + assert (B2 : finite_in 0.2 12 (num_max (LLaMA.fl 0.2) (num_sub base (NInt 8)))).
      { eapply finite_max; [apply finite_fl | apply finite_sub; [exact B | apply finite_int]
                           | left; lra | lra | qlra]. }
      assert (E : num_max (LLaMA.fl 0.1)
                    (num_sub (num_max (LLaMA.fl 0.2) (num_sub base (NInt 8))) (NInt 15))
                  = LLaMA.fl 0.1).
      { eapply max_keeps; [apply finite_fl | apply finite_sub; [exact B2 | apply finite_int]
                          | qlra]. }
      rewrite E. close_with (finite_fl 0.1).
    + assert (B2 : finite_in 0.5 15 (num_max (LLaMA.fl 0.5) (num_sub base (NInt 5)))).
      { eapply finite_max; [apply finite_fl | apply finite_sub; [exact B | apply finite_int]
                           | left; lra | lra | qlra]. }
      assert (S : finite_in 0.1 3
                    (num_max (LLaMA.fl 0.1)
                       (num_sub (num_max (LLaMA.fl 0.5) (num_sub base (NInt 5))) (NInt 12)))).
      { eapply finite_max; [apply finite_fl | apply finite_sub; [exact B2 | apply finite_int]
                           | left; lra | lra | qlra]. }
      close_with S.
    + assert (B2 : finite_in 1 18 (num_max (NInt 1) (num_sub base (NInt 2)))).
      { eapply finite_max; [apply finite_int | apply finite_sub; [exact B | apply finite_int]
                           | left; qlra | qlra | qlra]. }
      assert (S : finite_in 0.1 10
                    (num_max (LLaMA.fl 0.1)
                       (num_sub (num_max (NInt 1) (num_sub base (NInt 2))) (NInt 8)))).
      { eapply finite_max; [apply finite_fl | apply finite_sub; [exact B2 | apply finite_int]
                           | left; lra | lra | qlra]. }
      close_with S.
    + assert (S : finite_in 7 20 (num_max (LLaMA.fl 0.1) (num_sub base (NInt 0)))).
      { eapply finite_max; [apply finite_fl | apply finite_sub; [exact B | apply finite_int]
                           | right; qlra | lra | qlra]. }
      close_with S.
Qed.

End FluencyFacts.

Lemma spelling_errors_grow (words : list string) :
  forall (errors : Z) (misspelled : list string),
    errors <= fst (fold_left LLaMA.spelling_step words (errors, misspelled)).
Proof.
  induction words as [|word words IH]; intros errors misspelled; cbn [fold_left]; [cbn; lia|].
  unfold LLaMA.spelling_step at 2.
  destruct (_ && _); [specialize (IH (errors + 1) (misspelled ++ [PyStr.filter_chars PyStr.isalpha word])%list) | specialize (IH errors misspelled)]; lia.
Qed.

Lemma nodup_length_le (l : list string) :
  (List.length (nodup string_dec l) <= List.length l)%nat.
Proof.
  induction l as [|x l IH]; cbn; [lia|].
  destruct (in_dec string_dec x l); cbn; lia.
Qed.

Lemma sum_lengths_nonneg (l : list string) (acc : Z) :
  0 <= acc -> 0 <= fold_left Z.add (map PyStr.len l) acc.
Proof.
  revert acc. induction l as [|x l IH]; intros acc H; cbn; [exact H|].
  apply IH. unfold PyStr.len. lia.
Qed.

Section VocabularyFacts.
Variables Tokenizer Model : Type.
Variable self : LLaMA.LLaMAAnalysisService Tokenizer Model.

Lemma vocabulary_spec (text : string) :
  let n := Z.of_nat (List.length (PyStr.split (PyStr.lower text))) in
  (n = 0 ->
   LLaMA._analyze_vocabulary self text =
     Ok (VDict [("score", VInt 0); ("feedback", VStr "No vocabulary to analyze")])) /\
  (0 < n ->
   exists score feedback,
     LLaMA._analyze_vocabulary self text =
       Ok (VDict [("score", of_num score); ("feedback", VStr feedback)]) /\
     (n <= 133 -> finite_in 0.1 20 score) /\
     (n = 1 -> score = LLaMA.fl 0.1) /\
     (n = 2 -> score = num_mul (NInt 2) (LLaMA.fl 0.2)) /\
     (n = 3 -> score = num_mul (NInt 3) (LLaMA.fl 0.3))).
Proof.
  cbv zeta. unfold LLaMA._analyze_vocabulary.
  destruct (PyStr.split (PyStr.lower text)) as [|w ws] eqn:W.
  - split; [reflexivity | cbn; lia].
  - split; [cbn [List.length]; lia|]. intros _.
    set (words := w :: ws) in *.
    set (n := Z.of_nat (List.length words)).
    assert (N : 1 <= n) by (subst n words; cbn [List.length]; lia).
    pose proof (spelling_errors_grow words 0 []) as SE.
    destruct (fold_left LLaMA.spelling_step words (0, [])) as [errors misspelled].
    cbn [fst] in SE.
    set (advanced :=
           Z.of_nat (List.length (filter (fun word => PyStr.mem word LLaMA.advanced_words) words))).
    assert (A : 0 <= advanced <= n).
    { subst advanced n. pose proof (filter_length_le (fun word => PyStr.mem word LLaMA.advanced_words) words). lia. }
    set (unique := PyStr.count_distinct words).
    assert (U : 0 <= unique <= n).
    { subst unique n. unfold PyStr.count_distinct. pose proof (nodup_length_le words). lia. }
    set (total_length := fold_left Z.add (map PyStr.len words) 0).
    assert (L : 0 <= total_length) by (apply sum_lengths_nonneg; lia).
    assert (Qn : (1 <= inject_Z n)%Q) by (apply inject_Z_ge_1; exact N).
    pose proof (inject_Z_nonneg L) as QL.
    pose proof (inject_Z_nonneg SE) as QE.
    assert (QA : (0 <= inject_Z advanced <= inject_Z n)%Q) by (rewrite <- !Zle_Qle; change 0%Q with (inject_Z 0); rewrite <- Zle_Qle; lia).
    assert (QU : (0 <= inject_Z unique <= inject_Z n)%Q) by (rewrite <- !Zle_Qle; change 0%Q with (inject_Z 0); rewrite <- Zle_Qle; lia).
    destruct (@finite_div _ _ _ 0 (inject_Z total_length) _ _
                (finite_int total_length) (finite_int n))
      as (avg & -> & AV);
      [lra | lra | rewrite <- inject_Z_mult, <- Zle_Qle; nia |].
    cbn [bind try_except].
    set (base := num_min (NInt 10) (num_mul (NInt n) (LLaMA.fl 0.4))).
    assert (B : finite_in 0 (inject_Z n * 0.4) base).
    { subst base. eapply finite_min;
        [apply finite_int | apply finite_mul; [apply finite_int | apply finite_fl | lra]
        | qlra | lra | right; lra]. }
    clearbody base.
    set (bonus := num_min (NInt 6) (num_mul (NInt advanced) (LLaMA.fl 1.5))).
    assert (Bo : finite_in 0 (inject_Z n * 1.5) bonus).
    { subst bonus. eapply finite_min;
        [apply finite_int | apply finite_mul; [apply finite_int | apply finite_fl | lra]
        | qlra | lra | right; lra]. }
    clearbody bonus.
    set (diversity := num_min (NInt 4) (num_mul (NInt unique) (LLaMA.fl 0.15))).
    assert (Di : finite_in 0 (inject_Z n * 0.15) diversity).
    { subst diversity. eapply finite_min;
        [apply finite_int | apply finite_mul; [apply finite_int | apply finite_fl | lra]
        | qlra | lra | right; lra]. }
    clearbody diversity.
    set (sophistication := num_min (NInt 2) (num_mul (num_sub avg (NInt 4)) (LLaMA.fl 0.5))).
    assert (So : finite_in (-2) 2 sophistication).
    { subst sophistication. eapply finite_min;
        [apply finite_int
        | apply finite_mul; [apply finite_sub; [exact AV | apply finite_int] | apply finite_fl | lra]
        | qlra | qlra | left; qlra]. }
    clearbody sophistication.
    set (penalty := num_mul (NInt errors) (LLaMA.fl 2.5)).
    assert (Pe : finite_in 0 (inject_Z errors * 2.5) penalty).
    { subst penalty. eapply finite_weaken;
        [apply finite_mul; [apply finite_int | apply finite_fl | lra] | lra | lra]. }
    clearbody penalty.
    pose proof (finite_sub (finite_add (finite_add (finite_add B Bo) Di) So) Pe) as T.
    set (partial := num_sub (num_add (num_add (num_add base bonus) diversity) sophistication) penalty) in *.
    clearbody partial.
    do 2 eexists. split; [reflexivity|].
    destruct (Z.ltb_spec n 2) as [W2|W2];
    [|destruct (Z.ltb_spec n 3) as [W3|W3];
    [|destruct (Z.ltb_spec n 5) as [W5|W5];
    [|destruct (Z.ltb_spec n 10) as [W10|W10]]]].
    + assert (n = 1) as -> by lia.
      assert (M : num_max (LLaMA.fl 0.1) (num_mul (NInt 1) (LLaMA.fl 0.1)) = LLaMA.fl 0.1)
        by reflexivity.
      rewrite M.
      assert (E : num_max (LLaMA.fl 0.1) (num_min (NInt 20) (num_sub partial (NInt 15)))
                  = LLaMA.fl 0.1).
      { eapply max_keeps;
          [apply finite_fl
          | eapply (@finite_min _ _ _ _ (0 - inject_Z errors * 2.5 - 20) 0);
              [apply finite_int | apply (finite_sub T (finite_int 15))
              | qlra | qlra | right; qlra]
          | lra]. }
      rewrite E.
      split; [intros _; exists 0.1%Q; split; [reflexivity | lra]|].
      split; [reflexivity|]. split; intros; lia.
    + assert (n = 2) as -> by lia.
      assert (M : num_max (LLaMA.fl 0.3) (num_mul (NInt 2) (LLaMA.fl 0.2))
                  = num_mul (NInt 2) (LLaMA.fl 0.2)) by reflexivity.
      rewrite M.
      assert (E : num_max (num_mul (NInt 2) (LLaMA.fl 0.2))
                    (num_min (NInt 20) (num_sub partial (NInt 12)))
                  = num_mul (NInt 2) (LLaMA.fl 0.2)).
      { eapply max_keeps;
          [apply finite_mul; [apply finite_int | apply finite_fl | lra]
          | eapply (@finite_min _ _ _ _ (0 - inject_Z errors * 2.5 - 20) 0);
              [apply finite_int | apply (finite_sub T (finite_int 12))
              | qlra | qlra | right; qlra]
          | qlra]. }
      rewrite E.
      split; [intros _; eapply finite_weaken;
                [apply finite_mul; [apply finite_int | apply finite_fl | lra] | qlra | qlra]|].
      split; [intros; lia|]. split; [reflexivity | intros; lia].
    + destruct (Z.eq_dec n 3) as [->|N3].
      * assert (M : num_max (LLaMA.fl 0.5) (num_mul (NInt 3) (LLaMA.fl 0.3))
                    = num_mul (NInt 3) (LLaMA.fl 0.3)) by reflexivity.
        rewrite M.
        assert (E : num_max (num_mul (NInt 3) (LLaMA.fl 0.3))
                      (num_min (NInt 20) (num_sub partial (NInt 8)))
                    = num_mul (NInt 3) (LLaMA.fl 0.3)).
        { eapply max_keeps;
            [apply finite_mul; [apply finite_int | apply finite_fl | lra]
            | eapply (@finite_min _ _ _ _ (0 - inject_Z errors * 2.5 - 20) 0.15);
                [apply finite_int | apply (finite_sub T (finite_int 8))
                | qlra | qlra | right; qlra]
            | qlra]. }
        rewrite E.
        split; [intros _; eapply finite_weaken;
                  [apply finite_mul; [apply finite_int | apply finite_fl | lra] | qlra | qlra]|].
        split; [intros; lia|]. split; [intros; lia | reflexivity].
      * assert (n = 4) as -> by lia.
        split; [|split; [|split]]; intros; try lia.
        eapply finite_max;
          [eapply (@finite_max _ _ _ _ 0.5 1.2);
             [apply finite_fl | apply finite_mul; [apply finite_int | apply finite_fl | lra]
             | left; lra | lra | qlra]
          | eapply (@finite_min _ _ _ _ (0 - inject_Z errors * 2.5 - 20) 20);
              [apply finite_int | apply (finite_sub T (finite_int 8))
              | qlra | qlra | left; qlra]
          | left; lra | lra | lra].
    + split; [|split; [|split]]; intros; try lia.
      assert (Q133 : (inject_Z n <= 133)%Q).
      { change 133%Q with (inject_Z 133). rewrite <- Zle_Qle. lia. }
      eapply finite_max;
        [eapply (@finite_max _ _ _ _ 1 20);
           [apply finite_int | apply finite_mul; [apply finite_int | apply finite_fl | lra]
           | left; qlra | qlra | qlra]
        | eapply (@finite_min _ _ _ _ (0 - inject_Z errors * 2.5 - 20) 20);
            [apply finite_int | apply (finite_sub T (finite_int 4))
            | qlra | qlra | left; qlra]
        | left; lra | lra | lra].
    + split; [|split; [|split]]; intros; try lia.
      assert (Q133 : (inject_Z n <= 133)%Q).
      { change 133%Q with (inject_Z 133). rewrite <- Zle_Qle. assumption. }
      eapply finite_max;
        [eapply (@finite_max _ _ _ _ 1 20);
           [apply finite_int | apply finite_mul; [apply finite_int | apply finite_fl | lra]
           | left; qlra | qlra | qlra]
        | eapply (@finite_min _ _ _ _ (0 - inject_Z errors * 2.5 - 20) 20);
            [apply finite_int | apply (finite_sub T (finite_int 0))
            | qlra | qlra | left; qlra]
        | left; lra | lra | lra].
Qed.

End VocabularyFacts.

Section ComprehensionRange.
Variables Tokenizer Model : Type.
Variable self : LLaMA.LLaMAAnalysisService Tokenizer Model.

Lemma comprehension_spec (text : string) (context : option string) :
  let word_count := Z.of_nat (List.length (PyStr.split text)) in
  (word_count = 0 ->
   LLaMA._enhanced_comprehension_analysis self text context = Ok (NInt 0)) /\
  (0 < word_count ->
   exists score,
     LLaMA._enhanced_comprehension_analysis self text context = Ok score /\
     finite_in 4 20 score).
Proof.
  cbv zeta. unfold LLaMA._enhanced_comprehension_analysis.
  set (word_count := Z.of_nat (List.length (PyStr.split text))).
  split; [intros ->; reflexivity|]. intros W.
  destruct (Z.eqb_spec word_count 0) as [E|_]; [lia|].
  unfold PyStr.split_on.
  destruct (split_on_from_cons "." text "") as (x & l & ->).
  set (sentences := Z.of_nat (List.length (x :: l))).
  assert (S : 1 <= sentences) by (subst sentences; cbn [List.length]; lia).
  assert (QW : (1 <= inject_Z word_count)%Q) by (apply inject_Z_ge_1; lia).
  assert (QS : (1 <= inject_Z sentences)%Q) by (apply inject_Z_ge_1; lia).
  destruct (@finite_div _ _ _ 0 (inject_Z word_count) _ _
              (finite_int word_count) (finite_int sentences))
    as (avg & -> & AV); [lra | lra | rewrite <- inject_Z_mult, <- Zle_Qle; nia |].
  cbn [bind].
  set (long_words := Z.of_nat (List.length (filter (fun word => 5 <? PyStr.len word) (PyStr.split text)))).
  assert (QL : (0 <= inject_Z long_words)%Q) by (apply inject_Z_nonneg; subst long_words; lia).
  destruct (@finite_div _ _ _ 0 (inject_Z long_words) _ _
              (finite_int long_words) (finite_int word_count))
    as (ratio & -> & RA); [lra | lra | rewrite <- inject_Z_mult, <- Zle_Qle; nia |].
  cbn [bind].
  destruct (@finite_div _ _ _ 0 (inject_Z word_count) _ _
              (finite_int word_count) (finite_int 3))
    as (third & -> & TH); [qlra | qlra | qlra |].
  cbn [bind].
  set (s1 := if 30 <=? word_count then _ else _).
  assert (S1 : finite_in 0.05 6 s1).
  { subst s1.
    repeat match goal with
           | |- context [if ?c <=? word_count then _ else _] => destruct (c <=? word_count)
           end;
      (eapply finite_weaken;
       [apply finite_add; [apply finite_int | first [apply finite_int | apply finite_fl]]
       | qlra | qlra]). }
  clearbody s1.
  set (s2 := if num_ge avg (NInt 12) then _ else _).
  assert (S2 : finite_in 2.05 12 s2).
  { subst s2.
    repeat match goal with
           | |- context [if num_ge avg ?c then _ else _] => destruct (num_ge avg c)
           end;
      (eapply finite_weaken; [apply finite_add; [exact S1 | apply finite_int] | qlra | qlra]). }
  clearbody s2.
  set (s3 := if num_ge ratio (LLaMA.fl 0.2) then _ else _).
  assert (S3 : finite_in 4.05 18 s3).
  { subst s3.
    repeat match goal with
           | |- context [if num_ge ratio ?c then _ else _] => destruct (num_ge ratio c)
           end;
      (eapply finite_weaken; [apply finite_add; [exact S2 | apply finite_int] | qlra | qlra]). }
  clearbody s3.
  set (coherence := if _ || _ || _ then _ else _).
  assert (C : 0 <= coherence <= 6).
  { subst coherence.
    destruct (existsb _ LLaMA.transition_words);
      destruct (existsb _ LLaMA.complex_conjunctions);
      destruct (_ || _ || _); lia. }
  clearbody coherence.
  assert (QC : (0 <= inject_Z coherence <= 6)%Q).
  { change 0%Q with (inject_Z 0). change 6%Q with (inject_Z 6). rewrite <- !Zle_Qle. lia. }
  eexists. split; [reflexivity|].
  eapply finite_min;
    [apply finite_int
    | eapply (@finite_max _ _ _ _ 4.05 24);
        [eapply (@finite_min _ _ _ _ 0 6); [apply finite_int | exact TH | qlra | lra | left; qlra]
        | apply finite_add;
            [exact S3
            | eapply (@finite_min _ _ _ _ 0 6);
                [apply finite_int | apply finite_int | qlra | lra | left; qlra]]
        | right; lra | lra | lra]
    | qlra | lra | left; qlra].
Qed.

End ComprehensionRange.

(* ------------------------------------------------------------------ *)
(** *** The patterns that read a score *)

Section GroupFree.
Variable R : Type.

(** A pattern without a group hands the capture on as it got it. *)
Lemma run_group_free (r : Re.regex) :
  group_free r = true ->
  forall (s : string) (g : option string) (k : string -> option string -> option R)
         (res : R),
    Re.run r s g k = Some res -> exists rest, k rest g = Some res.
Proof.
  induction r as [p | r1 IH1 r2 IH2 | r1 IH1 | r1 IH1 | r1 IH1]; cbn [group_free];
    intros F s g k res H.
  - cbn in H. destruct s as [|c s]; [discriminate|].
    destruct (p c); [eauto | discriminate].
  - apply andb_true_iff in F. destruct F as [F1 F2].
    cbn in H. apply (IH1 F1) in H. destruct H as (s1 & H).
    apply (IH2 F2) in H. exact H.
  - cbn [Re.run] in H. revert H. generalize (String.length s). intros fuel. revert s.
    induction fuel as [|fuel IHf]; intros s H; [eauto|].
    cbn [Re.star_loop] in H.
    destruct (Re.run r1 s g _) as [x|] eqn:E in H; [|eauto].
    injection H as ->. apply (IH1 F) in E. destruct E as (s1 & E).
    destruct (String.length s1 <? String.length s)%nat; [|discriminate].
    apply IHf in E. exact E.
  - cbn in H. destruct (Re.run r1 s g k) as [x|] eqn:E; [|eauto].
    injection H as ->. apply (IH1 F) in E. exact E.
  - discriminate.
Qed.

(** A pattern that starts with its group, and has no other, hands the text
    of the group over. *)
Lemma run_group_first (r rest : Re.regex) (s : string)
    (k : string -> option string -> option R) (res : R) :
  group_free rest = true ->
  Re.run (Re.Cat (Re.Group r) rest) s None k = Some res ->
  exists w s', matches r w /\ k s' (Some w) = Some res.
Proof.
  intros F H.
  change (Re.run (Re.Cat (Re.Group r) rest) s None k)
    with (Re.run (Re.Group r) s None (fun s' g' => Re.run rest s' g' k)) in H.
  apply run_group_last in H. destruct H as (w & s1 & _ & M & H).
  apply (run_group_free _ F) in H. destruct H as (s2 & H). eauto.
Qed.

End GroupFree.

Lemma group_free_lit_i (s : string) : forall c, group_free (Re.lit_i c s) = true.
Proof. induction s as [|c' s IH]; intros c; cbn; [reflexivity | apply IH]. Qed.

Lemma group_free_word_i (s : string) : group_free (Re.word_i s) = true.
Proof. destruct s; [reflexivity | apply group_free_lit_i]. Qed.

(** Where [re.search] finds a match, the pattern matches a part of the text. *)
Lemma search_matches (r : Re.regex) (text : string) (m : Re.match_object) :
  Re.search r text = Some m ->
  exists before w after, text = before ++ w ++ after /\ matches r w.
Proof.
  induction text as [|c text IH]; cbn [Re.search]; intros H.
  - destruct (Re.match_at r "") eqn:E; [|discriminate].
    unfold Re.match_at in E. apply run_sound in E. destruct E as (w & rest & g & E & M & _).
    exists "", w, rest. split; [exact E | exact M].
  - destruct (Re.match_at r (String c text)) eqn:E.
    + unfold Re.match_at in E. apply run_sound in E.
      destruct E as (w & rest & g & E & M & _).
      exists "", w, rest. split; [exact E | exact M].
    + apply IH in H. destruct H as (before & w & after & -> & M).
      exists (String c before), w, after. split; [reflexivity | exact M].
Qed.

Lemma has_digit_append (a b : string) : has_digit (a ++ b) = has_digit a || has_digit b.
Proof.
  unfold has_digit. induction a as [|c a IH]; cbn; [reflexivity|].
  rewrite IH, orb_assoc. reflexivity.
Qed.

Lemma number_has_digit (w : string) : matches Re.number w -> has_digit w = true.
Proof.
  unfold Re.number, Re.plus. intros H.
  inversion H as [ | r1 r2 w1 w2 H1 H2 | | | | | ]; subst.
  inversion H1 as [ | r1 r2 w3 w4 H3 H4 | | | | | ]; subst.
  destruct (matches_digit H3) as (c & -> & D).
  unfold has_digit. cbn. rewrite D. reflexivity.
Qed.

Lemma matches_cat_inv (r1 r2 : Re.regex) (w : string) :
  matches (Re.Cat r1 r2) w -> exists w1 w2, w = w1 ++ w2 /\ matches r1 w1 /\ matches r2 w2.
Proof. intros H. inversion H; subst. eauto. Qed.

Lemma matches_group_inv (r : Re.regex) (w : string) : matches (Re.Group r) w -> matches r w.
Proof. intros H. inversion H; subst. assumption. Qed.

Lemma digits_value_nonneg (s : string) : forall acc, 0 <= acc -> 0 <= GPT.digits_value acc s.
Proof.
  induction s as [|c s IH]; intros acc H; cbn [GPT.digits_value]; [exact H|].
  apply IH. unfold GPT.digit_value. lia.
Qed.

(** A number written without a sign is read as a float that is not
    negative: the number itself, or [inf]. *)
Lemma float_of_decimal_cases (q : Q) :
  GPT.float_of_decimal q = Fin q \/ GPT.float_of_decimal q = Inf false.
Proof. unfold GPT.float_of_decimal. destruct (Qle_bool _ q); auto. Qed.

Lemma float_of_decimal_nonneg (q : Q) :
  (0 <= q)%Q -> float_le (Fin 0) (GPT.float_of_decimal q) = true.
Proof.
  intros H. destruct (float_of_decimal_cases q) as [-> | ->].
  - apply float_le_fin. exact H.
  - reflexivity.
Qed.

(** [float] reads a text that [\d+(?:\.\d+)?] matches as a float that is
    not negative. *)
Lemma py_float_number_nonneg (w : string) :
  matches Re.number w -> exists x, GPT.py_float w = Ok x /\ float_le (Fin 0) x = true.
Proof.
  unfold Re.number. intros H.
  inversion H as [ | r1 r2 w1 w2 H1 H2 | | | | | ]; subst.
  apply matches_digits_plus in H1.
  unfold GPT.py_float, PyStr.split_on.
  inversion H2 as [ | | | | r | r w H3 | ]; subst.
  - rewrite append_nil_r, split_on_digits by (apply nonempty_digits_all; exact H1).
    cbn [append]. rewrite H1. eexists. split; [reflexivity|].
    apply float_of_decimal_nonneg.
    apply inject_Z_nonneg. apply digits_value_nonneg. lia.
  - inversion H3 as [ | r1 r2 wp wd Hp Hd | | | | | ]; subst.
    inversion Hp; subst. apply matches_digits_plus in Hd.
    match goal with E : Ascii.eqb "." ?c = true |- _ => apply Ascii.eqb_eq in E; subst end.
    cbn [append].
    rewrite split_on_digits_point by (apply nonempty_digits_all; exact H1).
    rewrite split_on_digits by (apply nonempty_digits_all; exact Hd).
    cbn [append]. rewrite H1, Hd. cbn [andb]. eexists. split; [reflexivity|].
    apply float_of_decimal_nonneg.
    unfold Qle. cbn [Qnum Qden]. pose proof (digits_value_nonneg (w1 ++ wd) (acc := 0)). lia.
Qed.

(** [min(score, max_score)] of a float that is not negative, [inf]
    included, is a number from 0 to [max_score]. *)
Lemma min_of_nonneg (x : pyfloat) (max_score : Z) :
  0 <= max_score -> float_le (Fin 0) x = true ->
  finite_in 0 (inject_Z max_score) (num_min (NFloat x) (NInt max_score)).
Proof.
  intros Hm H. pose proof (inject_Z_nonneg Hm) as QM.
  destruct x as [q|neg|]; [|destruct neg|]; try discriminate.
  - apply float_le_fin in H.
    eapply finite_min; [exists q; split; [reflexivity | split; [exact H | apply Qle_refl]]
                       | apply finite_int | lra | exact QM | right; lra].
  - unfold num_min. cbn [num_lt to_float float_lt negb]. apply finite_int_in. lra.
Qed.

(** The patterns of [_extract_score_from_response]: a match has a group, the
    group is a number that is not negative, and the text holds a digit. *)
Lemma score_patterns_group (max_score : Z) (pattern : Re.regex) (text : string)
    (m : Re.match_object) :
  In pattern (LLaMAAnalysers.score_patterns max_score) ->
  Re.search pattern text = Some m ->
  has_digit text = true /\
  exists digits x,
    Re.group1 m = Some digits /\ GPT.py_float digits = Ok x /\ float_le (Fin 0) x = true.
Proof.
  intros I H. split.
  - apply search_matches in H. destruct H as (before & w & after & -> & M).
    rewrite !has_digit_append.
    assert (D : has_digit w = true).
    { unfold LLaMAAnalysers.score_patterns in I. cbn [In] in I.
      destruct I as [<-|[<-|[<-|[<-|[]]]]].
      - apply matches_cat_inv in M. destruct M as (w1 & w2 & -> & _ & M).
        apply matches_cat_inv in M. destruct M as (w3 & w4 & -> & _ & M).
        apply matches_group_inv, number_has_digit in M.
        rewrite !has_digit_append, M, !orb_true_r. reflexivity.
      - apply matches_cat_inv in M. destruct M as (w1 & w2 & -> & M & _).
        apply matches_group_inv, number_has_digit in M.
        rewrite has_digit_append, M. reflexivity.
      - apply matches_cat_inv in M. destruct M as (w1 & w2 & -> & M & _).
        apply matches_group_inv, number_has_digit in M.
        rewrite has_digit_append, M. reflexivity.
      - apply matches_cat_inv in M. destruct M as (w1 & w2 & -> & M & _).
        apply matches_group_inv, number_has_digit in M.
        rewrite has_digit_append, M. reflexivity. }
    rewrite D, orb_true_r. reflexivity.
  - apply search_match_at in H. destruct H as (s & H). unfold Re.match_at in H.
    assert (G : exists w, matches Re.number w /\ Re.group1 m = Some w).
    { unfold LLaMAAnalysers.score_patterns in I. cbn [In] in I.
      destruct I as [<-|[<-|[<-|[<-|[]]]]].
      - cbn [Re.run] in H.
        apply run_sound in H. destruct H as (w1 & s1 & g1 & _ & _ & H).
        change (Re.star_loop ?a ?b ?c ?d ?e)
          with (Re.run (Re.Star Re.colon_or_space) d e b) in H.
        apply run_sound in H. destruct H as (w2 & s2 & g2 & _ & _ & H).
        change (Re.run Re.number s2 g2 ?k) with
          (Re.run (Re.Group Re.number) s2 g2
             (fun rest g => Some {| Re.group0 := Re.consumed s rest; Re.group1 := g |})) in H.
        apply run_group_last in H. destruct H as (w & rest & _ & M & H).
        injection H as <-. eauto.
      - apply run_group_first in H; [|apply group_free_word_i].
        destruct H as (w & s' & M & H). injection H as <-. eauto.
      - apply run_group_first in H; [|reflexivity].
        destruct H as (w & s' & M & H). injection H as <-. eauto.
      - apply run_group_first in H;
          [|cbn [group_free LLaMAAnalysers.spaces]; rewrite !group_free_word_i; reflexivity].
        destruct H as (w & s' & M & H). injection H as <-. eauto. }
    destruct G as (w & M & G). destruct (py_float_number_nonneg M) as (q & F & Q).
    eauto.
Qed.

Lemma extract_score_spec (max_score : Z) (response : string) :
  0 <= max_score ->
  forall patterns,
    incl patterns (LLaMAAnalysers.score_patterns max_score) ->
    exists score,
      LLaMAAnalysers.extract_score patterns response max_score = Ok score /\
      finite_in 0 (inject_Z max_score) score /\
      (has_digit response = false ->
       score = NFloat (Fin (inject_Z max_score / inject_Z 2))).
Proof.
  intros Hm patterns. pose proof (inject_Z_nonneg Hm) as QM.
  induction patterns as [|pattern patterns IH]; intros I; cbn [LLaMAAnalysers.extract_score].
  - rewrite truediv_nonzero by lia. eexists. split; [reflexivity|]. split; [|reflexivity].
    eexists. split; [reflexivity|].
    split; [apply Qle_shift_div_l | apply Qle_shift_div_r]; qlra.
  - destruct (Re.search pattern response) as [m|] eqn:S.
    + destruct (@score_patterns_group max_score pattern response m) as (D & digits & x & -> & -> & Q);
        [apply I; left; reflexivity | exact S |].
      cbn [bind]. eexists. split; [reflexivity|]. split.
      * apply min_of_nonneg; assumption.
      * rewrite D. discriminate.
    + apply IH. intros p P. apply I. right. exact P.
Qed.

(* ------------------------------------------------------------------ *)
(** *** The answers of the language model *)

Section AnswerFacts.
Variables Tokenizer Model : Type.
Variable generate_and_decode : Tokenizer -> Model -> string -> Z -> M string.
Variable json_loads : string -> M pyval.
Variable self : LLaMA.LLaMAAnalysisService Tokenizer Model.

Lemma heuristic_in_range (text : string) (context : option string) :
  exists h, LLaMA._enhanced_comprehension_analysis self text context = Ok h /\
            finite_in 0 20 h.
Proof.
  destruct (comprehension_spec self text context) as [Z P].
  destruct (Z.eq_dec (Z.of_nat (List.length (PyStr.split text))) 0) as [E|E].
  - exists (NInt 0). split; [apply Z; exact E | apply finite_int_in; qlra].
  - destruct P as (h & -> & H); [lia|]. exists h. split; [reflexivity|].
    eapply finite_weaken; [exact H | lra | lra].
Qed.

Lemma min_20_same (h : num) : finite_in 0 20 h -> num_eq (num_min (NInt 20) h) h = true.
Proof.
  intros (q & E & B). unfold num_min.
  destruct (num_lt h (NInt 20)) eqn:L.
  - apply (num_eq_refl_fin _ E).
  - rewrite num_eq_float, E. cbn [to_float]. apply float_eq_fin.
    assert (N : ~ (q < inject_Z 20)%Q).
    { intros H. apply (@num_lt_fin h (NInt 20) q (inject_Z 20) E eq_refl) in H. congruence. }
    qlra.
Qed.

End AnswerFacts.

(* ------------------------------------------------------------------ *)
(** *** Words and blank texts *)

Lemma bonus_fold (test : string -> bool) (items : list string) :
  forall c hi,
    finite_in 0 hi c ->
    exists hi',
      finite_in 0 hi'
        (fold_left (fun complexity item =>
                      if test item then num_add complexity (LLaMA.fl 0.5) else complexity)
                   items c).
Proof.
  induction items as [|item items IH]; intros c hi H; cbn [fold_left]; [eauto|].
  destruct (test item); [|eauto].
  apply (IH _ (hi + 0.5)%Q).
  eapply finite_weaken; [apply (finite_add H (finite_fl 0.5)) | lra | lra].
Qed.

Section WordFacts.
Variables Tokenizer Model : Type.
Variable self : LLaMA.LLaMAAnalysisService Tokenizer Model.

Lemma count_syllables_positive (word : string) :
  1 <= LLaMAAnalysers._count_syllables self word.
Proof. unfold LLaMAAnalysers._count_syllables. lia. Qed.

Lemma morphological_complexity_range (word : string) :
  finite_in 0 2 (LLaMAAnalysers._assess_morphological_complexity self word).
Proof.
  unfold LLaMAAnalysers._assess_morphological_complexity.
  destruct (bonus_fold (fun prefix => String.prefix prefix word) LLaMAAnalysers.prefixes
              (finite_int 0)) as (h1 & H1).
  destruct (bonus_fold (fun suffix => LLaMAAnalysers.endswith word suffix)
              LLaMAAnalysers.suffixes H1) as (h2 & H2).
  match goal with
  | |- finite_in _ _ (num_min ?c _) =>
      assert (C : exists hi, finite_in 0 hi c)
  end.
  { destruct (_ || _); [|eauto].
    exists (h2 + 1)%Q. eapply finite_weaken; [apply (finite_add H2 (finite_int 1)) | qlra | qlra]. }
  destruct C as (h3 & H3).
  eapply finite_min; [exact H3 | apply finite_int | lra | qlra | right; qlra].
Qed.

Lemma word_frequency_range (word : string) :
  finite_in 0.1 0.9 (LLaMAAnalysers._get_word_frequency_score self word).
Proof.
  unfold LLaMAAnalysers._get_word_frequency_score.
  destruct (PyStr.mem _ _); [exists 0.1%Q; split; [reflexivity | lra]|].
  destruct (_ <=? 4); [exists 0.3%Q; split; [reflexivity | lra]|].
  destruct (_ <=? 7); [exists 0.6%Q | exists 0.9%Q]; (split; [reflexivity | lra]).
Qed.

End WordFacts.

Lemma split_from_some (s : string) :
  forall w, PyStr.split_from (Some w) s <> [].
Proof.
  induction s as [|c s IH]; intros w; cbn; [discriminate|].
  destruct (PyStr.isspace c); [discriminate | apply IH].
Qed.

Lemma split_nil_blank (s : string) : PyStr.split s = [] -> blank s = true.
Proof.
  unfold PyStr.split, blank. induction s as [|c s IH]; cbn; intros H; [reflexivity|].
  destruct (PyStr.isspace c); cbn.
  - apply IH. exact H.
  - exfalso. exact (split_from_some _ _ H).
Qed.

Lemma space_ends_no_sentence (c : ascii) :
  PyStr.isspace c = true -> LLaMAAnalysers.ends_sentence c = false.
Proof.
  unfold LLaMAAnalysers.ends_sentence. intros H.
  destruct (Ascii.eqb_spec c ".") as [->|_]; [discriminate|].
  destruct (Ascii.eqb_spec c "!") as [->|_]; [discriminate|].
  destruct (Ascii.eqb_spec c "?") as [->|_]; [discriminate|]. reflexivity.
Qed.

Lemma re_split_blank (s : string) :
  blank s = true -> forall cur, LLaMAAnalysers.re_split_from cur false s = [(cur ++ s)%string].
Proof.
  unfold blank. induction s as [|c s IH]; cbn; intros H cur.
  - rewrite append_nil_r. reflexivity.
  - destruct (PyStr.isspace c) eqn:S; cbn in H; [|discriminate].
    rewrite (space_ends_no_sentence _ S), IH by exact H.
    unfold PyStr.snoc. rewrite append_assoc. reflexivity.
Qed.

Lemma rstrip_blank (s : string) : blank s = true -> PyStr.rstrip s = "".
Proof.
  unfold blank. induction s as [|c s IH]; cbn; intros H; [reflexivity|].
  destruct (PyStr.isspace c) eqn:S; cbn in H; [|discriminate].
  rewrite IH by exact H. reflexivity.
Qed.

(* ------------------------------------------------------------------ *)
(** *** The fallback parser of the GPT service *)

Lemma level_letter (c : ascii) :
  (PyStr.between 65 67 c || PyStr.between 97 99 c) = true ->
  In (PyStr.upper_char c) ["A"; "B"; "C"]%char.
Proof.
  destruct c as [[] [] [] [] [] [] [] []]; cbn; intros H; try discriminate; tauto.
Qed.

Lemma level_digit (c : ascii) :
  PyStr.between 49 50 c = true -> In (PyStr.upper_char c) ["1"; "2"]%char.
Proof.
  destruct c as [[] [] [] [] [] [] [] []]; cbn; intros H; try discriminate; tauto.
Qed.

Lemma run_cat (R : Type) (r1 r2 : Re.regex) (s : string) (g : option string)
    (k : string -> option string -> option R) :
  Re.run (Re.Cat r1 r2) s g k = Re.run r1 s g (fun s' g' => Re.run r2 s' g' k).
Proof. reflexivity. Qed.

(** What the pattern of the level captures is one of the six levels, in
    either case. *)
Lemma level_pattern_group (text : string) (m : Re.match_object) :
  Re.search GPT.level_pattern text = Some m ->
  exists level, Re.group1 m = Some level /\ In (PyStr.upper level) cefr_levels.
Proof.
  intros H. apply search_match_at in H. destruct H as (s & H).
  unfold Re.match_at, GPT.level_pattern in H.
  rewrite run_cat in H. apply run_sound in H. destruct H as (w1 & s1 & g1 & _ & _ & H).
  rewrite run_cat in H. apply run_sound in H. destruct H as (w2 & s2 & g2 & _ & _ & H).
  rewrite run_cat in H. apply run_sound in H. destruct H as (w3 & s3 & g3 & _ & _ & H).
  rewrite run_cat in H. apply run_sound in H. destruct H as (w4 & s4 & g4 & _ & _ & H).
  apply run_group_last in H. destruct H as (w & rest & _ & M & H).
  injection H as <-. cbn [Re.group1]. exists w. split; [reflexivity|].
  apply matches_cat_inv in M. destruct M as (a & b & -> & Ma & Mb).
  inversion Ma as [p c P | | | | | | ]; subst. inversion Mb as [p' c' P' | | | | | | ]; subst.
  apply level_letter in P. apply level_digit in P'.
  cbn [append PyStr.upper PyStr.map_chars]. unfold cefr_levels.
  cbn [In] in P, P'.
  destruct P as [<-|[<-|[<-|[]]]]; destruct P' as [<-|[<-|[]]]; cbn; tauto.
Qed.

Lemma find_level_cefr (text : string) :
  exists level,
    GPT.or_default (GPT.find_level text) (VStr "B1") = VStr level /\ In level cefr_levels.
Proof.
  unfold GPT.find_level.
  destruct (Re.search GPT.level_pattern text) as [m|] eqn:E.
  - destruct (level_pattern_group _ E) as (level & -> & L).
    exists (PyStr.upper level). split; [reflexivity | exact L].
  - exists "B1". split; [reflexivity | cbn; tauto].
Qed.

(** A match of a score pattern has a group, and the group is a number that
    is not negative. *)
Lemma score_pattern_group_nonneg (kind text : string) (m : Re.match_object) :
  Re.search (GPT.score_pattern kind) text = Some m ->
  exists digits x,
    Re.group1 m = Some digits /\ GPT.py_float digits = Ok x /\ float_le (Fin 0) x = true.
Proof.
  intros H. apply search_match_at in H. destruct H as (s & H).
  unfold Re.match_at, GPT.score_pattern in H. cbn [Re.run] in H.
  apply run_sound in H. destruct H as (w1 & s1 & g1 & _ & _ & H).
  change (Re.star_loop ?a ?b ?c ?d ?e) with (Re.run (Re.Star Re.underscore_or_space) d e b) in H.
  apply run_sound in H. destruct H as (w2 & s2 & g2 & _ & _ & H).
  apply run_sound in H. destruct H as (w3 & s3 & g3 & _ & _ & H).
  change (Re.star_loop ?a ?b ?c ?d ?e) with (Re.run (Re.Star Re.colon_or_space) d e b) in H.
  apply run_sound in H. destruct H as (w4 & s4 & g4 & _ & _ & H).
  change (Re.run Re.number s4 g4 ?k) with
    (Re.run (Re.Group Re.number) s4 g4
       (fun rest g => Some {| Re.group0 := Re.consumed s rest; Re.group1 := g |})) in H.
  apply run_group_last in H. destruct H as (w & rest & _ & M & H).
  injection H as <-. cbn [Re.group1].
  destruct (py_float_number_nonneg M) as (q & F & Q). eauto.
Qed.

(** The score a search of [_fallback_parse] leaves, or the default. *)
Lemma find_score_nonneg (kind text : string) (default : Q) :
  (0 <= default)%Q ->
  exists found x,
    GPT.find_score kind text = Ok found /\
    GPT.or_default found (VFloat (Fin default)) = VFloat x /\ float_le (Fin 0) x = true.
Proof.
  intros D. unfold GPT.find_score.
  destruct (Re.search (GPT.score_pattern kind) text) as [m|] eqn:E.
  - destruct (score_pattern_group_nonneg _ _ E) as (digits & x & -> & -> & Q).
    cbn [bind]. exists (Some (VFloat x)), x.
    split; [reflexivity|]. split; [reflexivity | exact Q].
  - exists None, (Fin default). split; [reflexivity|].
    split; [reflexivity | apply float_le_fin; exact D].
Qed.

Lemma fallback_parse_shape (text : string) :
  exists o g v f p c level,
    GPT._fallback_parse text = Ok (VDict [
      ("overall_score", VFloat o);
      ("grammar_score", VFloat g);
      ("vocabulary_score", VFloat v);
      ("fluency_score", VFloat f);
      ("pronunciation_score", VFloat p);
      ("comprehension_score", VFloat c);
      ("proficiency_level", VStr level);
      ("strengths", strs ["Good communication effort"; "Clear expression"]);
      ("areas_for_improvement", strs ["Continue practicing"; "Expand vocabulary"]);
      ("recommendations", strs ["Keep practicing regularly"; "Read more English texts"]);
      ("detailed_feedback", VDict [
         ("grammar_notes", VStr "Basic grammar structure observed");
         ("vocabulary_notes", VStr "Appropriate word choice");
         ("fluency_notes", VStr "Clear communication");
         ("pronunciation_notes", VStr "Text-based analysis");
         ("comprehension_notes", VStr "Good understanding demonstrated")]);
      ("grammar_errors", VList []);
      ("vocabulary_analysis", VList [])]) /\
    Forall (fun x => float_le (Fin 0) x = true) [o; g; v; f; p; c] /\
    In level cefr_levels.
Proof.
  unfold GPT._fallback_parse.
  destruct (@find_score_nonneg "overall" text 50.0 ltac:(lra)) as (fo & o & Fo & Do & Ho).
  destruct (@find_score_nonneg "grammar" text 12.5 ltac:(lra)) as (fg & g & Fg & Dg & Hg).
  destruct (@find_score_nonneg "vocabulary" text 10.0 ltac:(lra)) as (fv & v & Fv & Dv & Hv).
  destruct (@find_score_nonneg "fluency" text 10.0 ltac:(lra)) as (ff & f & Ff & Df & Hf).
  destruct (@find_score_nonneg "pronunciation" text 7.5 ltac:(lra)) as (fp & p & Fp & Dp & Hp).
  destruct (@find_score_nonneg "comprehension" text 10.0 ltac:(lra)) as (fc & c & Fc & Dc & Hc).
  destruct (find_level_cefr text) as (level & Dl & L).
  rewrite Fo, Fg, Fv, Ff, Fp, Fc. cbn [bind]. rewrite Do, Dg, Dv, Df, Dp, Dc, Dl.
  exists o, g, v, f, p, c, level.
  split; [reflexivity|]. split; [|exact L].
  repeat (constructor; [assumption|]). constructor.
Qed.

(* ------------------------------------------------------------------ *)
(** *** Tokens and endpoints *)

Section AuthFacts.
Variable jwt_encode : list (string * pyval) -> M string.
Variable jwt_decode : string -> Auth.decoded.
Variable utcnow : Z.
Variable self : Auth.AuthService.

Lemma differs_from_false (v : pyval) (s : string) :
  Auth.differs_from v s = false <-> v = VStr s.
Proof.
  destruct v; cbn; try (split; [discriminate | intros H; discriminate]).
  destruct (String.eqb_spec s0 s); cbn; split; congruence.
Qed.

Lemma typed_payload_not_empty (type : string) (payload : list (string * pyval)) :
  Auth.get payload "type" = VStr type -> payload <> [].
Proof. intros H ->. discriminate. Qed.

Lemma get_user_from_token_spec (token : string) :
  exists user,
    Auth.get_user_from_token jwt_decode self token = Ok user /\
    (forall u, user = Some u <->
       exists payload,
         token_of_type jwt_decode "access" token payload /\
         u = {| Auth.id := Auth.get payload "sub";
                Auth.email := Auth.get payload "email";
                Auth.role := Auth.get payload "role" |}).
Proof.
  unfold Auth.get_user_from_token, Auth.verify_token, token_of_type.
  destruct (jwt_decode token) as [payload| |e] eqn:D; cbn [bind try_except].
  - destruct payload as [|entry payload].
    + exists None. split; [reflexivity|]. intros u. split; [discriminate|].
      intros (p & (E & T & _) & _). injection E as <-. discriminate.
    + set (claims := entry :: payload) in *.
      destruct (Auth.differs_from (Auth.get claims "type") "access") eqn:T.
      * exists None. split; [reflexivity|]. intros u. split; [discriminate|].
        intros (p & (E & T' & _) & _). injection E as <-.
        apply differs_from_false in T'. congruence.
      * apply differs_from_false in T.
        destruct (ConversationService.truthy (Auth.get claims "sub")) eqn:S; cbn [negb].
        -- eexists. split; [reflexivity|]. intros u. split.
           ++ intros U. injection U as <-. exists claims. auto.
           ++ intros (p & (E & _ & _) & ->). injection E as <-. reflexivity.
        -- exists None. split; [reflexivity|]. intros u. split; [discriminate|].
           intros (p & (E & _ & S') & _). injection E as <-. congruence.
  - exists None. split; [reflexivity|]. intros u. split; [discriminate|].
    intros (p & (E & _) & _). discriminate.
  - exists None. split; [reflexivity|]. intros u. split; [discriminate|].
    intros (p & (E & _) & _). discriminate.
Qed.

Lemma refresh_access_token_spec (refresh_token : string) :
  exists result,
    Auth.refresh_access_token jwt_encode jwt_decode utcnow self refresh_token = Ok result /\
    (forall access, result = Some access ->
       exists payload,
         token_of_type jwt_decode "refresh" refresh_token payload /\
         Auth.create_access_token jwt_encode utcnow self
           [("sub", Auth.get payload "sub");
            ("email", Auth.get payload "email");
            ("role", Auth.get payload "role")] None = Ok access).
Proof.
  unfold Auth.refresh_access_token, Auth.verify_token, token_of_type.
  destruct (jwt_decode refresh_token) as [payload| |e] eqn:D; cbn [bind try_except];
    try (exists None; split; [reflexivity | discriminate]).
  destruct payload as [|entry payload];
    [exists None; split; [reflexivity | discriminate]|].
  set (claims := entry :: payload) in *.
  destruct (Auth.differs_from (Auth.get claims "type") "refresh") eqn:T;
    [exists None; split; [reflexivity | discriminate]|].
  apply differs_from_false in T.
  destruct (ConversationService.truthy (Auth.get claims "sub")) eqn:S; cbn [negb];
    [|exists None; split; [reflexivity | discriminate]].
  destruct (Auth.create_access_token jwt_encode utcnow self _ None) as [access|e] eqn:A;
    cbn [bind try_except]; [|exists None; split; [reflexivity | discriminate]].
  eexists. split; [reflexivity|]. intros a E. injection E as <-.
  exists claims. auto.
Qed.

End AuthFacts.

Lemma progress_returns (Session UUID : Type)
    (q1 q2 q3 q4 : Session -> UUID -> M pyval)
    (q5 : Session -> UUID -> M (list ConversationService.trend_row))
    (user_id : UUID) (db : Session) :
  exists progress,
    ConversationService.get_user_progress q1 q2 q3 q4 q5 user_id db = Ok progress.
Proof.
  unfold ConversationService.get_user_progress.
  match goal with |- exists p, try_except ?body _ = _ => destruct body as [d|e] end;
    cbn [try_except]; eauto.
Qed.

Section ApiFacts.
Variables Session Conversation ConversationResponse : Type.
Variable exn_str : exn -> string.
Variable jwt_decode : string -> Auth.decoded.
Variable auth_service : Auth.AuthService.
Variable select_conversation : Session -> string -> pyval -> M (option Conversation).
Variable from_orm : Conversation -> M ConversationResponse.
Variable count_conversations : Session -> string -> M pyval.
Variable average_overall_score : Session -> string -> M pyval.
Variable latest_proficiency_level : Session -> string -> M pyval.
Variable last_conversation_created_at : Session -> string -> M pyval.
Variable last_ten_evaluations : Session -> string -> M (list ConversationService.trend_row).

Lemma get_current_user_spec (credentials : string) :
  Api.get_current_user jwt_decode auth_service credentials =
    match Auth.get_user_from_token jwt_decode auth_service credentials with
    | Ok (Some user) => Ok user
    | _ => Raise (HTTPException 401 "Could not validate credentials")
    end.
Proof.
  unfold Api.get_current_user.
  destruct (Auth.get_user_from_token jwt_decode auth_service credentials) as [[user|]|e];
    reflexivity.
Qed.

Lemma get_conversation_spec (conversation_id : string) (current_user : Auth.User)
    (db : Session) :
  let not_found := HTTPException 404 "Conversation not found" in
  Api.get_conversation exn_str select_conversation from_orm conversation_id current_user db =
    match select_conversation db conversation_id (Auth.id current_user) with
    | Ok (Some conversation) =>
        match from_orm conversation with
        | Ok response => Ok response
        | Raise e => Raise (HTTPException 500 (exn_str e))
        end
    | _ => Raise (HTTPException 500 (exn_str not_found))
    end.
Proof.
  cbv zeta. unfold Api.get_conversation, ConversationQueries.get_conversation.
  destruct (select_conversation db conversation_id (Auth.id current_user))
    as [[conversation|]|e]; cbn [try_except bind]; [|reflexivity|reflexivity].
  destruct (from_orm conversation); reflexivity.
Qed.

End ApiFacts.

(* ================================================================== *)
(** ** Further properties of the services: statements *)

(* ------------------------------------------------------------------ *)
(** *** The grammar analyses *)

(** X1.  [_fallback_grammar_analysis] returns for every text.  Its score is
    a number between 1 and 25; its errors are all of the type "repetition",
    one for each word that repeats the word before it (whatever the case),
    and [error_count] is their number. *)
Theorem fallback_grammar_score_in_range :
  forall (Tokenizer Model : Type) (self : LLaMA.LLaMAAnalysisService Tokenizer Model)
         (text : string),
    exists score errors error_rate,
      LLaMAAnalysers._fallback_grammar_analysis self text =
        Ok (VDict [("score", of_num score);
                   ("errors", VList errors);
                   ("error_count", VInt (Z.of_nat (List.length errors)));
                   ("error_rate", of_num error_rate)]) /\
      finite_in 1 25 score /\
      Forall (error_of_type "repetition") errors /\
      Z.of_nat (List.length errors) = adjacent_repeats (PyStr.split text).
Proof.
  intros Tokenizer Model self text.
  destruct (fallback_grammar_returns self text)
    as (score & errors & rate & E & F & N & S & _).
  exists score, errors, rate. auto.
Qed.

(** X2.  A text of fewer than five words gets the grammar score 1 from
    [_fallback_grammar_analysis], whatever it says: the two reductions for
    short texts take more than the base score holds.  A text of fewer than
    ten words gets at most 10. *)
Theorem fallback_grammar_short_text :
  forall (Tokenizer Model : Type) (self : LLaMA.LLaMAAnalysisService Tokenizer Model)
         (text : string),
    let word_count := Z.of_nat (List.length (PyStr.split text)) in
    exists score d,
      LLaMAAnalysers._fallback_grammar_analysis self text = Ok d /\
      field "score" d = Some (of_num score) /\
      (word_count < 5 -> score = NInt 1) /\
      (word_count < 10 -> finite_in 1 10 score).
Proof.
  intros Tokenizer Model self text. cbv zeta.
  destruct (fallback_grammar_returns self text)
    as (score & errors & rate & E & _ & _ & _ & S5 & S10 & _).
  exists score. eexists. split; [exact E|]. split; [reflexivity|]. auto.
Qed.

(** A concrete run of the statement above. *)
Lemma fallback_grammar_short_text_witness :
  Z.of_nat (List.length (PyStr.split "I like like tea")) < 5 /\
  exists d,
    LLaMAAnalysers._fallback_grammar_analysis Sample.service "I like like tea" = Ok d /\
    field "score" d = Some (VInt 1).
Proof.
  split; [vm_compute; reflexivity|].
  destruct (fallback_grammar_short_text Sample.service "I like like tea")
    as (score & d & E & F & S5 & _).
  exists d. split; [exact E|]. rewrite F, S5; [reflexivity | vm_compute; reflexivity].
Defined.

(** X3.  A text of ten words or more in which no word repeats the word
    before it gets the full grammar score 25 from
    [_fallback_grammar_analysis], with an empty list of errors. *)
Theorem fallback_grammar_clean_text :
  forall (Tokenizer Model : Type) (self : LLaMA.LLaMAAnalysisService Tokenizer Model)
         (text : string),
    adjacent_repeats (PyStr.split text) = 0 ->
    10 <= Z.of_nat (List.length (PyStr.split text)) ->
    exists d,
      LLaMAAnalysers._fallback_grammar_analysis self text = Ok d /\
      field "score" d = Some (VInt 25) /\
      field "errors" d = Some (VList []) /\
      field "error_count" d = Some (VInt 0).
Proof.
  intros Tokenizer Model self text R W.
  destruct (fallback_grammar_returns self text)
    as (score & errors & rate & E & _ & N & _ & _ & _ & S25).
  rewrite R in N. destruct errors as [|error errors]; [|cbn [List.length] in N; lia].
  rewrite (S25 R W) in E. eexists. split; [exact E|]. repeat split.
Qed.

(** A concrete run of the statement above. *)
Lemma fallback_grammar_clean_text_witness :
  adjacent_repeats (PyStr.split Cases.clean_text) = 0 /\
  10 <= Z.of_nat (List.length (PyStr.split Cases.clean_text)) /\
  exists d,
    LLaMAAnalysers._fallback_grammar_analysis Sample.service Cases.clean_text = Ok d /\
    field "score" d = Some (VInt 25) /\
    field "errors" d = Some (VList []) /\
    field "error_count" d = Some (VInt 0).
Proof.
  split; [vm_compute; reflexivity|]. split; [vm_compute; discriminate|].
  apply (fallback_grammar_clean_text Sample.service Cases.clean_text);
    [vm_compute; reflexivity | vm_compute; discriminate].
Defined.

(** X4.  [_analyze_grammar] without a spaCy pipeline is
    [_fallback_grammar_analysis].  With one, an exception of the pipeline
    passes through; otherwise the analysis returns, and since
    [_check_subject_verb_agreement] answers [True] on every path, every
    error it reports is of the type "article_usage": at most one for each
    token.  The score is between 1 and 25, and it is 1 for a text of fewer
    than five words. *)
Theorem analyze_grammar_reports_articles_only :
  forall (Tokenizer Model : Type) (nlp : option (string -> M Spacy.Doc))
         (self : LLaMA.LLaMAAnalysisService Tokenizer Model) (text : string),
    (forall subject verb,
       LLaMAAnalysers._check_subject_verb_agreement self subject verb = true) /\
    match nlp with
    | None =>
        LLaMAAnalysers._analyze_grammar nlp self text =
          LLaMAAnalysers._fallback_grammar_analysis self text
    | Some pipeline =>
        (forall e, pipeline text = Raise e ->
           LLaMAAnalysers._analyze_grammar nlp self text = Raise e) /\
        (forall doc, pipeline text = Ok doc ->
           exists score errors error_rate,
             LLaMAAnalysers._analyze_grammar nlp self text =
               Ok (VDict [("score", of_num score);
                          ("errors", VList errors);
                          ("error_count", VInt (Z.of_nat (List.length errors)));
                          ("error_rate", of_num error_rate)]) /\
             Forall (error_of_type "article_usage") errors /\
             (List.length errors <= List.length doc)%nat /\
             finite_in 1 25 score /\
             (Z.of_nat (List.length (PyStr.split text)) < 5 -> score = NInt 1))
    end.
Proof.
  intros Tokenizer Model nlp self text.
  split; [apply check_subject_verb_agreement_true|].
  destruct nlp as [pipeline|]; [|reflexivity].
  unfold LLaMAAnalysers._analyze_grammar. split.
  - intros e ->. reflexivity.
  - intros doc ->. cbn [bind].
    destruct (grammar_steps self doc (combine (seq 0 (List.length doc)) doc) [] 0)
      as (found & -> & F & L).
    cbn [app Z.add].
    destruct (@grammar_scoring_spec (Z.of_nat (List.length found))
                (Z.of_nat (List.length (PyStr.split text))))
      as (score & rate & -> & S & S5 & _); [lia | lia |].
    cbn [bind]. exists score, found, rate.
    split; [reflexivity|]. split; [exact F|].
    split; [|split; [exact S | exact S5]].
    rewrite length_combine, length_seq, Nat.min_id in L. exact L.
Qed.

(** A concrete run of the statement above. *)
Lemma analyze_grammar_reports_articles_only_witness :
  LLaMAAnalysers._analyze_grammar (Some Cases.broken_pipeline) Sample.service "an cat"
    = Raise ValueError /\
  exists score errors error_rate,
    LLaMAAnalysers._analyze_grammar (Some Cases.article_pipeline) Sample.service "an cat" =
      Ok (VDict [("score", of_num score);
                 ("errors", VList errors);
                 ("error_count", VInt (Z.of_nat (List.length errors)));
                 ("error_rate", of_num error_rate)]) /\
    Forall (error_of_type "article_usage") errors /\
    score = NInt 1.
Proof.
  split.
  - destruct (analyze_grammar_reports_articles_only (Some Cases.broken_pipeline)
                Sample.service "an cat") as (_ & H & _).
    apply H. reflexivity.
  - destruct (analyze_grammar_reports_articles_only (Some Cases.article_pipeline)
                Sample.service "an cat") as (_ & _ & H).
    destruct (H _ eq_refl) as (score & errors & rate & E & F & _ & _ & S5).
    exists score, errors, rate. split; [exact E|]. split; [exact F|].
    apply S5. vm_compute. reflexivity.
Defined.

(* ------------------------------------------------------------------ *)
(** *** Fluency *)

(** X5.  [_analyze_fluency] returns for every text and every duration, zero,
    infinite and NaN included.  The score is 0 for a text without words, and
    a number between 0.1 and 20 for any other text. *)
Theorem fluency_score_in_range :
  forall (Tokenizer Model : Type) (self : LLaMA.LLaMAAnalysisService Tokenizer Model)
         (text : string) (duration : option pyfloat),
    let word_count := Z.of_nat (List.length (PyStr.split text)) in
    (word_count = 0 ->
     LLaMAAnalysers._analyze_fluency self text duration =
       Ok (VDict [("score", VInt 0); ("metrics", VDict [])])) /\
    (0 < word_count ->
     exists score metrics,
       LLaMAAnalysers._analyze_fluency self text duration =
         Ok (VDict [("score", of_num score); ("metrics", VDict metrics)]) /\
       finite_in 0.1 20 score).
Proof.
  intros Tokenizer Model self text duration. cbv zeta.
  destruct (fluency_spec self text duration) as [Z P]. split; [exact Z|].
  intros W. destruct (P W) as (score & metrics & E & S & _).
  exists score, metrics. auto.
Qed.

(** A concrete run of the statement above. *)
Lemma fluency_score_in_range_witness :
  LLaMAAnalysers._analyze_fluency Sample.service "   " (Some NaN) =
    Ok (VDict [("score", VInt 0); ("metrics", VDict [])]) /\
  exists score metrics,
    LLaMAAnalysers._analyze_fluency Sample.service "We went home. It rained!" (Some NaN) =
      Ok (VDict [("score", of_num score); ("metrics", VDict metrics)]) /\
    finite_in 0.1 20 score.
Proof.
  split.
  - destruct (fluency_score_in_range Sample.service "   " (Some NaN)) as (H & _).
    apply H. vm_compute. reflexivity.
  - destruct (fluency_score_in_range Sample.service "We went home. It rained!" (Some NaN))
      as (_ & H).
    apply H. vm_compute. reflexivity.
Defined.

(** X6.  The fluency score of a short text is decided by its length: it is
    exactly 0.1 for one or two words, at most 3 for fewer than five words
    and at most 10 for fewer than ten.  From ten words on it is at least 7,
    whatever the text and the duration. *)
Theorem fluency_score_by_length :
  forall (Tokenizer Model : Type) (self : LLaMA.LLaMAAnalysisService Tokenizer Model)
         (text : string) (duration : option pyfloat),
    let word_count := Z.of_nat (List.length (PyStr.split text)) in
    0 < word_count ->
    exists score d,
      LLaMAAnalysers._analyze_fluency self text duration = Ok d /\
      field "score" d = Some (of_num score) /\
      (word_count < 3 -> score = LLaMA.fl 0.1) /\
      (word_count < 5 -> finite_in 0.1 3 score) /\
      (word_count < 10 -> finite_in 0.1 10 score) /\
      (10 <= word_count -> finite_in 7 20 score).
Proof.
  intros Tokenizer Model self text duration. cbv zeta. intros W.
  destruct (fluency_spec self text duration) as [_ P].
  destruct (P W) as (score & metrics & E & _ & S).
  exists score. eexists. split; [exact E|]. split; [reflexivity | exact S].
Qed.

(** A concrete run of the statement above. *)
Lemma fluency_score_by_length_witness :
  exists d,
    LLaMAAnalysers._analyze_fluency Sample.service "Good morning" (Some (Fin 2)) = Ok d /\
    field "score" d = Some (VFloat (Fin 0.1)).
Proof.
  destruct (fluency_score_by_length Sample.service "Good morning" (Some (Fin 2)))
    as (score & d & E & F & S3 & _); [vm_compute; reflexivity|].
  exists d. split; [exact E|]. rewrite F, S3; [reflexivity | vm_compute; reflexivity].
Defined.

(* ------------------------------------------------------------------ *)
(** *** Vocabulary and comprehension *)

(** X7.  [_analyze_vocabulary] keeps its score between 0.1 and 20 exactly
    for the texts of 1 to 133 words: from 134 words on the score is above
    20, whatever the words are. *)
Theorem vocabulary_score_in_range :
  forall (Tokenizer Model : Type) (self : LLaMA.LLaMAAnalysisService Tokenizer Model)
         (text : string),
    let n := Z.of_nat (List.length (PyStr.split (PyStr.lower text))) in
    0 < n ->
    exists score feedback,
      LLaMA._analyze_vocabulary self text =
        Ok (VDict [("score", of_num score); ("feedback", VStr feedback)]) /\
      (n <= 133 -> finite_in 0.1 20 score) /\
      (134 <= n -> num_lt (NInt 20) score = true).
Proof.
  intros Tokenizer Model self text. cbv zeta. intros W.
  destruct (vocabulary_spec self text) as [_ P].
  destruct (P W) as (score & feedback & E & S & _).
  exists score, feedback. split; [exact E|]. split; [exact S|].
  intros L. destruct (vocabulary_score_of_long_text self text L) as (s' & f' & E' & G).
  rewrite E in E'. injection E' as E1 _.
  assert (score = s') as -> by (destruct score, s'; cbn in E1; congruence).
  exact G.
Qed.

(** A concrete run of the statement above. *)
Lemma vocabulary_score_in_range_witness :
  exists score feedback,
    LLaMA._analyze_vocabulary Sample.service Cases.clean_text =
      Ok (VDict [("score", of_num score); ("feedback", VStr feedback)]) /\
    finite_in 0.1 20 score.
Proof.
  destruct (vocabulary_score_in_range Sample.service Cases.clean_text)
    as (score & feedback & E & S & _); [vm_compute; reflexivity|].
  exists score, feedback. split; [exact E|]. apply S. vm_compute. discriminate.
Defined.

(** X8.  For a text of one, two or three words the vocabulary score is the
    floor of its length, whatever the words are (common or not, misspelt or
    not): 0.1 for one word, [2 * 0.2] for two and [3 * 0.3] for three. *)
Theorem vocabulary_score_of_short_text :
  forall (Tokenizer Model : Type) (self : LLaMA.LLaMAAnalysisService Tokenizer Model)
         (text : string),
    let n := Z.of_nat (List.length (PyStr.split (PyStr.lower text))) in
    0 < n ->
    exists score d,
      LLaMA._analyze_vocabulary self text = Ok d /\
      field "score" d = Some (of_num score) /\
      (n = 1 -> score = LLaMA.fl 0.1) /\
      (n = 2 -> score = num_mul (NInt 2) (LLaMA.fl 0.2)) /\
      (n = 3 -> score = num_mul (NInt 3) (LLaMA.fl 0.3)).
Proof.
  intros Tokenizer Model self text. cbv zeta. intros W.
  destruct (vocabulary_spec self text) as [_ P].
  destruct (P W) as (score & feedback & E & _ & S).
  exists score. eexists. split; [exact E|]. split; [reflexivity | exact S].
Qed.

(** A concrete run of the statement above. *)
Lemma vocabulary_score_of_short_text_witness :
  (exists d, LLaMA._analyze_vocabulary Sample.service "Sophisticated!" = Ok d /\
             field "score" d = Some (VFloat (Fin 0.1))) /\
  (exists d, LLaMA._analyze_vocabulary Sample.service "qqq zzz" = Ok d /\
             field "score" d = Some (of_num (num_mul (NInt 2) (LLaMA.fl 0.2)))).
Proof.
  split.
  - destruct (vocabulary_score_of_short_text Sample.service "Sophisticated!")
      as (score & d & E & F & S1 & _); [vm_compute; reflexivity|].
    exists d. split; [exact E|]. rewrite F, S1; reflexivity.
  - destruct (vocabulary_score_of_short_text Sample.service "qqq zzz")
      as (score & d & E & F & _ & S2 & _); [vm_compute; reflexivity|].
    exists d. split; [exact E|]. rewrite F, S2; reflexivity.
Defined.

(** X9.  [_enhanced_comprehension_analysis] returns 0 for a text without
    words and a number between 4 and 20 for any other text: a single word
    already gets 4 of the 20 points. *)
Theorem comprehension_score_in_range :
  forall (Tokenizer Model : Type) (self : LLaMA.LLaMAAnalysisService Tokenizer Model)
         (text : string) (context : option string),
    let word_count := Z.of_nat (List.length (PyStr.split text)) in
    (word_count = 0 ->
     LLaMA._enhanced_comprehension_analysis self text context = Ok (NInt 0)) /\
    (0 < word_count ->
     exists score,
       LLaMA._enhanced_comprehension_analysis self text context = Ok score /\
       finite_in 4 20 score).
Proof. intros Tokenizer Model self text context. apply comprehension_spec. Qed.

(** A concrete run of the statement above. *)
Lemma comprehension_score_in_range_witness :
  LLaMA._enhanced_comprehension_analysis Sample.service "" None = Ok (NInt 0) /\
  exists score,
    LLaMA._enhanced_comprehension_analysis Sample.service "Yes" None = Ok score /\
    finite_in 4 20 score.
Proof.
  split.
  - destruct (comprehension_score_in_range Sample.service "" None) as (H & _).
    apply H. reflexivity.
  - destruct (comprehension_score_in_range Sample.service "Yes" None) as (_ & H).
    apply H. vm_compute. reflexivity.
Defined.

(* ------------------------------------------------------------------ *)
(** *** Reading the answers of the language model *)

(** X10.  For a maximum that is not negative, [_extract_score_from_response]
    returns for every answer, and the score is a number between 0 and the
    maximum: a number the answer gives above the maximum is cut down to it.
    An answer without a digit gets half the maximum. *)
Theorem extracted_score_in_range :
  forall (Tokenizer Model : Type) (self : LLaMA.LLaMAAnalysisService Tokenizer Model)
         (response : string) (max_score : Z),
    0 <= max_score ->
    exists score,
      LLaMAAnalysers._extract_score_from_response self response max_score = Ok score /\
      finite_in 0 (inject_Z max_score) score /\
      (has_digit response = false ->
       num_truediv (NInt max_score) (NInt 2) = Ok score).
Proof.
  intros Tokenizer Model self response max_score H.
  unfold LLaMAAnalysers._extract_score_from_response.
  destruct (@extract_score_spec max_score response H
              (LLaMAAnalysers.score_patterns max_score) (incl_refl _))
    as (score & E & S & D).
  exists score. split; [exact E|]. split; [exact S|].
  intros N. rewrite (D N). apply truediv_nonzero. lia.
Qed.

(** A concrete run of the statement above. *)
Lemma extracted_score_in_range_witness :
  LLaMAAnalysers._extract_score_from_response Sample.service "A fine text." 20
    = Ok (NFloat (Fin (inject_Z 20 / inject_Z 2))) /\
  exists score,
    LLaMAAnalysers._extract_score_from_response Sample.service "I give 85 points" 20
      = Ok score /\
    finite_in 0 20 score.
Proof.
  split.
  - destruct (extracted_score_in_range Sample.service "A fine text." (max_score := 20))
      as (score & E & _ & D); [lia|].
    rewrite E. symmetry. rewrite <- (D eq_refl). reflexivity.
  - destruct (extracted_score_in_range Sample.service "I give 85 points" (max_score := 20))
      as (score & E & S & _); [lia|].
    exists score. split; [exact E | exact S].
Defined.

(** X11.  [_analyze_comprehension] returns for every text, whatever the
    language model does, and its score is a number between 0 and 20.  When
    the generation raises, the score is the one of
    [_enhanced_comprehension_analysis]. *)
Theorem analyze_comprehension_in_range :
  forall (Tokenizer Model : Type)
         (generate_and_decode : Tokenizer -> Model -> string -> Z -> M string)
         (self : LLaMA.LLaMAAnalysisService Tokenizer Model)
         (text : string) (context : option string),
    exists score heuristic,
      LLaMAAnalysers._analyze_comprehension generate_and_decode self text context =
        Ok (VDict [("score", of_num score);
                   ("analysis", VStr "Enhanced comprehension analysis completed")]) /\
      LLaMA._enhanced_comprehension_analysis self text context = Ok heuristic /\
      finite_in 0 20 score /\
      (forall e,
         generate_and_decode (LLaMA.tokenizer self) (LLaMA.model self)
           (LLaMAAnalysers.comprehension_prompt text context) 500 = Raise e ->
         num_eq score heuristic = true).
Proof.
  intros Tokenizer Model generate_and_decode self text context.
  unfold LLaMAAnalysers._analyze_comprehension.
  destruct (heuristic_in_range self text context) as (h & -> & H). cbn [bind].
  unfold LLaMA._generate_llama_response.
  destruct (generate_and_decode _ _ _ _) as [response|e] eqn:G; cbn [bind try_except].
  - unfold LLaMAAnalysers._extract_score_from_response.
    destruct (@extract_score_spec 20 (PyStr.strip response) ltac:(lia)
                (LLaMAAnalysers.score_patterns 20) (incl_refl _)) as (l & -> & L & _).
    cbn [bind try_except]. do 2 eexists. split; [reflexivity|]. split; [reflexivity|].
    split; [|intros e' E'; discriminate].
    eapply finite_min;
      [apply finite_int
      | apply finite_add;
          [apply (finite_mul H (finite_fl 0.6)); lra
          | apply (finite_mul L (finite_fl 0.4)); lra]
      | qlra | qlra | left; qlra].
  - do 2 eexists. split; [reflexivity|]. split; [reflexivity|]. split.
    + eapply finite_min; [apply finite_int | exact H | qlra | lra | left; qlra].
    + intros _ _. apply min_20_same. exact H.
Qed.

(** A concrete run of the statement above. *)
Lemma analyze_comprehension_in_range_witness :
  exists score heuristic,
    LLaMAAnalysers._analyze_comprehension Sample.out_of_memory Sample.service
      "We went home because it rained." None =
      Ok (VDict [("score", of_num score);
                 ("analysis", VStr "Enhanced comprehension analysis completed")]) /\
    LLaMA._enhanced_comprehension_analysis Sample.service
      "We went home because it rained." None = Ok heuristic /\
    num_eq score heuristic = true.
Proof.
  destruct (analyze_comprehension_in_range Sample.out_of_memory Sample.service
              "We went home because it rained." None)
    as (score & heuristic & E & H & _ & F).
  exists score, heuristic. split; [exact E|]. split; [exact H|].
  apply (F (OtherError "CUDA out of memory")). reflexivity.
Defined.

(** X12.  [_generate_llama_feedback] never raises.  It returns what
    [json.loads] reads between the first and the last brace of the answer,
    and the fixed feedback of [_generate_fallback_feedback] in every other
    case: when the generation raises, when the answer has no braces, and
    when [json.loads] raises, a [JSONDecodeError] or anything else. *)
Theorem llama_feedback_never_raises :
  forall (Tokenizer Model : Type)
         (generate_and_decode : Tokenizer -> Model -> string -> Z -> M string)
         (json_loads : string -> M pyval)
         (self : LLaMA.LLaMAAnalysisService Tokenizer Model)
         (text : string) (context : option string),
    let fixed := LLaMAAnalysers._generate_fallback_feedback self "" in
    LLaMAAnalysers._generate_llama_feedback generate_and_decode json_loads self text context =
      Ok (match generate_and_decode (LLaMA.tokenizer self) (LLaMA.model self)
                  (LLaMAAnalysers.feedback_prompt text context) 500 with
          | Ok response =>
              match Re.search GPT.json_pattern (PyStr.strip response) with
              | Some json_match =>
                  match json_loads (Re.group0 json_match) with
                  | Ok data => data
                  | Raise _ => fixed
                  end
              | None => fixed
              end
          | Raise _ => fixed
          end).
Proof.
  intros Tokenizer Model generate_and_decode json_loads self text context.
  cbv zeta. unfold LLaMAAnalysers._generate_llama_feedback, LLaMA._generate_llama_response.
  destruct (generate_and_decode _ _ _ _) as [response|e]; cbn [bind try_except]; [|reflexivity].
  unfold LLaMAAnalysers._parse_json_response.
  destruct (Re.search GPT.json_pattern (PyStr.strip response)) as [m|]; [|reflexivity].
  destruct (json_loads (Re.group0 m)) as [data|e]; cbn; [reflexivity|].
  destruct e; reflexivity.
Qed.

(* ------------------------------------------------------------------ *)
(** *** Words, models and the fallback comprehension score *)

(** X13.  [_calculate_word_complexity] returns for every word, and the
    complexity is a number between 0.2 and 3.  On the way,
    [_count_syllables] counts at least one syllable,
    [_assess_morphological_complexity] stays between 0 and 2 and
    [_get_word_frequency_score] between 0.1 and 0.9. *)
Theorem word_complexity_in_range :
  forall (Tokenizer Model : Type) (self : LLaMA.LLaMAAnalysisService Tokenizer Model)
         (word : string),
    (exists complexity,
       LLaMAAnalysers._calculate_word_complexity self word = Ok complexity /\
       finite_in 0.2 3 complexity) /\
    1 <= LLaMAAnalysers._count_syllables self word /\
    finite_in 0 2 (LLaMAAnalysers._assess_morphological_complexity self word) /\
    finite_in 0.1 0.9 (LLaMAAnalysers._get_word_frequency_score self word).
Proof.
  intros Tokenizer Model self word.
  split; [|split; [apply count_syllables_positive|];
           split; [apply morphological_complexity_range | apply word_frequency_range]].
  unfold LLaMAAnalysers._calculate_word_complexity.
  assert (L : 0 <= PyStr.len word) by (unfold PyStr.len; lia).
  pose proof (inject_Z_nonneg L) as QL.
  destruct (@finite_div _ _ _ 0 (inject_Z (PyStr.len word)) _ _
              (finite_int (PyStr.len word)) (finite_int 10))
    as (tenth & -> & T); [qlra | qlra | qlra |].
  cbn [bind].
  pose proof (count_syllables_positive self word) as S.
  set (syllables := LLaMAAnalysers._count_syllables self word) in *.
  pose proof (inject_Z_ge_1 S) as QS.
  destruct (@finite_div _ _ _ 0.25 (inject_Z syllables) _ _
              (finite_int syllables) (finite_int 4))
    as (quarter & -> & Q); [qlra | qlra | qlra |].
  cbn [bind].
  assert (LS : finite_in 0 3 (num_mul (num_min tenth (NInt 1)) (NInt 3))).
  { eapply finite_weaken;
      [eapply finite_mul;
         [eapply (@finite_min _ _ _ _ 0 1); [exact T | apply finite_int | lra | qlra | right; qlra]
         | apply finite_int | qlra]
      | qlra | qlra]. }
  assert (SS : finite_in 0.5 2 (num_mul (num_min quarter (NInt 1)) (NInt 2))).
  { eapply finite_weaken;
      [eapply finite_mul;
         [eapply (@finite_min _ _ _ _ 0.25 1); [exact Q | apply finite_int | lra | qlra | right; qlra]
         | apply finite_int | qlra]
      | qlra | qlra]. }
  assert (MS : finite_in 0 4
                 (num_mul (LLaMAAnalysers._assess_morphological_complexity self word) (NInt 2))).
  { eapply finite_weaken;
      [apply (finite_mul (morphological_complexity_range self word) (finite_int 2)); qlra
      | qlra | qlra]. }
  assert (FS : finite_in 0.3 2.7
                 (num_mul (LLaMAAnalysers._get_word_frequency_score self word) (NInt 3))).
  { eapply finite_weaken;
      [apply (finite_mul (word_frequency_range self word) (finite_int 3)); qlra
      | qlra | qlra]. }
  destruct (@finite_div _ _ _ 0.2 3 _ _
              (finite_add (finite_add (finite_add LS SS) MS) FS) (finite_int 4))
    as (complexity & -> & C); [qlra | qlra | qlra |].
  eauto.
Qed.

(** X14.  [_initialize_model] loads the model of the given name when its
    tokenizer and its weights both load; otherwise it loads "gpt2"; and when
    that fails too it raises [RuntimeError] with the message "No suitable
    model could be loaded", whatever the exceptions of the library were. *)
Theorem initialize_model_falls_back_to_gpt2 :
  forall (Tokenizer Model : Type)
         (tokenizer_from_pretrained : string -> M Tokenizer)
         (model_from_pretrained : string -> M Model) (name : string),
    LLaMA._initialize_model tokenizer_from_pretrained model_from_pretrained name =
      match loads tokenizer_from_pretrained model_from_pretrained name with
      | Some (tok, mdl) => Ok (tok, mdl, name)
      | None =>
          match loads tokenizer_from_pretrained model_from_pretrained "gpt2" with
          | Some (tok, mdl) => Ok (tok, mdl, "gpt2")
          | None => Raise (RuntimeError "No suitable model could be loaded")
          end
      end.
Proof.
  intros Tokenizer Model tokenizer_from_pretrained model_from_pretrained name.
  unfold LLaMA._initialize_model, LLaMA._load_fallback_model, loads.
  destruct (tokenizer_from_pretrained name) as [tok|e1];
    [destruct (model_from_pretrained name) as [mdl|e2]; [reflexivity|]|];
    cbn [bind try_except];
    (destruct (tokenizer_from_pretrained "gpt2") as [tok'|e3];
       [destruct (model_from_pretrained "gpt2") as [mdl'|e4]|]; reflexivity).
Qed.

(** X15.  [_fallback_comprehension_score] returns 8, 12, 15 or 18, and it
    returns 8 for a text without words: the mean of no sentence lengths is
    NaN, and every comparison with NaN is false. *)
Theorem fallback_comprehension_score_values :
  forall (Tokenizer Model : Type) (self : LLaMA.LLaMAAnalysisService Tokenizer Model)
         (text : string),
    In (LLaMAAnalysers._fallback_comprehension_score self text)
       [NInt 8; NInt 12; NInt 15; NInt 18] /\
    (PyStr.split text = [] ->
     LLaMAAnalysers._fallback_comprehension_score self text = NInt 8).
Proof.
  intros Tokenizer Model self text. split.
  - unfold LLaMAAnalysers._fallback_comprehension_score.
    destruct (num_gt _ (NInt 15)); [cbn; tauto|].
    destruct (num_gt _ (NInt 10)); [cbn; tauto|].
    destruct (num_gt _ (NInt 5)); cbn; tauto.
  - intros H. apply split_nil_blank in H.
    unfold LLaMAAnalysers._fallback_comprehension_score, LLaMAAnalysers.re_split_sentences.
    rewrite (re_split_blank _ H). cbn [append].
    unfold LLaMAAnalysers.sentence_lengths_of. cbn [filter].
    unfold PyStr.strip. rewrite (rstrip_blank _ H). reflexivity.
Qed.

(** A concrete run of the statement above. *)
Lemma fallback_comprehension_score_values_witness :
  PyStr.split "  " = [] /\
  LLaMAAnalysers._fallback_comprehension_score Sample.service "  " = NInt 8.
Proof.
  split; [reflexivity|].
  destruct (fallback_comprehension_score_values Sample.service "  ") as (_ & H).
  apply H. reflexivity.
Defined.

(* ------------------------------------------------------------------ *)
(** *** The GPT service *)

(** X16.  [_fallback_parse] returns for every text.  Each of its six scores
    is a float that is not negative and not NaN, and its proficiency level
    is one of the six CEFR levels in capitals, also when the text names the
    level in small letters.  A score need not be finite: a score written
    with four hundred digits is read as [inf]. *)
Theorem fallback_parse_scores_and_level :
  (forall (text : string),
     exists d level,
       GPT._fallback_parse text = Ok d /\
       Forall (fun kind =>
                 exists x, field (kind ++ "_score") d = Some (VFloat x) /\
                           float_le (Fin 0) x = true)
              score_types /\
       field "proficiency_level" d = Some (VStr level) /\
       In level cefr_levels) /\
  (exists d,
     GPT._fallback_parse Cases.long_score_answer = Ok d /\
     field "grammar_score" d = Some (VFloat (Inf false)) /\
     field "overall_score" d = Some (VFloat (Fin 50.0))).
Proof.
  split.
  - intros text.
    destruct (fallback_parse_shape text) as (o & g & v & f & p & c & level & E & N & L).
    eexists. exists level. split; [exact E|].
    split; [|split; [reflexivity | exact L]].
    repeat match goal with H : Forall _ (_ :: _) |- _ => inversion H; subst; clear H end.
    unfold score_types.
    repeat (constructor; [eexists; split; [reflexivity | assumption]|]). constructor.
  - eexists. split; [vm_compute; reflexivity|]. split; reflexivity.
Qed.

(** X17.  When the GPT service has a client and the model answers in prose
    (a text without braces, or one whose braces hold no JSON),
    [analyze_conversation] does not fail: it returns the result
    [_fallback_parse] reads from the answer, with scores that are floats,
    not negative and not NaN but possibly [inf], a CEFR level and the fixed
    feedback. *)
Theorem gpt_analysis_of_prose_answer :
  forall (Client : Type)
         (chat_completions_create : Client -> string -> string -> string -> M (option string))
         (json_loads : string -> M pyval) (repr_float : pyfloat -> string)
         (self : GPT.GPTAnalysisService Client)
         (transcript context : string) (audio_duration : option pyfloat)
         (chat : Client) (text : string),
    GPT.client self = Some chat ->
    chat_completions_create chat (GPT.model self) GPT.system_message
      (GPT._create_analysis_prompt repr_float self transcript context audio_duration)
      = Ok (Some text) ->
    (Re.search GPT.json_pattern text = None \/
     exists jm, Re.search GPT.json_pattern text = Some jm /\
                json_loads (Re.group0 jm) = Raise JSONDecodeError) ->
    exists o g v f p c level,
      GPT.analyze_conversation chat_completions_create json_loads repr_float
        self transcript context audio_duration =
        Ok {| GPT.overall_score := VFloat o;
              GPT.grammar_score := VFloat g;
              GPT.vocabulary_score := VFloat v;
              GPT.fluency_score := VFloat f;
              GPT.pronunciation_score := VFloat p;
              GPT.comprehension_score := VFloat c;
              GPT.proficiency_level := VStr level;
              GPT.strengths := strs ["Good communication effort"; "Clear expression"];
              GPT.areas_for_improvement := strs ["Continue practicing"; "Expand vocabulary"];
              GPT.recommendations :=
                strs ["Keep practicing regularly"; "Read more English texts"];
              GPT.detailed_feedback := VDict [
                ("grammar_notes", VStr "Basic grammar structure observed");
                ("vocabulary_notes", VStr "Appropriate word choice");
                ("fluency_notes", VStr "Clear communication");
                ("pronunciation_notes", VStr "Text-based analysis");
                ("comprehension_notes", VStr "Good understanding demonstrated")];
              GPT.grammar_errors := VList [];
              GPT.vocabulary_analysis := VList [] |} /\
      Forall (fun x => float_le (Fin 0) x = true) [o; g; v; f; p; c] /\
      In level cefr_levels.
Proof.
  intros Client chat_completions_create json_loads repr_float self transcript context
         audio_duration chat text.
  intros C A J.
  destruct (fallback_parse_shape text) as (o & g & v & f & p & c & level & F & N & L).
  exists o, g, v, f, p, c, level. split; [|split; [exact N | exact L]].
  unfold GPT.analyze_conversation. rewrite C.
  unfold GPT._get_gpt_analysis. rewrite C, A. cbn [try_except bind].
  unfold GPT._parse_gpt_response.
  destruct J as [J|(jm & J & E)]; rewrite J; [|rewrite E]; cbn [try_except_only];
    rewrite F; reflexivity.
Qed.

(** Two concrete runs of the statement above: an answer with the scores 72
    and 18.5 and the level b2, and an answer whose grammar score has four
    hundred digits. *)
Lemma gpt_analysis_of_prose_answer_witness :
  (exists result,
     GPT.analyze_conversation (Cases.chat_answers Cases.prose_answer) Sample.json_loads
       Cases.repr_float Cases.gpt_service "I like tea" "General conversation" None
       = Ok result /\
     GPT.overall_score result = VFloat (Fin 72) /\
     GPT.grammar_score result = VFloat (Fin 18.5) /\
     GPT.proficiency_level result = VStr "B2" /\
     In (GPT.proficiency_level result) (map VStr cefr_levels)) /\
  (exists result,
     GPT.analyze_conversation (Cases.chat_answers Cases.long_score_answer)
       Sample.json_loads Cases.repr_float Cases.gpt_service
       "I like tea" "General conversation" None
       = Ok result /\
     GPT.grammar_score result = VFloat (Inf false) /\
     GPT.overall_score result = VFloat (Fin 50.0)).
Proof.
  split.
  - destruct (@gpt_analysis_of_prose_answer unit (Cases.chat_answers Cases.prose_answer)
                Sample.json_loads Cases.repr_float Cases.gpt_service
                "I like tea" "General conversation" None tt Cases.prose_answer
                eq_refl eq_refl)
      as (o & g & v & f & p & c & level & E & _ & L).
    + left. vm_compute. reflexivity.
    + assert (E' := E). vm_compute in E'.
      injection E' as Eo Eg _ _ _ _ El. subst o g level.
      eexists. split; [exact E|]. cbn [GPT.overall_score GPT.grammar_score GPT.proficiency_level].
      split; [reflexivity|]. split; [reflexivity|]. split; [reflexivity|].
      apply in_map. exact L.
  - destruct (@gpt_analysis_of_prose_answer unit
                (Cases.chat_answers Cases.long_score_answer)
                Sample.json_loads Cases.repr_float Cases.gpt_service
                "I like tea" "General conversation" None tt Cases.long_score_answer
                eq_refl eq_refl)
      as (o & g & v & f & p & c & level & E & _ & _).
    + left. vm_compute. reflexivity.
    + assert (E' := E). vm_compute in E'.
      injection E' as Eo Eg _ _ _ _ _. subst o g.
      eexists. split; [exact E|]. split; reflexivity.
Defined.

(** X18.  For an analysis whose level is a text,
    [generate_conversation_response] never raises: the reply is the content
    of the chat completion, stripped, or else the sentence of
    [_fallback_response].  It is that sentence when the service has no
    client and when the completion raises.  The sentence is the one of the
    level for the six CEFR levels, and the general one for any other
    level. *)
Theorem conversation_response_never_raises :
  forall (Client : Type)
         (chat_completions_create : Client -> string -> string -> string -> M (option string))
         (py_str : pyval -> string) (self : GPT.GPTAnalysisService Client)
         (user_message : string) (analysis : GPT.GPTAnalysisResult) (topic : string)
         (conversation_history : pyval) (level : string),
    GPT.proficiency_level analysis = VStr level ->
    (exists reply,
       GPTConversation.generate_conversation_response chat_completions_create py_str
         self user_message analysis topic conversation_history = Ok reply /\
       (reply = fallback_sentence level topic \/
        exists chat prompt content,
          GPT.client self = Some chat /\
          chat_completions_create chat (GPT.model self)
            GPTConversation.conversation_system_message prompt = Ok (Some content) /\
          reply = PyStr.strip content) /\
       (GPT.client self = None -> reply = fallback_sentence level topic) /\
       (forall chat prompt e,
          GPT.client self = Some chat ->
          GPTConversation._create_conversation_prompt py_str self user_message analysis
            topic conversation_history = Ok prompt ->
          chat_completions_create chat (GPT.model self)
            GPTConversation.conversation_system_message prompt = Raise e ->
          reply = fallback_sentence level topic)) /\
    (In level cefr_levels ->
     In (level, fallback_sentence level topic) (GPTConversation.responses topic)) /\
    (~ In level cefr_levels ->
     fallback_sentence level topic =
       "That's interesting! Tell me more about " ++ PyStr.lower topic ++ ".").
Proof.
  intros Client chat_completions_create py_str self user_message analysis topic
         conversation_history level L.
  split.
  { assert (F : GPTConversation._fallback_response self user_message analysis topic
                = Ok (fallback_sentence level topic)).
    { unfold GPTConversation._fallback_response. rewrite L. reflexivity. }
    unfold GPTConversation.generate_conversation_response.
    destruct (GPT.client self) as [chat|] eqn:C.
    - destruct (GPTConversation._create_conversation_prompt py_str self user_message analysis
                  topic conversation_history) as [prompt|e] eqn:P; cbn [bind try_except].
      + destruct (chat_completions_create chat (GPT.model self)
                    GPTConversation.conversation_system_message prompt)
          as [[content|]|e] eqn:A; cbn [bind try_except].
        * exists (PyStr.strip content). split; [reflexivity|].
          split; [right; exists chat, prompt, content; auto|].
          split; [discriminate|].
          intros chat' prompt' e' C' P' A'. injection C' as <-. injection P' as <-.
          rewrite A in A'. discriminate.
        * rewrite F. eexists. split; [reflexivity|]. split; [left; reflexivity|].
          split; [discriminate | reflexivity].
        * rewrite F. eexists. split; [reflexivity|]. split; [left; reflexivity|].
          split; [discriminate | reflexivity].
      + rewrite F. eexists. split; [reflexivity|]. split; [left; reflexivity|].
        split; [discriminate | reflexivity].
    - rewrite F. eexists. split; [reflexivity|]. split; [left; reflexivity|].
      split; reflexivity. }
  unfold fallback_sentence, GPTConversation.responses, cefr_levels. split.
  - cbn [In]. intros [<-|[<-|[<-|[<-|[<-|[<-|[]]]]]]]; cbn; tauto.
  - intros N. cbn [GPTConversation.lookup_text].
    repeat match goal with
           | |- context [String.eqb level ?l] =>
               destruct (String.eqb_spec level l) as [->|_];
               [exfalso; apply N; cbn; tauto|]
           end.
    reflexivity.
Qed.

(** A concrete run of the statement above. *)
Lemma conversation_response_never_raises_witness :
  GPTConversation.generate_conversation_response Cases.chat_times_out Cases.py_str
    Cases.gpt_service "I like tea" Cases.analysis "Food" VNone =
    Ok "Interesting point! Your English is getting better. What's your perspective on food?".
Proof.
  destruct (@conversation_response_never_raises unit Cases.chat_times_out Cases.py_str
              Cases.gpt_service "I like tea" Cases.analysis "Food" VNone "B1" eq_refl)
    as ((reply & E & _ & _ & F) & _ & _).
  rewrite E. f_equal.
  rewrite (F tt _ (OtherError "Request timed out.") eq_refl eq_refl eq_refl).
  reflexivity.
Defined.

(* ------------------------------------------------------------------ *)
(** *** Tokens and endpoints *)

(** X19.  [get_current_user] returns the user of the claims when the bearer
    token decodes to claims of the type "access" that name a subject.  For
    every other token it raises [HTTPException] with the status 401 and the
    detail "Could not validate credentials": the exception it raises itself
    for a token without user, with the detail "Invalid authentication
    credentials", is caught by its own handler and replaced. *)
Theorem current_user_or_401 :
  forall (jwt_decode : string -> Auth.decoded) (auth_service : Auth.AuthService)
         (credentials : string),
    (forall payload,
       token_of_type jwt_decode "access" credentials payload ->
       Api.get_current_user jwt_decode auth_service credentials =
         Ok (user_of_claims payload)) /\
    ((forall payload, ~ token_of_type jwt_decode "access" credentials payload) ->
     Api.get_current_user jwt_decode auth_service credentials =
       Raise (HTTPException 401 "Could not validate credentials")).
Proof.
  intros jwt_decode auth_service credentials.
  rewrite get_current_user_spec.
  destruct (get_user_from_token_spec jwt_decode auth_service credentials) as (user & -> & U).
  split.
  - intros payload T.
    assert (S : user = Some (user_of_claims payload)).
    { apply U. exists payload. split; [exact T | reflexivity]. }
    rewrite S. reflexivity.
  - intros N. destruct user as [u|]; [|reflexivity].
    exfalso. destruct (proj1 (U u) eq_refl) as (payload & T & _).
    exact (N payload T).
Qed.

(** A concrete run of the statement above. *)
Lemma current_user_or_401_witness :
  Api.get_current_user Cases.jwt_decode Cases.auth_service "access-token"
    = Ok Cases.student /\
  Api.get_current_user Cases.jwt_decode Cases.auth_service "refresh-token"
    = Raise (HTTPException 401 "Could not validate credentials").
Proof.
  split.
  - destruct (current_user_or_401 Cases.jwt_decode Cases.auth_service "access-token")
      as (H & _).
    apply (H Cases.access_claims). repeat split.
  - destruct (current_user_or_401 Cases.jwt_decode Cases.auth_service "refresh-token")
      as (_ & H).
    apply H. intros payload (D & T & _).
    vm_compute in D. injection D as <-. discriminate.
Defined.

(** X20.  [get_user_from_token] and [refresh_access_token] never raise, and
    the two kinds of token are not interchangeable: a token whose claims are
    of the type "refresh" gives no user, and one whose claims are of the
    type "access" gives no new access token. *)
Theorem tokens_are_not_interchangeable :
  forall (jwt_encode : list (string * pyval) -> M string)
         (jwt_decode : string -> Auth.decoded) (utcnow : Z)
         (self : Auth.AuthService) (token : string),
    (exists user, Auth.get_user_from_token jwt_decode self token = Ok user) /\
    (exists access,
       Auth.refresh_access_token jwt_encode jwt_decode utcnow self token = Ok access) /\
    (forall payload,
       token_of_type jwt_decode "refresh" token payload ->
       Auth.get_user_from_token jwt_decode self token = Ok None) /\
    (forall payload,
       token_of_type jwt_decode "access" token payload ->
       Auth.refresh_access_token jwt_encode jwt_decode utcnow self token = Ok None).
Proof.
  intros jwt_encode jwt_decode utcnow self token.
  destruct (get_user_from_token_spec jwt_decode self token) as (user & U & Us).
  destruct (refresh_access_token_spec jwt_encode jwt_decode utcnow self token)
    as (access & A & As).
  split; [eauto|]. split; [eauto|]. split.
  - intros payload (D & T & _). rewrite U. destruct user as [u|]; [|reflexivity].
    exfalso. destruct (proj1 (Us u) eq_refl) as (payload' & (D' & T' & _) & _).
    rewrite D in D'. injection D' as <-. rewrite T in T'. discriminate.
  - intros payload (D & T & _). rewrite A. destruct access as [a|]; [|reflexivity].
    exfalso. destruct (As a eq_refl) as (payload' & (D' & T' & _) & _).
    rewrite D in D'. injection D' as <-. rewrite T in T'. discriminate.
Qed.

(** A concrete run of the statement above. *)
Lemma tokens_are_not_interchangeable_witness :
  Auth.get_user_from_token Cases.jwt_decode Cases.auth_service "refresh-token" = Ok None /\
  Auth.refresh_access_token Cases.jwt_encode Cases.jwt_decode 0 Cases.auth_service
    "access-token" = Ok None.
Proof.
  split.
  - destruct (tokens_are_not_interchangeable Cases.jwt_encode Cases.jwt_decode 0
                Cases.auth_service "refresh-token") as (_ & _ & H & _).
    apply (H Cases.refresh_claims). repeat split.
  - destruct (tokens_are_not_interchangeable Cases.jwt_encode Cases.jwt_decode 0
                Cases.auth_service "access-token") as (_ & _ & _ & H).
    apply (H Cases.access_claims). repeat split.
Defined.

(** X21.  The progress endpoint answers a user who asks for their own
    progress, and a teacher who asks for anyone's, with the dictionary of
    the conversation service, and this always succeeds, also when the
    database fails.  Anyone else gets the status 500, not 403: the
    exception "Not authorized" is raised inside the [try] block and turned
    into the detail of a 500 by the handler. *)
Theorem progress_endpoint_authorization :
  forall (Session : Type) (exn_str : exn -> string)
         (count_conversations average_overall_score latest_proficiency_level
            last_conversation_created_at : Session -> string -> M pyval)
         (last_ten_evaluations : Session -> string -> M (list ConversationService.trend_row))
         (user_id : string) (current_user : Auth.User) (db : Session),
    let endpoint :=
      Api.get_user_progress exn_str count_conversations average_overall_score
        latest_proficiency_level last_conversation_created_at last_ten_evaluations
        user_id current_user db in
    let progress :=
      ConversationService.get_user_progress count_conversations average_overall_score
        latest_proficiency_level last_conversation_created_at last_ten_evaluations
        user_id db in
    (Auth.id current_user = VStr user_id \/ Auth.role current_user = VStr "teacher" ->
     endpoint = progress /\ exists d, endpoint = Ok d) /\
    (Auth.id current_user <> VStr user_id /\ Auth.role current_user <> VStr "teacher" ->
     endpoint = Raise (HTTPException 500 (exn_str (HTTPException 403 "Not authorized")))).
Proof.
  intros Session exn_str count_conversations average_overall_score
         latest_proficiency_level last_conversation_created_at last_ten_evaluations
         user_id current_user db.
  cbv zeta. unfold Api.get_user_progress.
  destruct (progress_returns count_conversations average_overall_score
              latest_proficiency_level last_conversation_created_at last_ten_evaluations
              user_id db) as (d & P).
  split.
  - intros A.
    assert (E : Auth.differs_from (Auth.id current_user) user_id
                && Auth.differs_from (Auth.role current_user) "teacher" = false).
    { apply andb_false_iff. destruct A as [A|A]; [left | right];
        apply differs_from_false; exact A. }
    rewrite E, P. cbn [bind try_except]. split; [reflexivity | eauto].
  - intros [A B].
    assert (E : Auth.differs_from (Auth.id current_user) user_id
                && Auth.differs_from (Auth.role current_user) "teacher" = true).
    { apply andb_true_iff. split; apply not_false_iff_true; intros F;
        apply differs_from_false in F; contradiction. }
    rewrite E. reflexivity.
Qed.

(** A concrete run of the statement above. *)
Lemma progress_endpoint_authorization_witness :
  (exists d,
     Api.get_user_progress Cases.exn_str Cases.null Cases.null Cases.null Cases.null
       Cases.no_rows "7" Cases.student tt = Ok d) /\
  Api.get_user_progress Cases.exn_str Cases.null Cases.null Cases.null Cases.null
    Cases.no_rows "8" Cases.student tt =
    Raise (HTTPException 500 "403: Not authorized").
Proof.
  split.
  - destruct (progress_endpoint_authorization Cases.exn_str Cases.null Cases.null Cases.null
                Cases.null Cases.no_rows "7" Cases.student tt) as (H & _).
    apply H. left. reflexivity.
  - destruct (progress_endpoint_authorization Cases.exn_str Cases.null Cases.null Cases.null
                Cases.null Cases.no_rows "8" Cases.student tt) as (_ & H).
    apply H. split; discriminate.
Defined.

(** X22.  The endpoint that reads a conversation never answers 404.  When
    the conversation is found and passes the validation of the response
    model it is returned; when it is not found, and also when the query
    raises (the service turns that into "not found"), the endpoint raises
    the status 500 with the text of the 404 exception as its detail; and
    whatever it raises is an [HTTPException] with the status 500. *)
Theorem conversation_endpoint_never_404 :
  forall (Session Conversation ConversationResponse : Type) (exn_str : exn -> string)
         (select_conversation : Session -> string -> pyval -> M (option Conversation))
         (from_orm : Conversation -> M ConversationResponse)
         (conversation_id : string) (current_user : Auth.User) (db : Session),
    let endpoint :=
      Api.get_conversation exn_str select_conversation from_orm
        conversation_id current_user db in
    let query := select_conversation db conversation_id (Auth.id current_user) in
    let not_found :=
      Raise (HTTPException 500 (exn_str (HTTPException 404 "Conversation not found"))) in
    (forall conversation response,
       query = Ok (Some conversation) -> from_orm conversation = Ok response ->
       endpoint = Ok response) /\
    (query = Ok None -> endpoint = not_found) /\
    (forall e, query = Raise e ->
       endpoint = not_found /\
       ConversationQueries.get_conversation select_conversation
         conversation_id (Auth.id current_user) db = Ok None) /\
    (forall e, endpoint = Raise e -> exists detail, e = HTTPException 500 detail).
Proof.
  intros Session Conversation ConversationResponse exn_str select_conversation from_orm
         conversation_id current_user db. cbv zeta.
  rewrite get_conversation_spec. cbv zeta.
  unfold ConversationQueries.get_conversation.
  destruct (select_conversation db conversation_id (Auth.id current_user))
    as [[conversation|]|e0].
  - split; [|split; [discriminate | split; [discriminate|]]].
    + intros c r E F. injection E as <-. rewrite F. reflexivity.
    + intros e. destruct (from_orm conversation); [discriminate|].
      intros E. injection E as <-. eauto.
  - split; [discriminate|]. split; [reflexivity|]. split; [discriminate|].
    intros e E. injection E as <-. eauto.
  - split; [discriminate|]. split; [discriminate|]. split; [split; reflexivity|].
    intros e E. injection E as <-. eauto.
Qed.

(** A concrete run of the statement above. *)
Lemma conversation_endpoint_never_404_witness :
  Api.get_conversation Cases.exn_str Cases.no_conversation Cases.from_orm
    "c1" Cases.student tt = Raise (HTTPException 500 "404: Conversation not found") /\
  Api.get_conversation Cases.exn_str Cases.database_down Cases.from_orm
    "c1" Cases.student tt = Raise (HTTPException 500 "404: Conversation not found").
Proof.
  split.
  - destruct (conversation_endpoint_never_404 Cases.exn_str Cases.no_conversation
                Cases.from_orm "c1" Cases.student tt) as (_ & H & _).
    apply H. reflexivity.
  - destruct (conversation_endpoint_never_404 Cases.exn_str Cases.database_down
                Cases.from_orm "c1" Cases.student tt) as (_ & _ & H & _).
    apply (H (OtherError "connection closed")). reflexivity.
Defined.

(** X23.  [health_check] names the service the test endpoint calls: "GPT"
    with the configured GPT model when GPT analysis is switched on and the
    key is set, "LLaMA" with the name of the loaded model otherwise.  It
    does not look at the GPT service itself: where the [openai] package is
    missing the service has no client, the health check still answers "GPT",
    and the test endpoint fails every request with the status 500. *)
Theorem health_check_names_selected_service :
  forall (Tokenizer Model Client : Type)
         (generate_and_decode : Tokenizer -> Model -> string -> Z -> M string)
         (chat_completions_create : Client -> string -> string -> string -> M (option string))
         (json_loads : string -> M pyval)
         (repr_float : pyfloat -> string) (exn_str : exn -> string)
         (AsyncOpenAI : string -> Client)
         (settings : Main.Settings)
         (llama_service : LLaMA.LLaMAAnalysisService Tokenizer Model),
    let health := Api.health_check settings llama_service in
    let uses_gpt :=
      Main.USE_GPT_ANALYSIS settings = true /\ key_is_set (Main.OPENAI_API_KEY settings) in
    (uses_gpt ->
     field "analysis_model" health = Some (VStr "GPT") /\
     field "model" health = Some (VStr (Main.GPT_MODEL settings)) /\
     forall transcript context audio_duration,
       Main.test_analyze_conversation generate_and_decode chat_completions_create
         json_loads repr_float exn_str settings llama_service
         (GPT.init false AsyncOpenAI (Main.OPENAI_API_KEY settings) (Main.GPT_MODEL settings))
         transcript context audio_duration =
       Raise (HTTPException 500
                ("Analysis failed: " ++
                 exn_str (RuntimeError
                            "GPT client not initialized. Please provide OpenAI API key.")))) /\
    (~ uses_gpt ->
     field "analysis_model" health = Some (VStr "LLaMA") /\
     field "model" health = Some (VStr (LLaMA.model_name llama_service))).
Proof.
  intros Tokenizer Model Client generate_and_decode chat_completions_create json_loads
         repr_float exn_str AsyncOpenAI settings llama_service. cbv zeta.
  assert (C : Main.USE_GPT_ANALYSIS settings && truthy_str (Main.OPENAI_API_KEY settings) = true
              <-> Main.USE_GPT_ANALYSIS settings = true /\
                  key_is_set (Main.OPENAI_API_KEY settings)).
  { rewrite andb_true_iff, truthy_str_set. reflexivity. }
  unfold Api.health_check, Main.test_analyze_conversation. cbv zeta.
  split.
  - intros U. apply C in U. rewrite U. cbn [field lookup String.eqb Ascii.eqb Bool.eqb].
    split; [reflexivity|]. split; [reflexivity|]. intros transcript context audio_duration.
    reflexivity.
  - intros U.
    destruct (Main.USE_GPT_ANALYSIS settings && truthy_str (Main.OPENAI_API_KEY settings));
      [exfalso; apply U, C; reflexivity|].
    split; reflexivity.
Qed.

(** A concrete run of the statement above. *)
Lemma health_check_names_selected_service_witness :
  field "analysis_model" (Api.health_check Cases.settings Sample.service)
    = Some (VStr "GPT") /\
  Main.test_analyze_conversation Sample.out_of_memory Cases.chat_times_out
    Sample.json_loads Cases.repr_float Cases.exn_str Cases.settings Sample.service
    (GPT.init false (fun _ => tt) (Some "sk-test") "gpt-4") "I like tea" None None =
    Raise (HTTPException 500
             "Analysis failed: GPT client not initialized. Please provide OpenAI API key.").
Proof.
  destruct (@health_check_names_selected_service unit unit unit Sample.out_of_memory
              Cases.chat_times_out Sample.json_loads Cases.repr_float Cases.exn_str
              (fun _ => tt) Cases.settings Sample.service) as (H & _).
  destruct H as (A & _ & E).
  - split; [reflexivity | exists "sk-test"; split; [reflexivity | discriminate]].
  - split; [exact A | apply E].
Defined.

Lemma get_update (key key' : string) (value : pyval) (d : list (string * pyval)) :
  Auth.get (Auth.update key value d) key' =
    if String.eqb key' key then value else Auth.get d key'.
Proof.
  unfold Auth.get. induction d as [|[k v] d IH]; cbn [Auth.update lookup].
  - destruct (String.eqb key' key); reflexivity.
  - destruct (String.eqb_spec k key) as [->|N]; cbn [lookup].
    + destruct (String.eqb key' key); reflexivity.
    + destruct (String.eqb_spec key' k) as [->|N'].
      * destruct (String.eqb_spec k key); [contradiction | reflexivity].
      * exact IH.
Qed.

(** The claims of a token keep what the data said of the user, and carry
    the type of the token. *)
Lemma typed_claims (type : string) (expire : Z) (data : list (string * pyval)) :
  let claims := Auth.update "type" (VStr type) (Auth.update "exp" (VInt expire) data) in
  Auth.get claims "type" = VStr type /\
  Auth.get claims "sub" = Auth.get data "sub" /\
  Auth.get claims "email" = Auth.get data "email" /\
  Auth.get claims "role" = Auth.get data "role".
Proof. cbv zeta. rewrite !get_update. repeat split. Qed.

(** X24.  A token that [create_access_token] makes for data with a subject
    is accepted by [get_user_from_token], which gives back the subject, the
    e-mail address and the role of the data, whatever type the data claimed
    for itself; [refresh_access_token] refuses it.  A token of
    [create_refresh_token] is refused by [get_user_from_token].  This holds
    for every token library that decodes a token to the claims it was made
    from. *)
Theorem access_token_round_trip :
  forall (jwt_encode : list (string * pyval) -> M string)
         (jwt_decode : string -> Auth.decoded) (utcnow : Z)
         (self : Auth.AuthService) (data : list (string * pyval))
         (expires_delta : option Z) (token : string),
    (forall claims, jwt_encode claims = Ok token -> jwt_decode token = Auth.Claims claims) ->
    ConversationService.truthy (Auth.get data "sub") = true ->
    (Auth.create_access_token jwt_encode utcnow self data expires_delta = Ok token ->
     Auth.get_user_from_token jwt_decode self token = Ok (Some (user_of_claims data)) /\
     Auth.refresh_access_token jwt_encode jwt_decode utcnow self token = Ok None) /\
    (Auth.create_refresh_token jwt_encode utcnow self data = Ok token ->
     Auth.get_user_from_token jwt_decode self token = Ok None).
Proof.
  intros jwt_encode jwt_decode utcnow self data expires_delta token R S.
  destruct (get_user_from_token_spec jwt_decode self token) as (user & U & Us).
  destruct (refresh_access_token_spec jwt_encode jwt_decode utcnow self token)
    as (access & A & As).
  split.
  - unfold Auth.create_access_token. intros E. apply R in E.
    match type of E with
    | _ = Auth.Claims (Auth.update "type" _ (Auth.update "exp" (VInt ?expire) data)) =>
        destruct (typed_claims "access" expire data) as (T & Su & Em & Ro)
    end.
    split.
    + rewrite U. f_equal. apply Us. eexists. split.
      * split; [exact E|]. split; [exact T|]. rewrite Su. exact S.
      * unfold user_of_claims. rewrite Su, Em, Ro. reflexivity.
    + rewrite A. destruct access as [a|]; [|reflexivity]. exfalso.
      destruct (As a eq_refl) as (claims & (D & T' & _) & _). congruence.
  - unfold Auth.create_refresh_token. intros E. apply R in E.
    match type of E with
    | _ = Auth.Claims (Auth.update "type" _ (Auth.update "exp" (VInt ?expire) data)) =>
        destruct (typed_claims "refresh" expire data) as (T & _)
    end.
    rewrite U. destruct user as [u|]; [|reflexivity]. exfalso.
    destruct (proj1 (Us u) eq_refl) as (claims & (D & T' & _) & _). congruence.
Qed.

(** A concrete run of the statement above. *)
Lemma access_token_round_trip_witness :
  let data := [("sub", VStr "7"); ("email", VStr "ann@example.org");
               ("role", VStr "student")] in
  Auth.create_access_token Cases.jwt_encode 0 Cases.auth_service data None
    = Ok "access-token" /\
  Auth.get_user_from_token Cases.jwt_decode Cases.auth_service "access-token"
    = Ok (Some (user_of_claims data)) /\
  Auth.refresh_access_token Cases.jwt_encode Cases.jwt_decode 0 Cases.auth_service
    "access-token" = Ok None.
Proof.
  cbv zeta. split; [reflexivity|].
  destruct (@access_token_round_trip Cases.jwt_encode Cases.jwt_decode 0 Cases.auth_service
              [("sub", VStr "7"); ("email", VStr "ann@example.org");
               ("role", VStr "student")] None "access-token") as (H & _).
  - intros claims E. unfold Cases.jwt_encode in E.
    repeat match type of E with
           | context [match ?x with _ => _ end] =>
               is_var x; destruct x; try discriminate
           end.
    destruct (_ && _) eqn:K in E; [|discriminate].
    destruct (_ && _) eqn:A in E;
      [|destruct (_ && _) in E; discriminate].
    repeat match goal with
           | H : _ && _ = true |- _ => apply andb_true_iff in H; destruct H
           | H : String.eqb _ _ = true |- _ => apply String.eqb_eq in H; subst
           | H : (_ =? _) = true |- _ => apply Z.eqb_eq in H; subst
           end.
    reflexivity.
  - reflexivity.
  - apply H. reflexivity.
Defined.

(** X25.  When GPT analysis is switched off or no key is set, the test
    endpoint cannot fail: for every transcript, whatever the language model
    and [json.loads] do, it returns the dictionary of a LLaMA analysis, with
    the fixed conversation id and the pronunciation score 0. *)
Theorem test_endpoint_with_llama_never_fails :
  forall (Tokenizer Model Client : Type)
         (generate_and_decode : Tokenizer -> Model -> string -> Z -> M string)
         (chat_completions_create : Client -> string -> string -> string -> M (option string))
         (json_loads : string -> M pyval)
         (repr_float : pyfloat -> string) (exn_str : exn -> string)
         (settings : Main.Settings)
         (llama_service : LLaMA.LLaMAAnalysisService Tokenizer Model)
         (gpt_service : GPT.GPTAnalysisService Client)
         (transcript : string) (context : option string) (audio_duration : option pyfloat),
    ~ (Main.USE_GPT_ANALYSIS settings = true /\ key_is_set (Main.OPENAI_API_KEY settings)) ->
    exists result,
      LLaMA.analyze_conversation generate_and_decode json_loads llama_service
        transcript context audio_duration = Ok result /\
      Main.test_analyze_conversation generate_and_decode chat_completions_create
        json_loads repr_float exn_str settings llama_service gpt_service
        transcript context audio_duration = Ok (Main.response result) /\
      field "conversation_id" (Main.response result)
        = Some (VStr "550e8400-e29b-41d4-a716-446655440000") /\
      field "pronunciation_score" (Main.response result) = Some (VInt 0).
Proof.
  intros Tokenizer Model Client generate_and_decode chat_completions_create json_loads
         repr_float exn_str settings llama_service gpt_service transcript context
         audio_duration U.
  assert (C : Main.USE_GPT_ANALYSIS settings && truthy_str (Main.OPENAI_API_KEY settings)
              = false).
  { apply not_true_iff_false. intros H. apply U.
    apply andb_true_iff in H. destruct H as [H1 H2]. apply truthy_str_set in H2. auto. }
  destruct (analyze_conversation_returns generate_and_decode json_loads llama_service
              transcript context audio_duration) as (result & A & P & _).
  exists result. split; [exact A|].
  unfold Main.test_analyze_conversation. rewrite C, A. cbn [bind try_except].
  split; [reflexivity|]. split; [reflexivity|].
  unfold Main.response. cbn [field lookup String.eqb Ascii.eqb Bool.eqb].
  cbn [Main.pronunciation_score Main.Analysis_LLaMA]. rewrite P. reflexivity.
Qed.

(** A concrete run of the statement above. *)
Lemma test_endpoint_with_llama_never_fails_witness :
  let settings :=
    {| Main.USE_GPT_ANALYSIS := false; Main.OPENAI_API_KEY := Some "sk-test";
       Main.GPT_MODEL := "gpt-4" |} in
  exists result : LLaMA.AnalysisResult,
    Main.test_analyze_conversation Sample.out_of_memory Cases.chat_times_out
      Sample.json_loads Cases.repr_float Cases.exn_str settings Sample.service
      Cases.gpt_service "hello there" None None = Ok (Main.response result) /\
    field "pronunciation_score" (Main.response result) = Some (VInt 0).
Proof.
  cbv zeta.
  destruct (@test_endpoint_with_llama_never_fails unit unit unit Sample.out_of_memory
              Cases.chat_times_out Sample.json_loads Cases.repr_float Cases.exn_str
              {| Main.USE_GPT_ANALYSIS := false; Main.OPENAI_API_KEY := Some "sk-test";
                 Main.GPT_MODEL := "gpt-4" |}
              Sample.service Cases.gpt_service "hello there" None None)
    as (result & _ & E & _ & P).
  - intros [H _]. discriminate.
  - exists result. split; [exact E | exact P].
Defined.
